(** * The CSV import pipeline of rybbit: client parser/batcher, upload
      coordinator and server batch-ingestion handler.

    Sources embedded here:
    - [client/src/lib/import/csv-worker-manager.ts] (class [CSVWorkerManager]),
    - [client/src/workers/csv-import.worker.ts] (the worker parser),
    - the earlier worker-based [CSVWorkerManager] (message-driven coordinator),
    - the server route handler [batchImportEvents]. *)

From Stdlib Require Import ZArith String Ascii List Bool Lia.
From stdpp Require Import base option list gmap strings pretty.

Local Open Scope string_scope.
Local Open Scope Z_scope.
Local Open Scope list_scope.

(** ** JavaScript values as far as the pipeline sees them *)

Module Js.

(** A CSV row as PapaParse hands it over with [header: true] and no dynamic
    typing: an object from header names to strings; a property that is not
    there reads [undefined] ([None]). *)
Abbreviation RawRecord := (gmap string string).

(** Truthiness of a property read: [undefined] and the empty string are
    falsy, every other string is truthy. *)
Definition truthy (v : option string) : bool :=
  match v with
  | Some s => negb (String.eqb s "")
  | None => false
  end.

(** [String(v || "")]. *)
Definition String_or_empty (v : option string) : string :=
  if truthy v then default "" v else "".

(** [response.ok]: the status is in the range 200-299. *)
Definition status_ok (code : Z) : bool := (200 <=? code) && (code <=? 299).

(** [a || b] on optional strings, where the right operand is a string. *)
Definition or_string (a : option string) (b : string) : string :=
  if truthy a then default "" a else b.

End Js.

(** ** The event record shared by client and server ([UmamiEvent]) *)

Record UmamiEvent := mkUmamiEvent {
  session_id : string;
  hostname : string;
  browser : string;
  os : string;
  device : string;
  screen : string;
  language : string;
  country : string;
  region : string;
  city : string;
  url_path : string;
  url_query : string;
  referrer_path : string;
  referrer_query : string;
  referrer_domain : string;
  page_title : string;
  event_type : string;
  event_name : string;
  distinct_id : string;
  created_at : string
}.

(** The position-to-field table [umamiHeaders]; [None] is [undefined]. *)
Definition umamiHeaders : list (option string) :=
  [ None; Some "session_id"; None; None; Some "hostname"; Some "browser";
    Some "os"; Some "device"; Some "screen"; Some "language"; Some "country";
    Some "region"; Some "city"; Some "url_path"; Some "url_query";
    None; None; None; None; None;
    Some "referrer_path"; Some "referrer_query"; Some "referrer_domain";
    Some "page_title"; None; None; None; None; None; None;
    Some "event_type"; Some "event_name"; None; Some "distinct_id";
    Some "created_at"; None ].

(** [transformHeader]: [umamiHeaders[index] || header]. *)
Definition transformHeader (header : string) (index : nat) : string :=
  Js.or_string (mjoin (umamiHeaders !! index)) header.

(** The recognized fields: the positions of [umamiHeaders] that carry a name. *)
Definition recognized_fields : list string := omap id umamiHeaders.

(** The properties of an [UmamiEvent] object, by name. *)
Definition umamiFields : list (string * (UmamiEvent -> string)) :=
  [ ("session_id", session_id); ("hostname", hostname); ("browser", browser);
    ("os", os); ("device", device); ("screen", screen);
    ("language", language); ("country", country); ("region", region);
    ("city", city); ("url_path", url_path); ("url_query", url_query);
    ("referrer_path", referrer_path); ("referrer_query", referrer_query);
    ("referrer_domain", referrer_domain); ("page_title", page_title);
    ("event_type", event_type); ("event_name", event_name);
    ("distinct_id", distinct_id); ("created_at", created_at) ].

(** Property read [e[k]] on an [UmamiEvent]. *)
Fixpoint assoc_get {A} (k : string) (l : list (string * A)) : option A :=
  match l with
  | [] => None
  | (k', x) :: l' => if String.eqb k k' then Some x else assoc_get k l'
  end.

Definition event_get (e : UmamiEvent) (k : string) : option string :=
  (fun p => p e) <$> assoc_get k umamiFields.

(** The event as the object that travels in the request body. *)
Definition to_record (e : UmamiEvent) : Js.RawRecord :=
  list_to_map (map (fun kp => (fst kp, snd kp e)) umamiFields).

(** The mapper of [handleParsedRow], the same text in the worker and in the
    manager: every field is [String(rawEvent.f || "")]. *)
Definition toUmamiEvent (rawEvent : Js.RawRecord) : UmamiEvent :=
  {| session_id := Js.String_or_empty (rawEvent !! "session_id");
     hostname := Js.String_or_empty (rawEvent !! "hostname");
     browser := Js.String_or_empty (rawEvent !! "browser");
     os := Js.String_or_empty (rawEvent !! "os");
     device := Js.String_or_empty (rawEvent !! "device");
     screen := Js.String_or_empty (rawEvent !! "screen");
     language := Js.String_or_empty (rawEvent !! "language");
     country := Js.String_or_empty (rawEvent !! "country");
     region := Js.String_or_empty (rawEvent !! "region");
     city := Js.String_or_empty (rawEvent !! "city");
     url_path := Js.String_or_empty (rawEvent !! "url_path");
     url_query := Js.String_or_empty (rawEvent !! "url_query");
     referrer_path := Js.String_or_empty (rawEvent !! "referrer_path");
     referrer_query := Js.String_or_empty (rawEvent !! "referrer_query");
     referrer_domain := Js.String_or_empty (rawEvent !! "referrer_domain");
     page_title := Js.String_or_empty (rawEvent !! "page_title");
     event_type := Js.String_or_empty (rawEvent !! "event_type");
     event_name := Js.String_or_empty (rawEvent !! "event_name");
     distinct_id := Js.String_or_empty (rawEvent !! "distinct_id");
     created_at := Js.String_or_empty (rawEvent !! "created_at") |}.

(** ** Dates: the part of luxon's [DateTime] the filter uses

    luxon is a library the client imports; what follows describes
    [DateTime.fromFormat] for the two formats the filter passes to it, the
    comparison of two [DateTime]s, and [startOf]/[endOf] for days, all in
    UTC. *)

Module Luxon.

(** A [DateTime] is invalid or an instant, in milliseconds since the epoch
    (its [valueOf()]); the zone is always UTC here. *)
Inductive DateTime :=
| Invalid
| Valid (ms : Z).

Definition isValid (d : DateTime) : bool :=
  match d with Invalid => false | Valid _ => true end.

(** [a < b] on two [DateTime]s compares [valueOf()]; an invalid one is
    [NaN], and every comparison with [NaN] is false. *)
Definition lt (a b : DateTime) : bool :=
  match a, b with
  | Valid x, Valid y => x <? y
  | _, _ => false
  end.

Definition is_digit (c : ascii) : bool :=
  let n := nat_of_ascii c in (48 <=? n)%nat && (n <=? 57)%nat.

Definition digit_val (c : ascii) : Z := Z.of_nat (nat_of_ascii c) - 48.

(** Exactly [n] decimal digits at the head of [s]. *)
Fixpoint digits (n : nat) (acc : Z) (s : string) : option (Z * string) :=
  match n with
  | O => Some (acc, s)
  | S n' =>
      match s with
      | String c s' =>
          if is_digit c then digits n' (10 * acc + digit_val c) s' else None
      | EmptyString => None
      end
  end.

(** The literal character [c] at the head of [s]. *)
Definition lit (c : ascii) (s : string) : option string :=
  match s with
  | String c' s' => if Ascii.eqb c c' then Some s' else None
  | EmptyString => None
  end.

Definition isLeapYear (y : Z) : bool :=
  (y mod 4 =? 0) && (negb (y mod 100 =? 0) || (y mod 400 =? 0)).

Definition daysInMonth (y m : Z) : Z :=
  if m =? 2 then (if isLeapYear y then 29 else 28)
  else if (m =? 4) || (m =? 6) || (m =? 9) || (m =? 11) then 30
  else 31.

(** Days from 1970-01-01 to the civil date [y-m-d] (proleptic Gregorian). *)
Definition days_from_civil (y m d : Z) : Z :=
  let y' := if m <=? 2 then y - 1 else y in
  let era := y' / 400 in
  let yoe := y' - era * 400 in
  let mp := if 2 <? m then m - 3 else m + 9 in
  let doy := (153 * mp + 2) / 5 + d - 1 in
  let doe := yoe * 365 + yoe / 4 - yoe / 100 + doy in
  era * 146097 + doe - 719468.

Definition msPerDay : Z := 86400000.

(** The validity test luxon applies to the parsed units. *)
Definition validDate (y m d : Z) : bool :=
  (1 <=? m) && (m <=? 12) && (1 <=? d) && (d <=? daysInMonth y m).

Definition validTime (h mi s : Z) : bool :=
  (((0 <=? h) && (h <=? 23)) || ((h =? 24) && (mi =? 0) && (s =? 0)))
  && (0 <=? mi) && (mi <=? 59) && (0 <=? s) && (s <=? 59).

Definition utc (y m d h mi s : Z) : Z :=
  days_from_civil y m d * msPerDay + ((h * 60 + mi) * 60 + s) * 1000.

(** [DateTime.fromFormat(s, "yyyy-MM-dd", { zone: "utc" })]. *)
Definition fromFormat_date (s : string) : DateTime :=
  match
    '(y, s) ← digits 4 0 s; s ← lit "-" s;
    '(m, s) ← digits 2 0 s; s ← lit "-" s;
    '(d, s) ← digits 2 0 s;
    if String.eqb s "" && validDate y m d then Some (utc y m d 0 0 0) else None
  with
  | Some ms => Valid ms
  | None => Invalid
  end.

(** [DateTime.fromFormat(s, "yyyy-MM-dd HH:mm:ss", { zone: "utc" })]. *)
Definition fromFormat_datetime (s : string) : DateTime :=
  match
    '(y, s) ← digits 4 0 s; s ← lit "-" s;
    '(m, s) ← digits 2 0 s; s ← lit "-" s;
    '(d, s) ← digits 2 0 s; s ← lit " " s;
    '(h, s) ← digits 2 0 s; s ← lit ":" s;
    '(mi, s) ← digits 2 0 s; s ← lit ":" s;
    '(sec, s) ← digits 2 0 s;
    if String.eqb s "" && validDate y m d && validTime h mi sec
    then Some (utc y m d h mi sec) else None
  with
  | Some ms => Valid ms
  | None => Invalid
  end.

(** [.startOf("day")] and [.endOf("day")] in UTC. *)
Definition startOf_day (d : DateTime) : DateTime :=
  match d with
  | Invalid => Invalid
  | Valid ms => Valid (ms / msPerDay * msPerDay)
  end.

Definition endOf_day (d : DateTime) : DateTime :=
  match d with
  | Invalid => Invalid
  | Valid ms => Valid (ms / msPerDay * msPerDay + msPerDay - 1)
  end.

End Luxon.

(** ** The date-range filter *)

(** The two module-level variables [earliestAllowedDate] and
    [latestAllowedDate] ([DateTime | null]). *)
Record DateRange := mkDateRange {
  earliestAllowedDate : option Luxon.DateTime;
  latestAllowedDate : option Luxon.DateTime
}.

Definition noDateRange : DateRange := mkDateRange None None.

(** [createDateRangeFilter]: assigns both variables, then throws on an
    invalid bound ([inl] carries the message of the [Error]). *)
Definition createDateRangeFilter (earliestStr latestStr : string)
  : string + DateRange :=
  let e := Luxon.startOf_day (Luxon.fromFormat_date earliestStr) in
  let l := Luxon.endOf_day (Luxon.fromFormat_date latestStr) in
  if negb (Luxon.isValid e) then
    inl ("Invalid earliest allowed date: " +:+ earliestStr)
  else if negb (Luxon.isValid l) then
    inl ("Invalid latest allowed date: " +:+ latestStr)
  else inr (mkDateRange (Some e) (Some l)).

(** [isDateInRange], the same text in the worker and in the manager. *)
Definition isDateInRange (f : DateRange) (dateStr : string) : bool :=
  let createdAt := Luxon.fromFormat_datetime dateStr in
  if negb (Luxon.isValid createdAt) then false
  else if match earliestAllowedDate f with
          | Some e => Luxon.lt createdAt e
          | None => false
          end then false
  else if match latestAllowedDate f with
          | Some l => Luxon.lt l createdAt
          | None => false
          end then false
  else true.

(** ** What travels between client and server *)

Module Http.

(** A value caught by [catch]: an [Error] with its message, or anything
    else. *)
Inductive Thrown :=
| ThrownError (msg : string)
| ThrownOther.

(** [error instanceof Error ? error.message : "Unknown error"]. *)
Definition message_of (t : Thrown) : string :=
  match t with
  | ThrownError msg => msg
  | ThrownOther => "Unknown error"
  end.

(** The request of [POST /api/batch-import-events/{site}/{importId}]:
    path parameters and JSON body. *)
Record BatchImportRequest := mkRequest {
  params_site : string;
  params_importId : string;
  body_events : list Js.RawRecord;
  body_isLastBatch : option bool
}.

(** The JSON object of a response; every property is optional. *)
Record ResponseBody := mkBody {
  success : option bool;
  importedCount : option Z;
  quotaExceeded : option bool;
  message : option string;
  error : option string
}.

Record Response := mkResponse {
  status : Z;
  body : ResponseBody
}.

(** How a [fetch] settles, seen from the client: the promise rejects, or a
    response arrives whose body is a JSON object or fails to parse
    ([response.json()] rejects with the value on the left). *)
Inductive FetchOutcome :=
| Rejected (t : Thrown)
| Responded (status : Z) (body : Thrown + ResponseBody).

Definition of_response (r : Response) : FetchOutcome :=
  Responded (status r) (inr (body r)).

End Http.

(** ** The upload coordinator: class [CSVWorkerManager] *)

Module Manager.

Definition BATCH_SIZE : Z := 5000.

(** The fields of the class. [onComplete] records whether a callback was
    given to the constructor. *)
Record t := mk {
  aborted : bool;
  onComplete : bool;
  uploadInProgress : bool;
  parsingComplete : bool;
  quotaExceeded : bool;
  siteId : Z;
  importId : string;
  currentBatch : list UmamiEvent;
  range : DateRange
}.

Definition set_aborted (b : bool) (m : t) : t :=
  mk b (onComplete m) (uploadInProgress m) (parsingComplete m)
     (quotaExceeded m) (siteId m) (importId m) (currentBatch m) (range m).
Definition set_uploadInProgress (b : bool) (m : t) : t :=
  mk (aborted m) (onComplete m) b (parsingComplete m)
     (quotaExceeded m) (siteId m) (importId m) (currentBatch m) (range m).
Definition set_parsingComplete (b : bool) (m : t) : t :=
  mk (aborted m) (onComplete m) (uploadInProgress m) b
     (quotaExceeded m) (siteId m) (importId m) (currentBatch m) (range m).
Definition set_quotaExceeded (b : bool) (m : t) : t :=
  mk (aborted m) (onComplete m) (uploadInProgress m) (parsingComplete m)
     b (siteId m) (importId m) (currentBatch m) (range m).
Definition set_currentBatch (l : list UmamiEvent) (m : t) : t :=
  mk (aborted m) (onComplete m) (uploadInProgress m) (parsingComplete m)
     (quotaExceeded m) (siteId m) (importId m) l (range m).

(** The object together with what it has done to the outside: the requests
    whose [fetch] has not settled yet (oldest first), every request issued
    so far, the calls made to the completion callback, and whether
    [Papa.parse] was started. *)
Record World := mkWorld {
  mgr : t;
  inflight : list Http.BatchImportRequest;
  sent : list Http.BatchImportRequest;
  completions : list (bool * string);
  parsing : bool
}.

Definition with_mgr (f : t -> t) (w : World) : World :=
  mkWorld (f (mgr w)) (inflight w) (sent w) (completions w) (parsing w).

(** [if (this.onComplete) this.onComplete(ok, msg)]. *)
Definition report (ok : bool) (msg : string) (w : World) : World :=
  if onComplete (mgr w)
  then mkWorld (mgr w) (inflight w) (sent w) (completions w ++ [(ok, msg)])
               (parsing w)
  else w.

(** The call [fetch(...)]: the request leaves and stays pending. *)
Definition fetch (events : list UmamiEvent) (isLastBatch : bool) (w : World)
  : World :=
  let req := Http.mkRequest (pretty (siteId (mgr w))) (importId (mgr w))
                            (map to_record events) (Some isLastBatch) in
  mkWorld (mgr w) (inflight w ++ [req]) (sent w ++ [req]) (completions w)
          (parsing w).

Definition handleError (msg : string) (w : World) : World :=
  report false msg w.

Definition terminate (w : World) : World := with_mgr (set_aborted true) w.

Definition checkCompletion (w : World) : World :=
  if parsingComplete (mgr w) && negb (uploadInProgress (mgr w))
     && negb (quotaExceeded (mgr w))
  then report true "Import completed successfully" w
  else w.

(** [uploadBatch] up to its first [await]: the part that runs inside the
    caller's turn. *)
Definition uploadBatch (events : list UmamiEvent) (isLastBatch : bool)
  (w : World) : World :=
  if quotaExceeded (mgr w) then w
  else if (Z.of_nat (length events) =? 0) && negb isLastBatch then w
  else fetch events isLastBatch (with_mgr (set_uploadInProgress true) w).

(** [uploadBatch] from the point where its [fetch] settles: the rest of the
    [try], the [catch] and the [finally]. *)
Definition uploadBatch_catch (t : Http.Thrown) (w : World) : World :=
  let w := report false ("Upload failed: " +:+ Http.message_of t) w in
  let w := terminate w in
  with_mgr (set_uploadInProgress false) w.

Definition uploadBatch_resume (o : Http.FetchOutcome) (w : World) : World :=
  match o with
  | Http.Rejected t => uploadBatch_catch t w
  | Http.Responded status body =>
      if negb (Js.status_ok status) then
        let errorData :=
          match body with
          | inr b => b
          | inl _ => Http.mkBody None None None None (Some "Unknown error")
          end in
        uploadBatch_catch
          (Http.ThrownError
             (Js.or_string (Http.error errorData) ("HTTP " +:+ pretty status)))
          w
      else
        match body with
        | inl t => uploadBatch_catch t w
        | inr data =>
            if default false (Http.quotaExceeded data) then
              let w := with_mgr (set_quotaExceeded true) w in
              let w := with_mgr (set_aborted true) w in
              let w := report true
                         (Js.or_string (Http.message data)
                                       "Import completed with quota limits") w in
              with_mgr (set_uploadInProgress false) w
            else
              checkCompletion (with_mgr (set_uploadInProgress false) w)
        end
  end.

Definition sendBatch (isLastBatch : bool) (w : World) : World :=
  if 0 <? Z.of_nat (length (currentBatch (mgr w))) then
    let batch := currentBatch (mgr w) in
    uploadBatch batch isLastBatch (with_mgr (set_currentBatch []) w)
  else if isLastBatch then uploadBatch [] isLastBatch w
  else w.

Definition handleParsedRow (row : Js.RawRecord) (w : World) : World :=
  let umamiEvent := toUmamiEvent row in
  if negb (Js.truthy (Some (created_at umamiEvent))) then w
  else if negb (isDateInRange (range (mgr w)) (created_at umamiEvent)) then w
  else
    let w := with_mgr (fun m => set_currentBatch (currentBatch m ++ [umamiEvent]) m) w in
    if BATCH_SIZE <=? Z.of_nat (length (currentBatch (mgr w)))
    then sendBatch false w
    else w.

Definition handleParseComplete (w : World) : World :=
  let w := with_mgr (set_parsingComplete true) w in
  let w := sendBatch true w in
  if negb (uploadInProgress (mgr w)) then checkCompletion w else w.

(** [startImport]: resets the fields, sets the date range and, when both
    bounds are valid, starts [Papa.parse]. *)
Definition startImport (hasCallback : bool) (siteId : Z) (importId : string)
  (earliestStr latestStr : string) : World :=
  let e := Luxon.startOf_day (Luxon.fromFormat_date earliestStr) in
  let l := Luxon.endOf_day (Luxon.fromFormat_date latestStr) in
  let m := mk false hasCallback false false false siteId importId []
              (mkDateRange (Some e) (Some l)) in
  let w := mkWorld m [] [] [] false in
  if negb (Luxon.isValid e) then
    handleError ("Invalid earliest allowed date: " +:+ earliestStr) w
  else if negb (Luxon.isValid l) then
    handleError ("Invalid latest allowed date: " +:+ latestStr) w
  else mkWorld m [] [] [] true.

(** What can happen to the object after [startImport]: a callback of
    [Papa.parse] runs, or the pending [fetch] number [i] settles. *)
Inductive Event :=
| Step (row : Js.RawRecord)
| Complete
| ParseError (msg : string)
| Settle (i : nat) (o : Http.FetchOutcome).

Definition deliver (w : World) (ev : Event) : World :=
  match ev with
  | Step row =>
      if negb (parsing w) then w
      else if aborted (mgr w) || quotaExceeded (mgr w) then w
      else handleParsedRow row w
  | Complete =>
      if negb (parsing w) then w
      else if aborted (mgr w) then w
      else handleParseComplete w
  | ParseError msg =>
      if negb (parsing w) then w
      else if aborted (mgr w) then w
      else handleError msg w
  | Settle i o =>
      match inflight w !! i with
      | None => w
      | Some _ =>
          uploadBatch_resume o
            (mkWorld (mgr w) (delete i (inflight w)) (sent w)
                     (completions w) (parsing w))
      end
  end.

Definition run (w : World) (evs : list Event) : World :=
  foldl deliver w evs.

(** The parser is running and nothing has stopped it. *)
Definition ready (w : World) : Prop :=
  parsing w = true /\ aborted (mgr w) = false /\ quotaExceeded (mgr w) = false.

(** A [fetch] that settles with a 2xx response whose body does not carry
    [quotaExceeded]. *)
Definition plain_success (o : Http.FetchOutcome) : bool :=
  match o with
  | Http.Responded status (inr data) =>
      Js.status_ok status && negb (default false (Http.quotaExceeded data))
  | _ => false
  end.

Definition is_parser_event (ev : Event) : bool :=
  match ev with Settle _ _ => false | _ => true end.

(** An event other than a failed or quota-limited upload. *)
Definition undisturbed (ev : Event) : bool :=
  match ev with Settle _ o => plain_success o | _ => true end.

(** Two worlds the batcher cannot tell apart. *)
Definition same_batching (w1 w2 : World) : Prop :=
  parsing w1 = parsing w2
  /\ aborted (mgr w1) = aborted (mgr w2)
  /\ quotaExceeded (mgr w1) = quotaExceeded (mgr w2)
  /\ range (mgr w1) = range (mgr w2)
  /\ siteId (mgr w1) = siteId (mgr w2)
  /\ importId (mgr w1) = importId (mgr w2)
  /\ currentBatch (mgr w1) = currentBatch (mgr w2)
  /\ sent w1 = sent w2.

(** Quota was reported exhausted: both flags are set. *)
Definition stopped (w : World) : Prop :=
  quotaExceeded (mgr w) = true /\ aborted (mgr w) = true.

(** The size and the flag of a request. *)
Definition shape (r : Http.BatchImportRequest) : Z * option bool :=
  (Z.of_nat (length (Http.body_events r)), Http.body_isLastBatch r).

(** A row the parser keeps: [created_at] is there and inside the range. *)
Definition accepted (f : DateRange) (row : Js.RawRecord) : bool :=
  Js.truthy (Some (created_at (toUmamiEvent row)))
  && isDateInRange f (created_at (toUmamiEvent row)).

End Manager.

(** ** The server: import sessions and the batch-ingestion handler *)

Module Server.

Inductive Status := pending | processing | completed | failed.

Definition Status_eqb (a b : Status) : bool :=
  match a, b with
  | pending, pending | processing, processing
  | completed, completed | failed, failed => true
  | _, _ => false
  end.

(** A row of the [importStatus] table. *)
Record ImportSession := mkSession {
  siteId : Z;
  status : Status;
  platform : option string;
  importedEvents : Z;
  errorMessage : option string
}.

(** The persistent state the handler touches: the [importStatus] table by
    [importId], the rows of the [events] table, and the calls made to
    [clickhouse.insert] with how each ended ([None]: resolved). *)
Record State (Row : Type) := mkState {
  imports : gmap string ImportSession;
  events_table : list Row;
  insert_calls : list (list Row * option Http.Thrown)
}.
Arguments mkState {Row}.
Arguments imports {Row}.
Arguments events_table {Row}.
Arguments insert_calls {Row}.

(** The collaborators of the handler that are not part of it: zod's
    checks, the key-only schema of [UmamiImportMapper], [Number], the
    access check, the [sites] table, [ImportQuotaTracker], the platform
    mapper and the outcome of an insert into the event store. *)
Record Env (Row Tracker : Type) := mkEnv {
  is_uuid : string -> bool;
  umamiEventKeyOnlySchema : Js.RawRecord -> option UmamiEvent;
  Number : string -> option Z;
  getUserHasAdminAccessToSite : string -> bool;
  site_organization : Z -> option string;
  tracker_create : string -> Http.Thrown + Tracker;
  canImportEvent : Tracker -> string -> bool * Tracker;
  getSummary : Tracker -> Z * Z;
  transform : list UmamiEvent -> string -> string -> list Row;
  clickhouse_insert : list Row -> option Http.Thrown
}.
Arguments is_uuid {Row Tracker}.
Arguments umamiEventKeyOnlySchema {Row Tracker}.
Arguments Number {Row Tracker}.
Arguments getUserHasAdminAccessToSite {Row Tracker}.
Arguments site_organization {Row Tracker}.
Arguments tracker_create {Row Tracker}.
Arguments canImportEvent {Row Tracker}.
Arguments getSummary {Row Tracker}.
Arguments transform {Row Tracker}.
Arguments clickhouse_insert {Row Tracker}.

(** Modelled from the spec: [getImportById], [updateImportStatus] and
    [updateImportProgress] of the import status manager, which is not under
    src/. The first reads the session row of an [importId]; the second
    writes the status, and the message when one is passed; the third adds
    the batch's count to [importedEvents]. An update of an [importId]
    without a row changes nothing. *)
Definition getImportById {Row} (importId : string) (st : State Row)
  : option ImportSession :=
  imports st !! importId.

Definition updateImportStatus {Row} (importId : string) (s : Status)
  (msg : option string) (st : State Row) : State Row :=
  mkState
    (alter (fun r => mkSession (siteId r) s (platform r) (importedEvents r)
                       (match msg with
                        | Some m => Some m
                        | None => errorMessage r
                        end)) importId (imports st))
    (events_table st) (insert_calls st).

Definition updateImportProgress {Row} (importId : string) (n : Z)
  (st : State Row) : State Row :=
  mkState
    (alter (fun r => mkSession (siteId r) (status r) (platform r)
                       (importedEvents r + n) (errorMessage r))
           importId (imports st))
    (events_table st) (insert_calls st).

(** [db.update(importStatus).set({ platform }).where(importId = ...)]. *)
Definition set_platform {Row} (importId : string) (p : string)
  (st : State Row) : State Row :=
  mkState
    (alter (fun r => mkSession (siteId r) (status r) (Some p)
                       (importedEvents r) (errorMessage r))
           importId (imports st))
    (events_table st) (insert_calls st).

(** [clickhouse.insert]: one call; it stores every row or throws and
    stores none. *)
Definition insert {Row Tracker} (env : Env Row Tracker) (rows : list Row)
  (st : State Row) : option Http.Thrown * State Row :=
  match clickhouse_insert env rows with
  | Some t =>
      (Some t, mkState (imports st) (events_table st)
                       (insert_calls st ++ [(rows, Some t)]))
  | None =>
      (None, mkState (imports st) (events_table st ++ rows)
                     (insert_calls st ++ [(rows, None)]))
  end.

(** [reply.status(code).send({ error })] and [reply.send(body)]. *)
Definition reply_error (code : Z) (err : string) : Http.Response :=
  Http.mkResponse code (Http.mkBody None None None None (Some err)).

Definition reply_send (b : Http.ResponseBody) : Http.Response :=
  Http.mkResponse 200 b.

(** The data of a request that passed [batchImportRequestSchema]. *)
Record Parsed := mkParsed {
  site : string;
  importId : string;
  events : list UmamiEvent;
  isLastBatch : option bool
}.

Section Handler.

Context {Row Tracker : Type}.
Variable env : Env Row Tracker.

(** [batchImportRequestSchema.safeParse]: a non-empty [site], a uuid
    [importId], between 1 and 10000 events that each pass the key-only
    schema, an optional boolean. *)
Definition safeParse (req : Http.BatchImportRequest) : option Parsed :=
  if negb (1 <=? Z.of_nat (String.length (Http.params_site req))) then None
  else if negb (is_uuid env (Http.params_importId req)) then None
  else
    match mapM (umamiEventKeyOnlySchema env) (Http.body_events req) with
    | None => None
    | Some evs =>
        if (1 <=? Z.of_nat (length evs)) && (Z.of_nat (length evs) <=? 10000)
        then Some (mkParsed (Http.params_site req)
                            (Http.params_importId req) evs
                            (Http.body_isLastBatch req))
        else None
    end.

(** The loop over the events: those without [created_at] are passed over,
    the others are put to the tracker. *)
Fixpoint partition_quota (tr : Tracker) (evs : list UmamiEvent)
  (within : list UmamiEvent) (skippedDueToQuota : Z)
  : list UmamiEvent * Z * Tracker :=
  match evs with
  | [] => (within, skippedDueToQuota, tr)
  | event :: rest =>
      if negb (Js.truthy (Some (created_at event)))
      then partition_quota tr rest within skippedDueToQuota
      else
        let '(ok, tr') := canImportEvent env tr (created_at event) in
        if ok then partition_quota tr' rest (within ++ [event]) skippedDueToQuota
        else partition_quota tr' rest within (skippedDueToQuota + 1)
  end.

Definition quotaMessage (n : nat) (summary : Z * Z) : string :=
  let '(totalMonthsInWindow, monthsAtCapacity) := summary in
  "All " +:+ pretty n
  +:+ " events exceeded monthly quotas or fell outside the "
  +:+ pretty totalMonthsInWindow +:+ "-month historical window. "
  +:+ pretty monthsAtCapacity +:+ " of " +:+ pretty totalMonthsInWindow
  +:+ " months are at full capacity.".

(** The [catch (insertError)] of the inner [try]. *)
Definition catch_insertError (p : Parsed) (t : Http.Thrown)
  (st : State Row) : State Row * Http.Response :=
  let errorMessage := Http.message_of t in
  (updateImportStatus (importId p) failed
     (Some ("Failed to insert events: " +:+ errorMessage)) st,
   Http.mkResponse 500
     (Http.mkBody (Some false) None None (Some errorMessage)
                  (Some "Failed to insert events"))).

(** The inner [try] block: quota, transform, insert, progress. What can
    throw here is the making of the tracker and the insert; the calls to
    the import status manager are the total updates modelled above, so a
    failure of theirs, which the source would take to the same [catch], is
    not part of this model. *)
Definition ingest (p : Parsed) (organizationId : string) (st : State Row)
  : State Row * Http.Response :=
  match tracker_create env organizationId with
  | inl t => catch_insertError p t st
  | inr quotaTracker =>
      let '(eventsWithinQuota, skippedDueToQuota, quotaTracker) :=
        partition_quota quotaTracker (events p) [] 0 in
      if Z.of_nat (length eventsWithinQuota) =? 0 then
        let msg := quotaMessage (length (events p))
                                (getSummary env quotaTracker) in
        let st := if default false (isLastBatch p)
                  then updateImportStatus (importId p) completed (Some msg) st
                  else st in
        (st, reply_send (Http.mkBody (Some true) (Some 0) (Some true)
                                     (Some msg) None))
      else
        let transformedEvents :=
          transform env eventsWithinQuota (site p) (importId p) in
        if Z.of_nat (length transformedEvents) =? 0 then
          let st := if default false (isLastBatch p)
                    then updateImportStatus (importId p) completed
                           (Some "No valid events found in the final batch") st
                    else st in
          (st, reply_send (Http.mkBody (Some true) (Some 0) None
                                       (Some "No valid events in batch") None))
        else
          match insert env transformedEvents st with
          | (Some t, st) => catch_insertError p t st
          | (None, st) =>
              let n := Z.of_nat (length transformedEvents) in
              let st := updateImportProgress (importId p) n st in
              let st :=
                if default false (isLastBatch p) then
                  updateImportStatus (importId p) completed
                    (if 0 <? skippedDueToQuota
                     then Some ("Import completed. " +:+ pretty skippedDueToQuota
                                +:+ " events were skipped due to quota limits.")
                     else None) st
                else st in
              (st, reply_send
                     (Http.mkBody (Some true) (Some n) None
                        (Some ("Imported " +:+ pretty n +:+ " events"
                               +:+ (if 0 <? skippedDueToQuota
                                    then " (" +:+ pretty skippedDueToQuota
                                         +:+ " skipped due to quota)"
                                    else "")))
                        None))
          end
  end.

(** [batchImportEvents] up to the inner [try]: validation, access,
    session checks, the move out of [pending], platform detection and the
    site's organization. [inl] is an early [return reply...]. *)
Definition precheck (req : Http.BatchImportRequest) (st : State Row)
  : State Row * Http.Response + Parsed * string * State Row :=
  match safeParse req with
  | None => inl (st, reply_error 400 "Validation error")
  | Some p =>
      let siteId_ := Number env (site p) in
      if negb (getUserHasAdminAccessToSite env (site p))
      then inl (st, reply_error 403 "Forbidden")
      else
        match getImportById (importId p) st with
        | None => inl (st, reply_error 404 "Import not found")
        | Some importRecord =>
            if negb (bool_decide (Some (siteId importRecord) = siteId_))
            then inl (st, reply_error 400 "Import does not belong to this site")
            else if Status_eqb (status importRecord) completed
            then inl (st, reply_error 400 "Import already completed")
            else if Status_eqb (status importRecord) failed
            then inl (st, reply_error 400 "Import has failed")
            else
              let st := if Status_eqb (status importRecord) pending
                        then updateImportStatus (importId p) processing None st
                        else st in
              let detected :=
                if Js.truthy (platform importRecord) then Some st
                else
                  match head (events p) ≫= (fun firstEvent =>
                          umamiEventKeyOnlySchema env (to_record firstEvent)) with
                  | Some _ => Some (set_platform (importId p) "umami" st)
                  | None => None
                  end in
              match detected with
              | None =>
                  inl (st, reply_error 400
                             "Unable to detect platform from event structure")
              | Some st =>
                  match siteId_ ≫= site_organization env with
                  | None => inl (st, reply_error 404 "Site not found")
                  | Some organizationId => inr (p, organizationId, st)
                  end
              end
        end
  end.

(** The session state after the checks, for a session [s] that passed
    them: out of [pending], and with the platform set. *)
Definition checked_state (p : Parsed) (s : ImportSession) (st : State Row)
  : State Row :=
  let st := if Status_eqb (status s) pending
            then updateImportStatus (importId p) processing None st
            else st in
  if Js.truthy (platform s) then st
  else set_platform (importId p) "umami" st.

(** The platform of a session is known, or the first event of the batch
    passes the key-only schema. *)
Definition platform_known (p : Parsed) (s : ImportSession) : Prop :=
  Js.truthy (platform s) = true
  \/ is_Some (head (events p) ≫= (fun firstEvent =>
                umamiEventKeyOnlySchema env (to_record firstEvent))).

(** The rejections of a request for its session or its site, in the order
    of the code: those returned before anything is written ... *)
Definition rejected_before_write (r : Http.Response) : Prop :=
  r = reply_error 404 "Import not found"
  \/ r = reply_error 400 "Import does not belong to this site"
  \/ r = reply_error 400 "Import already completed"
  \/ r = reply_error 400 "Import has failed".


(** The key-only schema accepts again what it has produced: an event it
    returned, sent through it once more as an object, passes. *)
Definition schema_stable : Prop :=
  forall (raw : Js.RawRecord) (e : UmamiEvent),
    umamiEventKeyOnlySchema env raw = Some e ->
    is_Some (umamiEventKeyOnlySchema env (to_record e)).

(** [batchImportEvents]. Every collaborator above is total, so the outer
    [catch] (500, "Internal server error") has nothing to catch here. *)
Definition batchImportEvents (req : Http.BatchImportRequest)
  (st : State Row) : State Row * Http.Response :=
  match precheck req st with
  | inl early => early
  | inr (p, organizationId, st) => ingest p organizationId st
  end.

End Handler.

End Server.

(** ** The worker parser ([csv-import.worker.ts]) *)

Module Worker.

Definition BATCH_SIZE : Z := 5000.

(** [WorkerMessageToMain]. *)
Inductive MessageToMain :=
| CHUNK_READY (events : list UmamiEvent) (parsed skipped errors : Z)
| COMPLETE (parsed skipped errors : Z)
| ERROR (message : string).

(** The module-level variables, and the messages posted so far. *)
Record t := mk {
  currentBatch : list UmamiEvent;
  totalParsed : Z;
  totalSkipped : Z;
  totalErrors : Z;
  range : DateRange;
  posted : list MessageToMain
}.

Definition sendChunk (w : t) : t :=
  if 0 <? Z.of_nat (length (currentBatch w)) then
    mk [] (totalParsed w) (totalSkipped w) (totalErrors w) (range w)
       (posted w ++ [CHUNK_READY (currentBatch w) (totalParsed w)
                                 (totalSkipped w) (totalErrors w)])
  else w.

Definition handleParsedRow (row : Js.RawRecord) (w : t) : t :=
  let umamiEvent := toUmamiEvent row in
  if negb (Js.truthy (Some (created_at umamiEvent))) then
    mk (currentBatch w) (totalParsed w) (totalSkipped w + 1) (totalErrors w)
       (range w) (posted w)
  else if negb (isDateInRange (range w) (created_at umamiEvent)) then
    mk (currentBatch w) (totalParsed w) (totalSkipped w + 1) (totalErrors w)
       (range w) (posted w)
  else
    let w := mk (currentBatch w ++ [umamiEvent]) (totalParsed w + 1)
                (totalSkipped w) (totalErrors w) (range w) (posted w) in
    if BATCH_SIZE <=? Z.of_nat (length (currentBatch w)) then sendChunk w
    else w.

(** The callbacks handed to [Papa.parse]: [step] with the row and whether
    the result carries errors, [complete], and [error]. *)
Inductive Event :=
| Step (row : option Js.RawRecord) (hasErrors : bool)
| Complete
| ParseError (msg : string).

Definition deliver (w : t) (ev : Event) : t :=
  match ev with
  | Step row hasErrors =>
      let w := match row with
               | Some r => handleParsedRow r w
               | None => w
               end in
      if hasErrors
      then mk (currentBatch w) (totalParsed w) (totalSkipped w)
              (totalErrors w + 1) (range w) (posted w)
      else w
  | Complete =>
      let w := sendChunk w in
      mk (currentBatch w) (totalParsed w) (totalSkipped w) (totalErrors w)
         (range w)
         (posted w ++ [COMPLETE (totalParsed w) (totalSkipped w) (totalErrors w)])
  | ParseError msg =>
      mk (currentBatch w) (totalParsed w) (totalSkipped w) (totalErrors w)
         (range w) (posted w ++ [ERROR msg])
  end.

(** The [PARSE_START] message: the state is reset and the range set;
    [inl] is the message of the [Error] thrown on an invalid bound. *)
Definition parse_start (earliestStr latestStr : string) : string + t :=
  match createDateRangeFilter earliestStr latestStr with
  | inl msg => inl msg
  | inr f => inr (mk [] 0 0 0 f [])
  end.

Definition run (w : t) (evs : list Event) : t := foldl deliver w evs.

End Worker.

(** ** The earlier, worker-driven coordinator ([CSVWorkerManager] with a
       [Worker]) *)

Module WorkerManager.

Inductive ProgressStatus := idle | parsing | uploading | completed | failed.

(** [ImportProgress]. *)
Record ImportProgress := mkProgress {
  status : ProgressStatus;
  parsedRows : Z;
  skippedRows : Z;
  importedEvents : Z;
  errors : Z
}.

(** The fields of the class ([worker]: whether it is non-null), the pending
    [fetch]es with the events each one carries, every batch sent, the calls
    to the completion callback and the progress notifications. *)
Record t := mk {
  worker : bool;
  progress : ImportProgress;
  uploadInProgress : bool;
  parsingComplete : bool;
  inflight : list (list UmamiEvent);
  sent : list (list UmamiEvent);
  completions : list (bool * string);
  notified : list ImportProgress
}.

Definition set_progress (p : ImportProgress) (m : t) : t :=
  mk (worker m) p (uploadInProgress m) (parsingComplete m) (inflight m)
     (sent m) (completions m) (notified m).
Definition set_uploadInProgress (b : bool) (m : t) : t :=
  mk (worker m) (progress m) b (parsingComplete m) (inflight m)
     (sent m) (completions m) (notified m).
Definition set_parsingComplete (b : bool) (m : t) : t :=
  mk (worker m) (progress m) (uploadInProgress m) b (inflight m)
     (sent m) (completions m) (notified m).
Definition set_status (s : ProgressStatus) (m : t) : t :=
  set_progress (mkProgress s (parsedRows (progress m)) (skippedRows (progress m))
                  (importedEvents (progress m)) (errors (progress m))) m.
Definition set_counts (parsed skipped errs : Z) (m : t) : t :=
  set_progress (mkProgress (status (progress m)) parsed skipped
                  (importedEvents (progress m)) errs) m.
Definition incr_errors (m : t) : t :=
  set_progress (mkProgress (status (progress m)) (parsedRows (progress m))
                  (skippedRows (progress m)) (importedEvents (progress m))
                  (errors (progress m) + 1)) m.
Definition add_imported (n : Z) (m : t) : t :=
  set_progress (mkProgress (status (progress m)) (parsedRows (progress m))
                  (skippedRows (progress m)) (importedEvents (progress m) + n)
                  (errors (progress m))) m.

Definition notifyProgress (m : t) : t :=
  mk (worker m) (progress m) (uploadInProgress m) (parsingComplete m)
     (inflight m) (sent m) (completions m) (notified m ++ [progress m]).

Definition onComplete (ok : bool) (msg : string) (m : t) : t :=
  mk (worker m) (progress m) (uploadInProgress m) (parsingComplete m)
     (inflight m) (sent m) (completions m ++ [(ok, msg)]) (notified m).

Definition terminate (m : t) : t :=
  mk false (progress m) (uploadInProgress m) (parsingComplete m)
     (inflight m) (sent m) (completions m) (notified m).

Definition checkCompletion (m : t) : t :=
  if parsingComplete m && negb (uploadInProgress m) then
    let m := notifyProgress (set_status completed m) in
    let m := onComplete true
               ("Import completed successfully: "
                +:+ pretty (importedEvents (progress m)) +:+ " events imported") m in
    terminate m
  else m.

(** [uploadBatch] up to its [await fetch]. *)
Definition uploadBatch (events : list UmamiEvent) (m : t) : t :=
  let m := set_uploadInProgress true m in
  mk (worker m) (progress m) (uploadInProgress m) (parsingComplete m)
     (inflight m ++ [events]) (sent m ++ [events]) (completions m) (notified m).

Definition uploadBatch_catch (t0 : Http.Thrown) (m : t) : t :=
  let m := notifyProgress (incr_errors (set_status failed m)) in
  let m := onComplete false ("Upload failed: " +:+ Http.message_of t0) m in
  let m := terminate m in
  set_uploadInProgress false m.

(** [uploadBatch] from the point where its [fetch] settles. *)
Definition uploadBatch_resume (events : list UmamiEvent)
  (o : Http.FetchOutcome) (m : t) : t :=
  match o with
  | Http.Rejected t0 => uploadBatch_catch t0 m
  | Http.Responded code body =>
      if negb (Js.status_ok code) then
        let errorData :=
          match body with
          | inr b => b
          | inl _ => Http.mkBody None None None None (Some "Unknown error")
          end in
        uploadBatch_catch
          (Http.ThrownError
             (Js.or_string (Http.error errorData) ("HTTP " +:+ pretty code)))
          m
      else
        match body with
        | inl t0 => uploadBatch_catch t0 m
        | inr data =>
            let m := add_imported
                       (default (Z.of_nat (length events))
                                (Http.importedCount data)) m in
            let m := notifyProgress m in
            checkCompletion (set_uploadInProgress false m)
        end
  end.

Definition handleWorkerMessage (msg : Worker.MessageToMain) (m : t) : t :=
  match msg with
  | Worker.CHUNK_READY events parsed skipped errs =>
      let m := set_counts parsed skipped errs m in
      let m := notifyProgress (set_status uploading m) in
      uploadBatch events m
  | Worker.COMPLETE parsed skipped errs =>
      let m := set_parsingComplete true m in
      let m := notifyProgress (set_counts parsed skipped errs m) in
      checkCompletion m
  | Worker.ERROR message =>
      let m := notifyProgress (incr_errors (set_status failed m)) in
      onComplete false message m
  end.

(** The state right after [startImport]. *)
Definition startImport : t :=
  notifyProgress (mk true (mkProgress parsing 0 0 0 0) false false [] [] [] []).

Inductive Event :=
| Message (msg : Worker.MessageToMain)
| Settle (i : nat) (o : Http.FetchOutcome).

Definition deliver (m : t) (ev : Event) : t :=
  match ev with
  | Message msg => handleWorkerMessage msg m
  | Settle i o =>
      match inflight m !! i with
      | None => m
      | Some events =>
          uploadBatch_resume events o
            (mk (worker m) (progress m) (uploadInProgress m)
                (parsingComplete m) (delete i (inflight m)) (sent m)
                (completions m) (notified m))
      end
  end.

Definition run (m : t) (evs : list Event) : t := foldl deliver m evs.

End WorkerManager.

(** ** The settings page that starts an import ([ImportManager]) *)

Module ImportManager.

(** A [File] of the form, as far as the schema looks at it. A name is held
    as the UTF-8 bytes of the string (the name of a [File] is well formed). *)
Record File := mkFile {
  name : string;
  size : Z;
  type : string
}.

Definition MAX_FILE_SIZE (IS_CLOUD : bool) : Z :=
  if IS_CLOUD then 500 * 1024 * 1024 else 50 * 1024 * 1024 * 1024.

Definition CONFIRM_THRESHOLD (IS_CLOUD : bool) : Z :=
  if IS_CLOUD then 100 * 1024 * 1024 else 1024 * 1024 * 1024.

Definition ALLOWED_FILE_TYPES : list string := ["text/csv"].
Definition ALLOWED_EXTENSIONS : list string := [".csv"].

(** [s.split(".").pop()]: what follows the last dot, or all of [s]. *)
Fixpoint last_segment (acc s : string) : string :=
  match s with
  | EmptyString => acc
  | String c s' =>
      if Ascii.eqb c "." then last_segment "" s'
      else last_segment (acc +:+ String c "") s'
  end.

Definition lower (c : ascii) : ascii :=
  let n := nat_of_ascii c in
  if (65 <=? n)%nat && (n <=? 90)%nat then ascii_of_nat (n + 32) else c.

(** [toLowerCase()], as far as the comparison with ".csv" can see it: the
    letters A to Z are lowered, the other bytes are kept. *)
Fixpoint toLowerCase (s : string) : string :=
  match s with
  | EmptyString => EmptyString
  | String c s' => String (lower c) (toLowerCase s')
  end.

(** [s.length]: the UTF-16 code units of a string held as UTF-8 bytes. A
    byte below 0x80 and the first byte of a sequence of two or three bytes
    stand for one unit, the first byte of a sequence of four for two (a
    surrogate pair), a continuation byte for none. *)
Definition utf16_units (c : ascii) : nat :=
  let n := nat_of_ascii c in
  if (n <? 128)%nat then 1%nat
  else if (n <? 192)%nat then 0%nat
  else if (n <? 240)%nat then 1%nat
  else 2%nat.

Fixpoint utf16_length (s : string) : nat :=
  match s with
  | EmptyString => 0%nat
  | String c s' => (utf16_units c + utf16_length s')%nat
  end.

(** ["." + file.name.split(".").pop()?.toLowerCase()]. *)
Definition extension (f : File) : string :=
  "." +:+ toLowerCase (last_segment "" (name f)).

Definition includes (l : list string) (s : string) : bool :=
  existsb (String.eqb s) l.

(** The third refinement of [importFormSchema]. *)
Definition is_csv (f : File) : bool :=
  includes ALLOWED_EXTENSIONS (extension f)
  || includes ALLOWED_FILE_TYPES (type f).

(** [importFormSchema] on the file list: the messages of the refinements
    that fail, in their order; the form is valid when there is none. *)
Definition importFormSchema (IS_CLOUD : bool) (files : list File)
  : list string :=
  (if (Z.of_nat (length files) =? 1) then [] else ["Please select a file"])
  ++ (if match head files with
          | Some file => size file <=? MAX_FILE_SIZE IS_CLOUD
          | None => false
          end
      then []
      else ["File size must be less than "
            +:+ pretty (MAX_FILE_SIZE IS_CLOUD / 1024 / 1024) +:+ " MB"])
  ++ (if match head files with
          | Some file => is_csv file
          | None => false
          end
      then [] else ["Only CSV files are accepted"])
  ++ (if match head files with
          | Some file => Z.of_nat (utf16_length (name file)) <=? 255
          | None => false
          end
      then [] else ["Filename is too long"]).

(** What [onSubmit] does with the form data. *)
Inductive Submit :=
| Nothing
| AskConfirmation
| ExecuteImport.

Definition onSubmit (IS_CLOUD : bool) (files : list File) : Submit :=
  match head files with
  | None => Nothing
  | Some file =>
      if CONFIRM_THRESHOLD IS_CLOUD <? size file then AskConfirmation
      else ExecuteImport
  end.

(** The [onSuccess] of [executeImport]: a coordinator without callback is
    made and started with the import's id and date range. *)
Definition executeImport_onSuccess (siteId : Z) (importId : string)
  (earliestAllowedDate latestAllowedDate : string) : Manager.World :=
  Manager.startImport false siteId importId earliestAllowedDate
                      latestAllowedDate.

End ImportManager.

(** ** A monthly quota tracker and sample collaborators *)

Module QuotaTracker.

(** Modelled from the spec: [ImportQuotaTracker], which is not under src/.
    Every month of the window (keyed [yyyy-MM]) has a used count and a
    capacity; an event is admitted when its month is in the window and has
    capacity left, and the month's used count then grows by one; the
    summary gives the number of months in the window and of those at
    capacity. *)
Abbreviation t := (gmap string (Z * Z)).

Definition month_of (timestamp : string) : string :=
  String.substring 0 7 timestamp.

Definition canImportEvent (tr : t) (timestamp : string) : bool * t :=
  match tr !! month_of timestamp with
  | None => (false, tr)
  | Some (used, capacity) =>
      if used <? capacity
      then (true, <[month_of timestamp := (used + 1, capacity)]> tr)
      else (false, tr)
  end.

Definition getSummary (tr : t) : Z * Z :=
  (Z.of_nat (size tr),
   Z.of_nat (size (filter (fun kv => snd (snd kv) <= fst (snd kv)) tr))).

End QuotaTracker.

Module Sample.

(** An object that has every key of [UmamiEvent] passes, and the strings
    are kept as they are. *)
Definition keyOnlySchema (r : Js.RawRecord) : option UmamiEvent :=
  if forallb (fun k => bool_decide (is_Some (r !! k))) (map fst umamiFields)
  then Some (toUmamiEvent r)
  else None.

Fixpoint decimal (acc : Z) (s : string) : option Z :=
  match s with
  | EmptyString => Some acc
  | String c s' =>
      if Luxon.is_digit c then decimal (10 * acc + Luxon.digit_val c) s'
      else None
  end.

Definition Number (s : string) : option Z :=
  if String.eqb s "" then Some 0 else decimal 0 s.

Definition window : QuotaTracker.t :=
  {[ "2024-01" := (0, 3); "2024-02" := (5, 5) ]}.

(** Collaborators for a site 1 of organization "org" whose store does
    ([insert_fails = false]) or does not accept inserts. *)
Definition env (insert_fails : bool) : Server.Env UmamiEvent QuotaTracker.t :=
  Server.mkEnv UmamiEvent QuotaTracker.t
    (fun s => (String.length s =? 36)%nat)
    keyOnlySchema
    Number
    (fun _ => true)
    (fun id => if id =? 1 then Some "org" else None)
    (fun _ => inr window)
    QuotaTracker.canImportEvent
    QuotaTracker.getSummary
    (fun evs _ _ => evs)
    (fun _ => if insert_fails then Some (Http.ThrownError "connection reset")
              else None).

Definition importId : string := "123e4567-e89b-12d3-a456-426614174000".

Definition row (created : string) : Js.RawRecord :=
  <["created_at" := created]> (<["session_id" := "s1"]>
    (<["hostname" := "example.com"]> ∅)).

Definition event (created : string) : UmamiEvent := toUmamiEvent (row created).

Definition session (s : Server.Status) : Server.ImportSession :=
  Server.mkSession 1 s None 0 None.

Definition store (s : Server.Status) : Server.State UmamiEvent :=
  Server.mkState {[ importId := session s ]} [] [].

Definition request (evs : list UmamiEvent) (last : bool)
  : Http.BatchImportRequest :=
  Http.mkRequest "1" importId (map to_record evs) (Some last).

(** A coordinator that has parsed one row of a file and sent it as the
    last batch; the upload is pending. *)
Definition world : Manager.World :=
  Manager.run
    (Manager.startImport true 1 importId "2024-01-01" "2024-01-31")
    [Manager.Step (row "2024-01-05 10:00:00"); Manager.Complete].

End Sample.

(** ** Views and invariants of the coordinator and the worker *)

(** An event the filter lets through. *)
Definition kept (f : DateRange) (e : UmamiEvent) : Prop :=
  created_at e <> "" /\ isDateInRange f (created_at e) = true.

(** A well-formed request of the coordinator: its events passed the filter;
    a request not flagged last is a full batch, one flagged last is smaller. *)
Definition request_ok (f : DateRange) (r : Http.BatchImportRequest) : Prop :=
  exists evs,
    Http.body_events r = map to_record evs
    /\ Forall (kept f) evs
    /\ ((Http.body_isLastBatch r = Some false
         /\ Z.of_nat (length evs) = Manager.BATCH_SIZE)
        \/ (Http.body_isLastBatch r = Some true
            /\ Z.of_nat (length evs) < Manager.BATCH_SIZE)).

(** What the coordinator keeps true between two events. *)
Definition batching_invariant (f : DateRange) (w : Manager.World) : Prop :=
  Manager.range (Manager.mgr w) = f
  /\ Z.of_nat (length (Manager.currentBatch (Manager.mgr w))) < Manager.BATCH_SIZE
  /\ Forall (kept f) (Manager.currentBatch (Manager.mgr w))
  /\ Forall (request_ok f) (Manager.sent w)
  /\ Manager.inflight w ⊆ Manager.sent w.

(** The events sent so far followed by those waiting in the batch. *)
Definition handed_over (w : Manager.World) : list Js.RawRecord :=
  concat (map Http.body_events (Manager.sent w))
  ++ map to_record (Manager.currentBatch (Manager.mgr w)).

(** An upload that ends in the [catch]. *)
Definition failed_upload (o : Http.FetchOutcome) : bool :=
  match o with
  | Http.Rejected _ => true
  | Http.Responded status (inl _) => true
  | Http.Responded status (inr _) => negb (Js.status_ok status)
  end.

(** A coordinator without callback that has not reported anything. *)
Definition silent (w : Manager.World) : Prop :=
  Manager.onComplete (Manager.mgr w) = false /\ Manager.completions w = [].

(** The batches carried by the [CHUNK_READY] messages of a list. *)
Definition chunk_events (msgs : list Worker.MessageToMain)
  : list (list UmamiEvent) :=
  omap (fun msg => match msg with
                   | Worker.CHUNK_READY events _ _ _ => Some events
                   | _ => None
                   end) msgs.

(** A [step] call of PapaParse: the row, when there is one, and whether the
    result carries errors. *)
Definition worker_step (s : option Js.RawRecord * bool) : Worker.Event :=
  Worker.Step (fst s) (snd s).

(** What the worker keeps true between two [step] calls, against the rows
    [seen] so far. *)
Definition worker_invariant (f : DateRange)
  (seen : list (option Js.RawRecord * bool)) (w : Worker.t) : Prop :=
  Worker.range w = f
  /\ Z.of_nat (length (Worker.currentBatch w)) < Worker.BATCH_SIZE
  /\ concat (chunk_events (Worker.posted w)) ++ Worker.currentBatch w
     = map toUmamiEvent
         (filter (fun row => Manager.accepted f row = true) (omap fst seen))
  /\ Worker.totalParsed w
     = Z.of_nat (length (filter (fun row => Manager.accepted f row = true)
                                (omap fst seen)))
  /\ Worker.totalSkipped w
     = Z.of_nat (length (filter (fun row => Manager.accepted f row <> true)
                                (omap fst seen)))
  /\ Worker.totalErrors w
     = Z.of_nat (length (filter (fun s => snd s = true) seen))
  /\ Forall (fun c => Z.of_nat (length c) = Worker.BATCH_SIZE)
            (chunk_events (Worker.posted w)).

(** ** More sample inputs *)

Module Fixtures.

(** The filter of an import allowed from 2024-01-01 to 2024-01-31. *)
Definition january : DateRange :=
  mkDateRange (Some (Luxon.Valid 1704067200000))
              (Some (Luxon.Valid 1706745599999)).

Definition inside : Js.RawRecord := Sample.row "2024-01-05 10:00:00".
Definition outside : Js.RawRecord := Sample.row "2023-12-31 23:59:59".

(** The request that carries [inside] as the last batch. *)
Definition last_request : Http.BatchImportRequest :=
  Http.mkRequest "1" Sample.importId [to_record (toUmamiEvent inside)]
                 (Some true).

(** The request that carries 5000 times [inside] as a full batch. *)
Definition full_request : Http.BatchImportRequest :=
  Http.mkRequest "1" Sample.importId
    (map to_record (map toUmamiEvent (replicate (Z.to_nat 5000) inside)))
    (Some false).

(** A file of 5001 accepted rows, parsed to its end. *)
Definition two_pending : Manager.World :=
  Manager.run
    (Manager.startImport true 1 Sample.importId "2024-01-01" "2024-01-31")
    (map Manager.Step (replicate (Z.to_nat 5000) inside ++ [inside])
     ++ [Manager.Complete]).

Definition ok_reply : Http.FetchOutcome :=
  Http.Responded 200
    (inr (Http.mkBody (Some true) (Some 1) None
            (Some "Imported 1 events") None)).

(** The worker after a valid [ParseStartMessage] for January 2024. *)
Definition worker0 : Worker.t := Worker.mk [] 0 0 0 january [].

(** Three [step] calls: a kept row, a row before the range, and a result
    with errors and no row. *)
Definition steps : list (option Js.RawRecord * bool) :=
  [(Some inside, false); (Some outside, false); (None, true)].

(** The collaborators of [Sample.env], with an organization for which no
    quota tracker can be made. *)
Definition env_no_tracker : Server.Env UmamiEvent QuotaTracker.t :=
  Server.mkEnv UmamiEvent QuotaTracker.t
    (fun s => (String.length s =? 36)%nat)
    Sample.keyOnlySchema
    Sample.Number
    (fun _ => true)
    (fun id => if id =? 1 then Some "org" else None)
    (fun _ => inl (Http.ThrownError "no subscription"))
    QuotaTracker.canImportEvent
    QuotaTracker.getSummary
    (fun evs _ _ => evs)
    (fun _ => None).




(** A CSV file of 1 KiB whose name has 200 accented letters: 404 bytes,
    204 UTF-16 units. *)
Definition accented_file : ImportManager.File :=
  ImportManager.mkFile
    (String.concat "" (replicate 200 "é") +:+ ".csv") 1024 "text/csv".

End Fixtures.

(** Reduction of the field projections of the coordinator's records. *)
Ltac fields :=
  cbn [Manager.mgr Manager.inflight Manager.sent Manager.completions
       Manager.parsing Manager.aborted Manager.onComplete
       Manager.uploadInProgress Manager.parsingComplete Manager.quotaExceeded
       Manager.siteId Manager.importId Manager.currentBatch Manager.range
       Manager.with_mgr Manager.set_aborted Manager.set_uploadInProgress
       Manager.set_parsingComplete Manager.set_quotaExceeded
       Manager.set_currentBatch Manager.fetch] in *.

(** * Properties *)

(** ** The event mapper *)

Lemma String_or_empty_default (v : option string) :
  Js.String_or_empty v = default "" v.
Proof.
  unfold Js.String_or_empty, Js.truthy.
  destruct v as [s|]; simpl; [|reflexivity].
  destruct (String.eqb_spec s ""); simpl; congruence.
Qed.

Lemma truthy_Some_nonempty (s : string) :
  Js.truthy (Some s) = true <-> s <> "".
Proof.
  unfold Js.truthy. destruct (String.eqb_spec s ""); simpl; split; congruence.
Qed.

(** C9. For every raw record and every recognized field, the mapped event
    has that field, as a string: the record's value unchanged when the record
    has the field, the empty string when it has not. *)
Theorem mapper_preserves_fields (rawEvent : Js.RawRecord) (k : string) :
  k ∈ recognized_fields ->
  (forall s, rawEvent !! k = Some s ->
             event_get (toUmamiEvent rawEvent) k = Some s)
  /\ (rawEvent !! k = None -> event_get (toUmamiEvent rawEvent) k = Some "").
Proof.
  intros Hk.
  assert (Hget : event_get (toUmamiEvent rawEvent) k
                 = Some (default "" (rawEvent !! k))).
  { vm_compute in Hk.
    repeat (apply elem_of_cons in Hk as [-> | Hk];
            [cbn; rewrite String_or_empty_default; reflexivity|]).
    apply elem_of_nil in Hk. contradiction. }
  rewrite Hget. split; [intros s ->|intros ->]; reflexivity.
Qed.

Lemma mapper_preserves_fields_witness :
  event_get (toUmamiEvent (Sample.row "2024-01-05 10:00:00")) "created_at"
  = Some "2024-01-05 10:00:00".
Proof.
  apply (mapper_preserves_fields (Sample.row "2024-01-05 10:00:00") "created_at").
  - change recognized_fields with (map fst umamiFields). simpl.
    repeat (apply elem_of_cons; first [left; reflexivity | right]).
  - vm_compute. reflexivity.
Defined.

(** The recognized fields are the properties of [UmamiEvent]. *)
Lemma recognized_fields_are_event_fields :
  recognized_fields = map fst umamiFields.
Proof. reflexivity. Qed.

(** ** The date-range filter *)

Lemma isDateInRange_invalid (f : DateRange) (dateStr : string) :
  Luxon.fromFormat_datetime dateStr = Luxon.Invalid ->
  isDateInRange f dateStr = false.
Proof. intros H. unfold isDateInRange. rewrite H. reflexivity. Qed.

(** C7. With the range "2024-01-01" to "2024-01-31" the first and the last
    second of the window are accepted, the second before and the second after
    are rejected; and a string that does not parse as yyyy-MM-dd HH:mm:ss is
    rejected, whatever the range (the filter is a total function: nothing is
    thrown). *)
Theorem date_filter_boundary :
  exists f,
    createDateRangeFilter "2024-01-01" "2024-01-31" = inr f
    /\ isDateInRange f "2024-01-01 00:00:00" = true
    /\ isDateInRange f "2023-12-31 23:59:59" = false
    /\ isDateInRange f "2024-01-31 23:59:59" = true
    /\ isDateInRange f "2024-02-01 00:00:00" = false
    /\ forall dateStr,
         Luxon.fromFormat_datetime dateStr = Luxon.Invalid ->
         isDateInRange f dateStr = false.
Proof.
  eexists. split; [vm_compute; reflexivity|].
  do 4 (split; [vm_compute; reflexivity|]).
  intros dateStr. apply isDateInRange_invalid.
Qed.

Lemma date_filter_boundary_witness :
  exists f,
    createDateRangeFilter "2024-01-01" "2024-01-31" = inr f
    /\ isDateInRange f "2024-01-31T23:59:59" = false.
Proof.
  destruct date_filter_boundary as (f & Hf & _ & _ & _ & _ & Hbad).
  exists f. split; [exact Hf|].
  apply Hbad. vm_compute. reflexivity.
Defined.

(** ** The coordinator: batching *)

Section ManagerBatching.

Import Manager.

Lemma accepted_inv (f : DateRange) (row : Js.RawRecord) :
  accepted f row = true ->
  Js.truthy (Some (created_at (toUmamiEvent row))) = true
  /\ isDateInRange f (created_at (toUmamiEvent row)) = true.
Proof. unfold accepted. intros H. apply andb_true_iff in H. exact H. Qed.

Lemma with_mgr_set_currentBatch_id (w : World) :
  with_mgr (set_currentBatch (currentBatch (mgr w))) w = w.
Proof. destruct w as [[] ? ? ? ?]. reflexivity. Qed.

Lemma with_mgr_set_currentBatch_twice (l1 l2 : list UmamiEvent) (w : World) :
  with_mgr (set_currentBatch l2) (with_mgr (set_currentBatch l1) w)
  = with_mgr (set_currentBatch l2) w.
Proof. reflexivity. Qed.

Lemma run_app (w : World) (evs1 evs2 : list Event) :
  run w (evs1 ++ evs2) = run (run w evs1) evs2.
Proof. unfold run. apply foldl_app. Qed.

(** An accepted row that does not fill the batch is appended to it. *)
Lemma deliver_step_below (w : World) (row : Js.RawRecord) :
  ready w ->
  accepted (range (mgr w)) row = true ->
  Z.of_nat (length (currentBatch (mgr w))) + 1 < BATCH_SIZE ->
  deliver w (Step row)
  = with_mgr (set_currentBatch (currentBatch (mgr w) ++ [toUmamiEvent row])) w.
Proof.
  intros (Hp & Ha & Hq) Hacc Hlen.
  apply accepted_inv in Hacc as [Ht Hr].
  unfold deliver. rewrite Hp, Ha, Hq. cbn [negb orb].
  unfold handleParsedRow. rewrite Ht, Hr. cbn [negb].
  cbn [with_mgr mgr set_currentBatch currentBatch].
  rewrite length_app. cbn [length].
  destruct (Z.leb_spec BATCH_SIZE
              (Z.of_nat (length (currentBatch (mgr w)) + 1))); [lia|reflexivity].
Qed.

(** An accepted row that fills the batch sends it, not flagged last, and
    starts a new one; whether an upload is already pending is not looked
    at. *)
Lemma deliver_step_full (w : World) (row : Js.RawRecord) :
  ready w ->
  accepted (range (mgr w)) row = true ->
  BATCH_SIZE <= Z.of_nat (length (currentBatch (mgr w))) + 1 ->
  deliver w (Step row)
  = fetch (currentBatch (mgr w) ++ [toUmamiEvent row]) false
      (with_mgr (set_uploadInProgress true)
         (with_mgr (set_currentBatch []) w)).
Proof.
  intros (Hp & Ha & Hq) Hacc Hlen.
  apply accepted_inv in Hacc as [Ht Hr].
  unfold deliver. rewrite Hp, Ha, Hq. cbn [negb orb].
  unfold handleParsedRow. rewrite Ht, Hr. cbn [negb].
  cbn [with_mgr mgr set_currentBatch currentBatch].
  rewrite length_app. cbn [length].
  destruct (Z.leb_spec BATCH_SIZE
              (Z.of_nat (length (currentBatch (mgr w)) + 1))); [|lia].
  unfold sendBatch. cbn [with_mgr mgr set_currentBatch currentBatch].
  rewrite length_app. cbn [length].
  destruct (Z.ltb_spec 0 (Z.of_nat (length (currentBatch (mgr w)) + 1))); [|lia].
  unfold uploadBatch. cbn [with_mgr mgr set_currentBatch quotaExceeded].
  rewrite Hq. rewrite length_app. cbn [length].
  destruct (Z.eqb_spec (Z.of_nat (length (currentBatch (mgr w)) + 1)) 0); [lia|].
  reflexivity.
Qed.

(** Rows that do not fill the batch only grow it. *)
Lemma feed_below (rows : list Js.RawRecord) : forall w : World,
  ready w ->
  Forall (fun row => accepted (range (mgr w)) row = true) rows ->
  Z.of_nat (length (currentBatch (mgr w))) + Z.of_nat (length rows) < BATCH_SIZE ->
  run w (map Step rows)
  = with_mgr (set_currentBatch
                (currentBatch (mgr w) ++ map toUmamiEvent rows)) w.
Proof.
  induction rows as [|row rows IH]; intros w Hready Hall Hlen.
  - cbn [map run foldl]. rewrite app_nil_r.
    symmetry. apply with_mgr_set_currentBatch_id.
  - apply Forall_cons in Hall as [Hrow Hall].
    cbn [length] in Hlen.
    cbn [map run foldl]. fold (run (deliver w (Step row)) (map Step rows)).
    rewrite deliver_step_below by (auto; lia).
    rewrite IH.
    + cbn [with_mgr mgr set_currentBatch currentBatch].
      rewrite <- app_assoc. reflexivity.
    + destruct Hready as (? & ? & ?). repeat split; assumption.
    + exact Hall.
    + cbn [with_mgr mgr set_currentBatch currentBatch].
      rewrite length_app. cbn [length]. lia.
Qed.

(** Rows that fill the batch exactly send it as one request. *)
Lemma feed_fill (rows : list Js.RawRecord) (w : World) :
  ready w ->
  Forall (fun row => accepted (range (mgr w)) row = true) rows ->
  rows <> [] ->
  Z.of_nat (length (currentBatch (mgr w))) + Z.of_nat (length rows) = BATCH_SIZE ->
  run w (map Step rows)
  = fetch (currentBatch (mgr w) ++ map toUmamiEvent rows) false
      (with_mgr (set_uploadInProgress true)
         (with_mgr (set_currentBatch []) w)).
Proof.
  intros Hready Hall Hne Hlen.
  destruct (exists_last Hne) as (init & last & ->).
  apply Forall_app in Hall as [Hinit Hlast].
  apply Forall_cons in Hlast as [Hlast _].
  rewrite length_app in Hlen. cbn [length] in Hlen.
  rewrite map_app, run_app. cbn [map].
  rewrite feed_below by (auto; lia).
  cbn [run foldl].
  rewrite deliver_step_full.
  - cbn [with_mgr mgr set_currentBatch currentBatch].
    rewrite map_app, app_assoc. reflexivity.
  - destruct Hready as (? & ? & ?). repeat split; assumption.
  - exact Hlast.
  - cbn [with_mgr mgr set_currentBatch currentBatch].
    rewrite length_app, length_map. lia.
Qed.

(** At the end of the input what is left is sent, flagged last. *)
Lemma deliver_complete (w : World) :
  ready w ->
  sent (deliver w Complete)
  = sent w ++ [Http.mkRequest (pretty (siteId (mgr w))) (importId (mgr w))
                 (map to_record (currentBatch (mgr w))) (Some true)].
Proof.
  intros (Hp & Ha & Hq).
  unfold deliver. rewrite Hp, Ha. cbn [negb].
  unfold handleParseComplete, sendBatch.
  cbn [with_mgr mgr set_parsingComplete currentBatch].
  assert (Hsent : forall w', sent (checkCompletion w') = sent w').
  { intros w'. unfold checkCompletion, report.
    repeat match goal with |- context [if ?b then _ else _] => destruct b end;
      reflexivity. }
  assert (Hup : forall evs w',
             quotaExceeded (mgr w') = false ->
             sent (uploadBatch evs true w')
             = sent w' ++ [Http.mkRequest (pretty (siteId (mgr w')))
                             (importId (mgr w')) (map to_record evs) (Some true)]).
  { intros evs w' Hq'. unfold uploadBatch. rewrite Hq'.
    rewrite andb_false_r. reflexivity. }
  destruct (Z.ltb_spec 0 (Z.of_nat (length (currentBatch (mgr w))))) as [Hpos|Hzero].
  - match goal with
    | |- sent (if ?b then _ else _) = _ => destruct b
    end; rewrite ?Hsent, Hup; try reflexivity; exact Hq.
  - assert (Hnil : currentBatch (mgr w) = []).
    { destruct (currentBatch (mgr w)); [reflexivity|cbn [length] in Hzero; lia]. }
    rewrite Hnil.
    match goal with
    | |- sent (if ?b then _ else _) = _ => destruct b
    end; rewrite ?Hsent, Hup; try reflexivity; exact Hq.
Qed.

End ManagerBatching.

(** ** The coordinator: what the batcher sends does not depend on uploads
       that succeed *)

Section ManagerTraces.

Import Manager.

Lemma same_batching_refl (w : World) : same_batching w w.
Proof. unfold same_batching. repeat split; reflexivity. Qed.

Lemma same_batching_trans (w1 w2 w3 : World) :
  same_batching w1 w2 -> same_batching w2 w3 -> same_batching w1 w3.
Proof.
  unfold same_batching. intros (?&?&?&?&?&?&?&?) (?&?&?&?&?&?&?&?).
  repeat split; congruence.
Qed.

Lemma same_batching_report (ok : bool) (msg : string) (w : World) :
  same_batching (report ok msg w) w.
Proof.
  unfold report. destruct (onComplete (mgr w));
    unfold same_batching; repeat split; reflexivity.
Qed.

Lemma same_batching_checkCompletion (w : World) :
  same_batching (checkCompletion w) w.
Proof.
  unfold checkCompletion.
  destruct (_ && _); [apply same_batching_report|apply same_batching_refl].
Qed.

(** An upload that succeeds changes nothing the batcher looks at. *)
Lemma settle_plain_success (w : World) (i : nat) (o : Http.FetchOutcome) :
  plain_success o = true ->
  same_batching (deliver w (Settle i o)) w.
Proof.
  intros Ho. unfold deliver.
  destruct (inflight w !! i); [|apply same_batching_refl].
  destruct o as [t0|status [t0|data]]; try discriminate.
  cbn [plain_success] in Ho. apply andb_true_iff in Ho as [Hs Hq].
  unfold uploadBatch_resume. rewrite Hs. cbn [negb].
  apply negb_true_iff in Hq. rewrite Hq.
  eapply same_batching_trans; [apply same_batching_checkCompletion|].
  unfold same_batching. fields. repeat split; reflexivity.
Qed.

Lemma same_batching_uploadBatch (evs : list UmamiEvent) (b : bool)
  (w1 w2 : World) :
  same_batching w1 w2 ->
  same_batching (uploadBatch evs b w1) (uploadBatch evs b w2).
Proof.
  intros (Hp & Ha & Hq & Hr & Hs & Hi & Hc & Hsent).
  unfold uploadBatch. rewrite Hq.
  destruct (quotaExceeded (mgr w2)) eqn:Hq2.
  { unfold same_batching. repeat split; congruence. }
  destruct (_ && _).
  { unfold same_batching. repeat split; congruence. }
  unfold fetch, same_batching. fields.
  rewrite Hs, Hi, Hsent. repeat split; congruence.
Qed.

Lemma same_batching_sendBatch (b : bool) (w1 w2 : World) :
  same_batching w1 w2 ->
  same_batching (sendBatch b w1) (sendBatch b w2).
Proof.
  intros H. pose proof H as (Hp & Ha & Hq & Hr & Hs & Hi & Hc & Hsent).
  unfold sendBatch. rewrite Hc.
  destruct (0 <? _).
  - apply same_batching_uploadBatch.
    unfold same_batching. fields. repeat split; congruence.
  - destruct b; [apply same_batching_uploadBatch|]; exact H.
Qed.

(** A parser callback acts alike on worlds the batcher cannot tell
    apart. *)
Lemma parser_event_same_batching (ev : Event) (w1 w2 : World) :
  is_parser_event ev = true ->
  same_batching w1 w2 ->
  same_batching (deliver w1 ev) (deliver w2 ev).
Proof.
  intros Hev H. pose proof H as (Hp & Ha & Hq & Hr & Hs & Hi & Hc & Hsent).
  destruct ev as [row| |msg|i o]; try discriminate; unfold deliver;
    rewrite Hp, Ha, ?Hq.
  - destruct (negb (parsing w2)) eqn:Hp2; [exact H|].
    destruct (_ || _) eqn:Hstop; [exact H|].
    unfold handleParsedRow. rewrite Hr.
    destruct (negb (Js.truthy _)); [exact H|].
    destruct (negb (isDateInRange _ _)); [exact H|].
    cbv zeta.
    set (w1' := with_mgr _ w1). set (w2' := with_mgr _ w2).
    assert (H' : same_batching w1' w2').
    { unfold same_batching, w1', w2'. fields. rewrite Hc.
      repeat split; congruence. }
    pose proof H' as (_ & _ & _ & _ & _ & _ & Hc' & _). rewrite Hc'.
    destruct (BATCH_SIZE <=? _); [apply same_batching_sendBatch|]; exact H'.
  - destruct (negb (parsing w2)) eqn:Hp2; [exact H|].
    destruct (aborted (mgr w2)) eqn:Ha2; [exact H|].
    unfold handleParseComplete.
    assert (H' : same_batching
              (sendBatch true (with_mgr (set_parsingComplete true) w1))
              (sendBatch true (with_mgr (set_parsingComplete true) w2))).
    { apply same_batching_sendBatch.
      unfold same_batching. fields. repeat split; congruence. }
    assert (Hl : forall w, same_batching
               (if negb (uploadInProgress (mgr w)) then checkCompletion w else w) w).
    { intros w. destruct (negb (uploadInProgress (mgr w)));
        [apply same_batching_checkCompletion|apply same_batching_refl]. }
    eapply same_batching_trans; [apply Hl|].
    eapply same_batching_trans; [apply H'|].
    unfold same_batching in *.
    specialize (Hl (sendBatch true (with_mgr (set_parsingComplete true) w2))).
    destruct Hl as (?&?&?&?&?&?&?&?). repeat split; congruence.
  - destruct (negb (parsing w2)) eqn:Hp2; [exact H|].
    destruct (aborted (mgr w2)) eqn:Ha2; [exact H|].
    unfold handleError.
    eapply same_batching_trans; [apply same_batching_report|].
    eapply same_batching_trans; [apply H|].
    unfold same_batching.
    destruct (same_batching_report false msg w2) as (?&?&?&?&?&?&?&?).
    repeat split; congruence.
Qed.

(** Over a whole trace: successful uploads can be left out. *)
Lemma run_undisturbed (evs : list Event) : forall w1 w2 : World,
  same_batching w1 w2 ->
  Forall (fun ev => undisturbed ev = true) evs ->
  same_batching (run w1 evs) (run w2 (filter (fun ev => is_parser_event ev = true) evs)).
Proof.
  induction evs as [|ev evs IH]; intros w1 w2 H Hall.
  - exact H.
  - apply Forall_cons in Hall as [Hev Hall].
    cbn [run foldl]. fold (run (deliver w1 ev) evs).
    destruct ev as [row| |msg|i o].
    + rewrite filter_cons_True by reflexivity.
      cbn [run foldl]. apply IH; [|exact Hall].
      apply parser_event_same_batching; [reflexivity|exact H].
    + rewrite filter_cons_True by reflexivity.
      cbn [run foldl]. apply IH; [|exact Hall].
      apply parser_event_same_batching; [reflexivity|exact H].
    + rewrite filter_cons_True by reflexivity.
      cbn [run foldl]. apply IH; [|exact Hall].
      apply parser_event_same_batching; [reflexivity|exact H].
    + rewrite filter_cons_False by (cbn; discriminate).
      apply IH; [|exact Hall].
      eapply same_batching_trans; [|exact H].
      apply settle_plain_success. exact Hev.
Qed.

(** A trace of parser callbacks only. *)
Lemma filter_parser_steps (rows : list Js.RawRecord) (tail : list Event) :
  filter (fun ev => is_parser_event ev = true) (map Step rows ++ tail)
  = map Step rows ++ filter (fun ev => is_parser_event ev = true) tail.
Proof.
  induction rows as [|row rows IH]; [reflexivity|].
  cbn [map app]. rewrite filter_cons_True by reflexivity.
  rewrite IH. reflexivity.
Qed.

Lemma undisturbed_steps (rows : list Js.RawRecord) :
  Forall (fun ev => undisturbed ev = true) (map Step rows).
Proof.
  induction rows as [|row rows IH]; constructor; [reflexivity|exact IH].
Qed.

End ManagerTraces.

(** ** The coordinator: the batches of an import *)

Section ManagerImports.

Import Manager.

(** With two valid bounds [startImport] starts the parser on a fresh
    object. *)
Lemma startImport_valid (hasCallback : bool) (site : Z) (import : string)
  (earliestStr latestStr : string) (f : DateRange) :
  createDateRangeFilter earliestStr latestStr = inr f ->
  startImport hasCallback site import earliestStr latestStr
  = mkWorld (mk false hasCallback false false false site import [] f)
            [] [] [] true.
Proof.
  unfold createDateRangeFilter, startImport.
  destruct (negb (Luxon.isValid _)); [discriminate|].
  destruct (negb (Luxon.isValid _)); [discriminate|].
  intros [= <-]. reflexivity.
Qed.

(** The requests sent for 12001 accepted rows, when no upload settles
    before the end of the input. *)
Lemma sent_12001 (w : World) (rows : list Js.RawRecord) :
  ready w ->
  currentBatch (mgr w) = [] ->
  sent w = [] ->
  Z.of_nat (length rows) = 12001 ->
  Forall (fun row => accepted (range (mgr w)) row = true) rows ->
  exists r1 r2 r3,
    rows = r1 ++ r2 ++ r3
    /\ Z.of_nat (length r1) = 5000 /\ Z.of_nat (length r2) = 5000
    /\ Z.of_nat (length r3) = 2001
    /\ sent (run w (map Step rows ++ [Complete]))
       = [ Http.mkRequest (pretty (siteId (mgr w))) (importId (mgr w))
             (map to_record (map toUmamiEvent r1)) (Some false);
           Http.mkRequest (pretty (siteId (mgr w))) (importId (mgr w))
             (map to_record (map toUmamiEvent r2)) (Some false);
           Http.mkRequest (pretty (siteId (mgr w))) (importId (mgr w))
             (map to_record (map toUmamiEvent r3)) (Some true) ].
Proof.
  intros Hready Hcb Hsent Hlen Hall.
  set (n := Z.to_nat 5000).
  exists (take n rows), (take n (drop n rows)), (drop n (drop n rows)).
  assert (Hrows : rows = take n rows ++ take n (drop n rows) ++ drop n (drop n rows)).
  { rewrite !take_drop. reflexivity. }
  assert (Hl1 : Z.of_nat (length (take n rows)) = 5000).
  { rewrite length_take. subst n. lia. }
  assert (Hl2 : Z.of_nat (length (take n (drop n rows))) = 5000).
  { rewrite length_take, length_drop. subst n. lia. }
  assert (Hl3 : Z.of_nat (length (drop n (drop n rows))) = 2001).
  { rewrite !length_drop. subst n. lia. }
  split; [exact Hrows|]. do 3 (split; [assumption|]).
  rewrite Hrows in Hall.
  apply Forall_app in Hall as [Hall1 Hall].
  apply Forall_app in Hall as [Hall2 Hall3].
  set (r1 := take n rows) in *. set (r2 := take n (drop n rows)) in *.
  set (r3 := drop n (drop n rows)) in *.
  rewrite Hrows at 1.
  rewrite !map_app, !run_app.
  destruct Hready as (Hp & Ha & Hq).
  rewrite (feed_fill r1 w); [|repeat split; assumption|exact Hall1| |].
  2:{ intros ->. cbn [length] in Hl1. lia. }
  2:{ rewrite Hcb. cbn [length]. unfold BATCH_SIZE. lia. }
  match goal with |- context [run ?wA (map Step r2)] => set (w1 := wA) end.
  rewrite (feed_fill r2 w1); subst w1; fields.
  2:{ repeat split; assumption. }
  2:{ exact Hall2. }
  2:{ intros ->. cbn [length] in Hl2. lia. }
  2:{ cbn [length]. unfold BATCH_SIZE. lia. }
  match goal with |- context [run ?wB (map Step r3)] => set (w2 := wB) end.
  rewrite (feed_below r3 w2); subst w2; fields.
  2:{ repeat split; assumption. }
  2:{ exact Hall3. }
  2:{ cbn [length]. unfold BATCH_SIZE. lia. }
  cbn [run foldl]. rewrite deliver_complete; fields.
  2:{ repeat split; assumption. }
  rewrite Hcb, Hsent. reflexivity.
Qed.

End ManagerImports.

(** C8. 12001 accepted rows followed by the end of the input, with any
    uploads settling in between as plain successes, make the coordinator send
    exactly three requests, of 5000, 5000 and 2001 events in the order of the
    rows, and only the third is flagged [isLastBatch]. *)
Theorem batches_of_12001_rows
  (hasCallback : bool) (site : Z) (import earliestStr latestStr : string)
  (f : DateRange) (rows : list Js.RawRecord) (evs : list Manager.Event) :
  createDateRangeFilter earliestStr latestStr = inr f ->
  Z.of_nat (length rows) = 12001 ->
  Forall (fun row => Manager.accepted f row = true) rows ->
  Forall (fun ev => Manager.undisturbed ev = true) evs ->
  filter (fun ev => Manager.is_parser_event ev = true) evs
  = map Manager.Step rows ++ [Manager.Complete] ->
  let w := Manager.run
             (Manager.startImport hasCallback site import earliestStr latestStr)
             evs in
  map Manager.shape (Manager.sent w)
  = [(5000, Some false); (5000, Some false); (2001, Some true)]
  /\ concat (map Http.body_events (Manager.sent w))
     = map (fun row => to_record (toUmamiEvent row)) rows.
Proof.
  intros Hf Hlen Hall Hevs Hparser w.
  assert (Hsame : Manager.sent w
                  = Manager.sent
                      (Manager.run
                         (Manager.startImport hasCallback site import
                            earliestStr latestStr)
                         (map Manager.Step rows ++ [Manager.Complete]))).
  { rewrite <- Hparser.
    apply (run_undisturbed evs _ _ (same_batching_refl _) Hevs). }
  rewrite Hsame. rewrite (startImport_valid _ _ _ _ _ f Hf).
  destruct (sent_12001
              (Manager.mkWorld
                 (Manager.mk false hasCallback false false false site import [] f)
                 [] [] [] true) rows)
    as (r1 & r2 & r3 & Hrows & Hl1 & Hl2 & Hl3 & Hsent);
    try reflexivity; try assumption.
  { repeat split; reflexivity. }
  rewrite Hsent. split.
  - unfold Manager.shape. cbn [map Http.body_events Http.body_isLastBatch].
    rewrite !length_map, Hl1, Hl2, Hl3. reflexivity.
  - cbn [map Http.body_events concat]. rewrite app_nil_r.
    rewrite Hrows, !map_app, !map_map. reflexivity.
Qed.

Lemma batches_of_12001_rows_witness :
  map Manager.shape
    (Manager.sent
       (Manager.run
          (Manager.startImport true 1 Sample.importId "2024-01-01" "2024-01-31")
          (map Manager.Step
             (replicate (Z.to_nat 12001) (Sample.row "2024-01-05 10:00:00"))
           ++ [Manager.Complete])))
  = [(5000, Some false); (5000, Some false); (2001, Some true)].
Proof.
  refine (proj1 (batches_of_12001_rows true 1 Sample.importId
                   "2024-01-01" "2024-01-31" _
                   (replicate (Z.to_nat 12001) (Sample.row "2024-01-05 10:00:00"))
                   _ _ _ _ _ _)).
  - vm_compute. reflexivity.
  - rewrite length_replicate. lia.
  - apply Forall_replicate. vm_compute. reflexivity.
  - apply Forall_app. split; [apply undisturbed_steps|].
    constructor; [reflexivity|constructor].
  - rewrite filter_parser_steps. reflexivity.
Defined.

(** C1 (the code departs from the claim). 10000 accepted rows arriving
    before any upload settles leave two requests pending at once: the second
    full batch is sent while the first is still in flight. *)
Theorem two_uploads_in_flight
  (hasCallback : bool) (site : Z) (import earliestStr latestStr : string)
  (f : DateRange) (rows : list Js.RawRecord) :
  createDateRangeFilter earliestStr latestStr = inr f ->
  Z.of_nat (length rows) = 10000 ->
  Forall (fun row => Manager.accepted f row = true) rows ->
  let w := Manager.run
             (Manager.startImport hasCallback site import earliestStr latestStr)
             (map Manager.Step rows) in
  map Manager.shape (Manager.inflight w)
  = [(5000, Some false); (5000, Some false)]
  /\ Manager.inflight w = Manager.sent w.
Proof.
  intros Hf Hlen Hall w. subst w.
  rewrite (startImport_valid _ _ _ _ _ f Hf).
  set (w0 := Manager.mkWorld _ _ _ _ _).
  set (n := Z.to_nat 5000).
  assert (Hrows : rows = take n rows ++ drop n rows) by (rewrite take_drop; reflexivity).
  assert (Hl1 : Z.of_nat (length (take n rows)) = 5000).
  { rewrite length_take. subst n. lia. }
  assert (Hl2 : Z.of_nat (length (drop n rows)) = 5000).
  { rewrite length_drop. subst n. lia. }
  rewrite Hrows in Hall. apply Forall_app in Hall as [Hall1 Hall2].
  rewrite Hrows, map_app, run_app.
  assert (Hne1 : take n rows <> []).
  { intros E. rewrite E in Hl1. cbn [length] in Hl1. lia. }
  assert (Hne2 : drop n rows <> []).
  { intros E. rewrite E in Hl2. cbn [length] in Hl2. lia. }
  assert (Hready0 : Manager.ready w0) by (repeat split; reflexivity).
  rewrite (feed_fill (take n rows) w0 Hready0 Hall1 Hne1)
    by (subst w0; cbn [Manager.currentBatch Manager.mgr length];
        unfold Manager.BATCH_SIZE; lia).
  match goal with
  | |- context [Manager.run ?wA (map Manager.Step (drop n rows))] =>
      set (w1 := wA)
  end.
  assert (Hready1 : Manager.ready w1) by (repeat split; reflexivity).
  rewrite (feed_fill (drop n rows) w1 Hready1 Hall2 Hne2)
    by (subst w1 w0;
        cbn [Manager.fetch Manager.with_mgr Manager.mgr
             Manager.set_uploadInProgress Manager.set_currentBatch
             Manager.currentBatch length];
        unfold Manager.BATCH_SIZE; lia).
  subst w1 w0.
  cbn [Manager.fetch Manager.with_mgr Manager.mgr Manager.inflight Manager.sent
       Manager.set_uploadInProgress Manager.set_currentBatch
       Manager.currentBatch Manager.siteId Manager.importId app map].
  split; [|reflexivity].
  unfold Manager.shape. cbn [Http.body_events Http.body_isLastBatch].
  rewrite !length_map, Hl1, Hl2. reflexivity.
Qed.

Lemma two_uploads_in_flight_witness :
  map Manager.shape
    (Manager.inflight
       (Manager.run
          (Manager.startImport true 1 Sample.importId "2024-01-01" "2024-01-31")
          (map Manager.Step
             (replicate (Z.to_nat 10000) (Sample.row "2024-01-05 10:00:00")))))
  = [(5000, Some false); (5000, Some false)].
Proof.
  refine (proj1 (two_uploads_in_flight true 1 Sample.importId
                   "2024-01-01" "2024-01-31" _
                   (replicate (Z.to_nat 10000) (Sample.row "2024-01-05 10:00:00"))
                   _ _ _)).
  - vm_compute. reflexivity.
  - rewrite length_replicate. lia.
  - apply Forall_replicate. vm_compute. reflexivity.
Defined.

(** The worker-driven coordinator does the same: every [CHUNK_READY] message
    starts an upload at once. *)
Lemma worker_manager_two_uploads_in_flight
  (b1 b2 : list UmamiEvent) (p1 s1 e1 p2 s2 e2 : Z) :
  WorkerManager.inflight
    (WorkerManager.run WorkerManager.startImport
       [WorkerManager.Message (Worker.CHUNK_READY b1 p1 s1 e1);
        WorkerManager.Message (Worker.CHUNK_READY b2 p2 s2 e2)])
  = [b1; b2].
Proof. reflexivity. Qed.

(** ** The server: the checks before ingestion *)

Section ServerChecks.

Import Server.
Context {Row Tracker : Type}.
Variable env : Env Row Tracker.

Lemma Status_eqb_eq (a b : Status) : Status_eqb a b = true <-> a = b.
Proof. destruct a, b; cbn; split; congruence. Qed.

Lemma Status_eqb_neq (a b : Status) : Status_eqb a b = false <-> a <> b.
Proof. destruct a, b; cbn; split; congruence. Qed.

(** What a request that passed the schema looks like. *)
Lemma safeParse_Some (req : Http.BatchImportRequest) (p : Parsed) :
  safeParse env req = Some p ->
  site p = Http.params_site req
  /\ importId p = Http.params_importId req
  /\ isLastBatch p = Http.body_isLastBatch req
  /\ mapM (umamiEventKeyOnlySchema env) (Http.body_events req) = Some (events p)
  /\ 1 <= Z.of_nat (length (events p)) <= 10000.
Proof.
  unfold safeParse.
  destruct (negb (1 <=? _)); [discriminate|].
  destruct (negb (is_uuid _ _)); [discriminate|].
  destruct (mapM _ _) as [evs|]; [|discriminate].
  destruct (Z.leb_spec 1 (Z.of_nat (length evs)));
    destruct (Z.leb_spec (Z.of_nat (length evs)) 10000);
    cbn [andb]; try discriminate.
  intros [= <-]. cbn. repeat split; auto.
Qed.

(** A request without events does not pass the schema ([min(1)]). *)
Lemma safeParse_no_events (req : Http.BatchImportRequest) :
  Http.body_events req = [] -> safeParse env req = None.
Proof.
  intros Hnil. unfold safeParse. rewrite Hnil.
  destruct (negb (1 <=? _)); [reflexivity|].
  destruct (negb (is_uuid _ _)); reflexivity.
Qed.

(** When the checks let a request through. *)
Lemma precheck_passes (req : Http.BatchImportRequest) (st : State Row)
  (p : Parsed) (s : ImportSession) (organizationId : string) :
  safeParse env req = Some p ->
  getUserHasAdminAccessToSite env (site p) = true ->
  imports st !! importId p = Some s ->
  Number env (site p) = Some (siteId s) ->
  status s <> completed ->
  status s <> failed ->
  platform_known env p s ->
  site_organization env (siteId s) = Some organizationId ->
  precheck env req st = inr (p, organizationId, checked_state p s st).
Proof.
  intros Hparse Hadmin Hs Hnum Hc Hf Hplat Horg.
  unfold precheck, getImportById. rewrite Hparse, Hadmin, Hs, Hnum.
  cbn [negb]. rewrite bool_decide_eq_true_2 by reflexivity. cbn [negb].
  apply Status_eqb_neq in Hc, Hf. rewrite Hc, Hf.
  unfold checked_state.
  destruct (Js.truthy (platform s)) eqn:Hp.
  - cbn [mbind option_bind]. rewrite Horg. reflexivity.
  - destruct Hplat as [Hplat|[e He]]; [congruence|].
    rewrite He. cbn [mbind option_bind]. rewrite Horg. reflexivity.
Qed.

(** And only then. *)
Lemma precheck_inr (req : Http.BatchImportRequest) (st st1 : State Row)
  (p : Parsed) (organizationId : string) :
  precheck env req st = inr (p, organizationId, st1) ->
  safeParse env req = Some p
  /\ getUserHasAdminAccessToSite env (site p) = true
  /\ exists s,
       imports st !! importId p = Some s
       /\ Number env (site p) = Some (siteId s)
       /\ status s <> completed /\ status s <> failed
       /\ platform_known env p s
       /\ site_organization env (siteId s) = Some organizationId
       /\ st1 = checked_state p s st.
Proof.
  unfold precheck, getImportById.
  destruct (safeParse env req) as [p'|] eqn:Hparse; [|discriminate].
  destruct (getUserHasAdminAccessToSite env (site p')) eqn:Hadmin;
    cbn [negb]; [|discriminate].
  destruct (imports st !! importId p') as [s|] eqn:Hs; [|discriminate].
  destruct (bool_decide _) eqn:Hsite; cbn [negb]; [|discriminate].
  apply bool_decide_eq_true_1 in Hsite.
  destruct (Status_eqb (status s) completed) eqn:Hc; [discriminate|].
  destruct (Status_eqb (status s) failed) eqn:Hf; [discriminate|].
  apply Status_eqb_neq in Hc, Hf.
  unfold checked_state, platform_known.
  destruct (Js.truthy (platform s)) eqn:Hp.
  - rewrite <- Hsite. cbn [mbind option_bind].
    destruct (site_organization env (siteId s)) as [org|] eqn:Horg;
      [|discriminate].
    intros [= <- <- <-]. split; [reflexivity|]. split; [assumption|].
    exists s. rewrite Hp. repeat split; auto.
  - destruct (head (events p') ≫= _) as [e|] eqn:He; [|discriminate].
    rewrite <- Hsite. cbn [mbind option_bind].
    destruct (site_organization env (siteId s)) as [org|] eqn:Horg;
      [|discriminate].
    intros [= <- <- <-]. split; [reflexivity|]. split; [assumption|].
    exists s. rewrite Hp. repeat split; auto.
Qed.

(** The session of a request that was let through: [processing], with the
    count it had, and nothing stored or inserted yet. *)
Lemma checked_state_session (p : Parsed) (s : ImportSession) (st : State Row) :
  imports st !! importId p = Some s ->
  status s <> completed -> status s <> failed ->
  exists s1,
    imports (checked_state p s st) !! importId p = Some s1
    /\ status s1 = processing
    /\ importedEvents s1 = importedEvents s
    /\ siteId s1 = siteId s
    /\ events_table (checked_state p s st) = events_table st
    /\ insert_calls (checked_state p s st) = insert_calls st.
Proof.
  intros Hs Hc Hf. unfold checked_state.
  destruct (status s) eqn:Hst; try congruence; cbn [Status_eqb];
    destruct (Js.truthy (platform s));
    unfold set_platform, updateImportStatus;
    cbn [imports events_table insert_calls];
    rewrite ?lookup_alter_eq, ?Hs; cbn [fmap option_fmap option_map];
    rewrite ?lookup_alter_eq, ?Hs; cbn [fmap option_fmap option_map];
    eexists; (split; [reflexivity|]); cbn; rewrite ?Hst; repeat split.
Qed.

(** An early reply is an error reply. *)
Lemma precheck_inl (req : Http.BatchImportRequest) (st st1 : State Row)
  (r : Http.Response) :
  precheck env req st = inl (st1, r) ->
  Js.status_ok (Http.status r) = false
  /\ is_Some (Http.error (Http.body r))
  /\ Http.quotaExceeded (Http.body r) = None
  /\ events_table st1 = events_table st
  /\ insert_calls st1 = insert_calls st.
Proof.
  unfold precheck, getImportById.
  repeat match goal with
         | |- context [match ?x with _ => _ end] =>
             lazymatch x with
             | context [match _ with _ => _ end] => fail
             | _ => destruct x eqn:?
             end
         end;
    intros [= <- <-]; cbn; repeat split; eauto.
Qed.

End ServerChecks.

(** ** The server: ingestion *)

Section ServerIngest.

Import Server.
Context {Row Tracker : Type}.
Variable env : Env Row Tracker.

(** Events without [created_at] never reach the tracker. *)
Lemma partition_quota_no_created_at (evs : list UmamiEvent) :
  forall (tr : Tracker) (within : list UmamiEvent) (skipped : Z),
  Forall (fun e => created_at e = "") evs ->
  partition_quota env tr evs within skipped = (within, skipped, tr).
Proof.
  induction evs as [|e evs IH]; intros tr within skipped Hall; [reflexivity|].
  apply Forall_cons in Hall as [He Hall].
  cbn [partition_quota]. rewrite He. cbn [Js.truthy String.eqb negb].
  apply IH. exact Hall.
Qed.

(** A session in a terminal state: every request for it is answered with
    an error and the state stays as it is. *)
Lemma rejects_terminal (req : Http.BatchImportRequest) (st : State Row)
  (s : ImportSession) :
  imports st !! Http.params_importId req = Some s ->
  status s = completed \/ status s = failed ->
  exists r,
    batchImportEvents env req st = (st, r)
    /\ Js.status_ok (Http.status r) = false
    /\ is_Some (Http.error (Http.body r)).
Proof.
  intros Hs Hterm. unfold batchImportEvents, precheck, getImportById.
  destruct (safeParse env req) as [p|] eqn:Hparse.
  2:{ eexists. split; [reflexivity|]. cbn. eauto. }
  destruct (safeParse_Some env req p Hparse) as (_ & Hid & _).
  rewrite Hid, Hs.
  destruct (negb (getUserHasAdminAccessToSite env (site p))).
  { eexists. split; [reflexivity|]. cbn. eauto. }
  destruct (negb (bool_decide _)).
  { eexists. split; [reflexivity|]. cbn. eauto. }
  destruct Hterm as [-> | ->]; cbn [Status_eqb];
    eexists; (split; [reflexivity|]); cbn; eauto.
Qed.

(** The three ways the inner [try] can end, told apart by the call to
    [clickhouse.insert]. *)
Lemma ingest_insert_calls (p : Parsed) (organizationId : string)
  (st : State Row) :
  let st' := fst (ingest env p organizationId st) in
  let r := snd (ingest env p organizationId st) in
  (insert_calls st' = insert_calls st
   /\ events_table st' = events_table st)
  \/ (exists rows,
        insert_calls st' = insert_calls st ++ [(rows, None)]
        /\ Http.status r = 200)
  \/ (exists rows t,
        insert_calls st' = insert_calls st ++ [(rows, Some t)]
        /\ events_table st' = events_table st
        /\ imports st'
           = alter (fun s => mkSession (siteId s) failed (platform s)
                               (importedEvents s)
                               (Some ("Failed to insert events: "
                                      +:+ Http.message_of t)))
                   (importId p) (imports st)
        /\ Http.status r = 500).
Proof.
  unfold ingest.
  destruct (tracker_create env organizationId) as [t|tr].
  { left. split; reflexivity. }
  destruct (partition_quota env tr (events p) [] 0) as [[within skipped] tr'].
  destruct (Z.of_nat (length within) =? 0).
  { left. destruct (default false (isLastBatch p)); split; reflexivity. }
  destruct (Z.of_nat (length (transform env within (site p) (importId p))) =? 0).
  { left. destruct (default false (isLastBatch p)); split; reflexivity. }
  unfold insert.
  destruct (clickhouse_insert env _) as [t|].
  - right. right. eexists _, t. cbn. repeat split; reflexivity.
  - right. left. eexists.
    destruct (default false (isLastBatch p)); cbn; split; reflexivity.
Qed.

(** Every reply of the inner [try] is a 200 or a 500. *)
Lemma ingest_status (p : Parsed) (organizationId : string) (st : State Row) :
  Http.status (snd (ingest env p organizationId st)) = 200
  \/ (Http.status (snd (ingest env p organizationId st)) = 500
      /\ Http.quotaExceeded (Http.body (snd (ingest env p organizationId st)))
         = None).
Proof.
  unfold ingest.
  destruct (tracker_create env organizationId) as [t|tr].
  { right. split; reflexivity. }
  destruct (partition_quota env tr (events p) [] 0) as [[within skipped] tr'].
  destruct (Z.of_nat (length within) =? 0); [left; reflexivity|].
  destruct (Z.of_nat (length (transform env within (site p) (importId p))) =? 0);
    [left; reflexivity|].
  unfold insert.
  destruct (clickhouse_insert env _) as [t|];
    [right; split; reflexivity|left; reflexivity].
Qed.

(** The reply and the state when the tracker admits nothing. *)
Lemma ingest_nothing_within_quota (p : Parsed) (organizationId : string)
  (st : State Row) (tr tr' : Tracker) (skipped : Z) :
  tracker_create env organizationId = inr tr ->
  partition_quota env tr (events p) [] 0 = ([], skipped, tr') ->
  ingest env p organizationId st
  = (if default false (isLastBatch p)
     then updateImportStatus (importId p) completed
            (Some (quotaMessage (length (events p)) (getSummary env tr'))) st
     else st,
     reply_send
       (Http.mkBody (Some true) (Some 0) (Some true)
          (Some (quotaMessage (length (events p)) (getSummary env tr')))
          None)).
Proof.
  intros Htr Hpart. unfold ingest. rewrite Htr, Hpart. reflexivity.
Qed.

(** The quota message is never empty. *)
Lemma quotaMessage_truthy (n : nat) (summary : Z * Z) :
  Js.truthy (Some (quotaMessage n summary)) = true.
Proof. destruct summary. reflexivity. Qed.

End ServerIngest.

(** ** The coordinator: after a quota reply *)

Section ManagerQuota.

Import Manager.

(** Once stopped, a parser callback returns at once. *)
Lemma stopped_parser_event (w : World) (ev : Event) :
  stopped w -> is_parser_event ev = true -> deliver w ev = w.
Proof.
  intros [Hq Ha] Hev.
  destruct ev as [row| |msg|i o]; try discriminate; cbn [deliver];
    rewrite ?Ha, ?Hq; destruct (negb (parsing w)); reflexivity.
Qed.

Lemma stopped_report (ok : bool) (msg : string) (w : World) :
  stopped w -> stopped (report ok msg w) /\ sent (report ok msg w) = sent w.
Proof.
  intros H. unfold report. destruct (onComplete (mgr w)); split; auto.
Qed.

(** Once stopped, whatever happens sends nothing and leaves the object
    stopped. *)
Lemma stopped_deliver (w : World) (ev : Event) :
  stopped w -> stopped (deliver w ev) /\ sent (deliver w ev) = sent w.
Proof.
  intros Hst.
  destruct (is_parser_event ev) eqn:Hev.
  { rewrite stopped_parser_event by assumption. split; auto. }
  destruct ev as [row| |msg|i o]; try discriminate.
  destruct Hst as [Hq Ha]. cbn [deliver].
  destruct (inflight w !! i); [|split; [split|]; auto].
  assert (Hcatch : forall t0 w0, quotaExceeded (mgr w0) = true ->
                     stopped (uploadBatch_catch t0 w0)
                     /\ sent (uploadBatch_catch t0 w0) = sent w0).
  { intros t0 w0 Hq0. unfold uploadBatch_catch, terminate, report, stopped.
    destruct (onComplete (mgr w0)); fields; auto. }
  set (w0 := mkWorld (mgr w) (delete i (inflight w)) (sent w)
                     (completions w) (parsing w)).
  change (sent w) with (sent w0).
  assert (Hq0 : quotaExceeded (mgr w0) = true) by exact Hq.
  assert (Ha0 : aborted (mgr w0) = true) by exact Ha.
  clearbody w0.
  unfold uploadBatch_resume.
  destruct o as [t0|status [t0|data]].
  - apply Hcatch. exact Hq0.
  - destruct (negb (Js.status_ok status)); apply Hcatch; exact Hq0.
  - destruct (negb (Js.status_ok status)); [apply Hcatch; exact Hq0|].
    destruct (default false (Http.quotaExceeded data)).
    + unfold report, stopped. fields.
      destruct (onComplete (mgr w0)); fields; auto.
    + unfold checkCompletion. fields. rewrite Hq0.
      rewrite andb_false_r. unfold stopped. fields. auto.
Qed.

Lemma stopped_run (evs : list Event) : forall w : World,
  stopped w -> stopped (run w evs) /\ sent (run w evs) = sent w.
Proof.
  induction evs as [|ev evs IH]; intros w Hst; [split; auto|].
  cbn [run foldl]. fold (run (deliver w ev) evs).
  destruct (stopped_deliver w ev Hst) as [Hst' Hsent].
  destruct (IH _ Hst') as [Hst'' Hsent'].
  split; [assumption|congruence].
Qed.

(** A 2xx reply that carries [quotaExceeded: true]: the import is reported
    complete with the reply's message, nothing is sent any more and the
    parser callbacks return at once. *)
Lemma settle_quota_reply (w : World) (i : nat)
  (pending : Http.BatchImportRequest) (status : Z) (data : Http.ResponseBody) :
  inflight w !! i = Some pending ->
  Js.status_ok status = true ->
  Http.quotaExceeded data = Some true ->
  let w' := deliver w (Settle i (Http.Responded status (inr data))) in
  (onComplete (mgr w) = true ->
   completions w'
   = completions w
     ++ [(true, Js.or_string (Http.message data)
                  "Import completed with quota limits")])
  /\ forall evs,
       sent (run w' evs) = sent w
       /\ forall ev, is_parser_event ev = true ->
                     deliver (run w' evs) ev = run w' evs.
Proof.
  intros Hi Hok Hq w'.
  assert (Hw' : w' = with_mgr (set_uploadInProgress false)
                       (report true
                          (Js.or_string (Http.message data)
                             "Import completed with quota limits")
                          (with_mgr (set_aborted true)
                             (with_mgr (set_quotaExceeded true)
                                (mkWorld (mgr w) (delete i (inflight w))
                                   (sent w) (completions w) (parsing w)))))).
  { subst w'. cbn [deliver]. rewrite Hi. unfold uploadBatch_resume.
    rewrite Hok, Hq. reflexivity. }
  assert (Hstop : stopped w' /\ sent w' = sent w).
  { rewrite Hw'. unfold report, stopped. fields.
    destruct (onComplete (mgr w)); fields; auto. }
  split.
  - intros Hcb. rewrite Hw'. unfold report. fields. rewrite Hcb. reflexivity.
  - intros evs. destruct Hstop as [Hst Hsent].
    destruct (stopped_run evs w' Hst) as [Hst' Hsent'].
    split; [congruence|].
    intros ev Hev. apply stopped_parser_event; assumption.
Qed.

End ManagerQuota.

(** C2 (the code departs from the claim). For a file without data rows the
    coordinator sends exactly one request, without events and flagged
    [isLastBatch]; the server answers it with 400 "Validation error" and
    leaves every session as it was; the coordinator then reports the import
    as failed. *)
Theorem empty_file_is_rejected
  (site : Z) (import earliestStr latestStr : string) (f : DateRange) :
  createDateRangeFilter earliestStr latestStr = inr f ->
  let req := Http.mkRequest (pretty site) import [] (Some true) in
  let w := Manager.run
             (Manager.startImport true site import earliestStr latestStr)
             [Manager.Complete] in
  Manager.sent w = [req]
  /\ Manager.inflight w = [req]
  /\ (forall (Row Tracker : Type) (env : Server.Env Row Tracker)
             (st : Server.State Row),
        Server.batchImportEvents env req st
        = (st, Server.reply_error 400 "Validation error"))
  /\ Manager.completions
       (Manager.deliver w
          (Manager.Settle 0
             (Http.of_response (Server.reply_error 400 "Validation error"))))
     = [(false, "Upload failed: Validation error")].
Proof.
  intros Hf req w. subst w.
  rewrite (startImport_valid _ _ _ _ _ f Hf).
  split; [reflexivity|]. split; [reflexivity|]. split; [|reflexivity].
  intros Row Tracker env st.
  unfold Server.batchImportEvents, Server.precheck.
  rewrite (safeParse_no_events env req) by reflexivity. reflexivity.
Qed.

Lemma empty_file_is_rejected_witness :
  Server.imports
    (fst (Server.batchImportEvents (Sample.env false)
            (Http.mkRequest (pretty 1) Sample.importId [] (Some true))
            (Sample.store Server.pending)))
  !! Sample.importId
  = Some (Sample.session Server.pending).
Proof.
  destruct (empty_file_is_rejected 1 Sample.importId "2024-01-01" "2024-01-31"
              (mkDateRange (Some (Luxon.Valid 1704067200000))
                           (Some (Luxon.Valid 1706745599999))))
    as (_ & _ & Hserver & _).
  - vm_compute. reflexivity.
  - rewrite Hserver. vm_compute. reflexivity.
Defined.

(** ** The server: the claims about sessions *)

(** C3. A request for a session that is completed or failed is answered with
    an error, and the state, and so the session's [importedEvents] and
    [status], stays as it was. *)
Theorem terminal_session_rejects_batches
  {Row Tracker : Type} (env : Server.Env Row Tracker)
  (req : Http.BatchImportRequest) (st : Server.State Row)
  (s : Server.ImportSession) :
  Server.imports st !! Http.params_importId req = Some s ->
  Server.status s = Server.completed \/ Server.status s = Server.failed ->
  let st' := fst (Server.batchImportEvents env req st) in
  let r := snd (Server.batchImportEvents env req st) in
  Js.status_ok (Http.status r) = false
  /\ is_Some (Http.error (Http.body r))
  /\ st' = st
  /\ exists s',
       Server.imports st' !! Http.params_importId req = Some s'
       /\ Server.importedEvents s' = Server.importedEvents s
       /\ Server.status s' = Server.status s.
Proof.
  intros Hs Hterm st' r. subst st' r.
  destruct (rejects_terminal env req st s Hs Hterm) as (r & -> & Hok & Herr).
  cbn [fst snd]. repeat split; try assumption.
  exists s. repeat split. exact Hs.
Qed.

Lemma terminal_session_rejects_batches_witness :
  fst (Server.batchImportEvents (Sample.env false)
         (Sample.request [Sample.event "2024-01-05 10:00:00"] false)
         (Sample.store Server.completed))
  = Sample.store Server.completed.
Proof.
  refine (proj1 (proj2 (proj2
            (terminal_session_rejects_batches (Sample.env false)
               (Sample.request [Sample.event "2024-01-05 10:00:00"] false)
               (Sample.store Server.completed)
               (Sample.session Server.completed) _ _)))).
  - vm_compute. reflexivity.
  - left. reflexivity.
Defined.

(** C4. When the call to [clickhouse.insert] made for a request throws, the
    reply is a 500, the session is failed with the error's text, its
    [importedEvents] is what it was, no row of the batch is in the event
    store, and from then on every request for the session is answered with
    an error and changes nothing. *)
Theorem insert_failure_fails_session
  {Row Tracker : Type} (env : Server.Env Row Tracker)
  (req : Http.BatchImportRequest) (st : Server.State Row)
  (rows : list Row) (t : Http.Thrown) :
  let st' := fst (Server.batchImportEvents env req st) in
  let r := snd (Server.batchImportEvents env req st) in
  Server.insert_calls st' = Server.insert_calls st ++ [(rows, Some t)] ->
  Http.status r = 500
  /\ Server.events_table st' = Server.events_table st
  /\ (exists s s',
        Server.imports st !! Http.params_importId req = Some s
        /\ Server.imports st' !! Http.params_importId req = Some s'
        /\ Server.status s' = Server.failed
        /\ Server.errorMessage s'
           = Some ("Failed to insert events: " +:+ Http.message_of t)
        /\ Server.importedEvents s' = Server.importedEvents s)
  /\ forall req',
       Http.params_importId req' = Http.params_importId req ->
       fst (Server.batchImportEvents env req' st') = st'
       /\ Js.status_ok (Http.status (snd (Server.batchImportEvents env req' st')))
          = false.
Proof.
  intros st' r Hcalls. subst st' r.
  unfold Server.batchImportEvents in *.
  destruct (Server.precheck env req st) as [[st1 r1]|[[p org] st1]] eqn:Hpre.
  { apply precheck_inl in Hpre as (_ & _ & _ & _ & Hc).
    cbn [fst] in Hcalls. rewrite Hc in Hcalls.
    apply (f_equal length) in Hcalls. rewrite length_app in Hcalls.
    cbn [length] in Hcalls. lia. }
  apply precheck_inr in Hpre
    as (Hparse & _ & s & Hs & _ & Hc & Hf & _ & _ & ->).
  destruct (safeParse_Some env req p Hparse) as (_ & Hid & _).
  destruct (checked_state_session p s st Hs Hc Hf)
    as (s1 & Hs1 & Hst1 & Himp1 & _ & Hev1 & Hcalls1).
  set (st1 := Server.checked_state p s st) in *.
  destruct (ingest_insert_calls env p org st1)
    as [[Hsame _]|[(rows' & Hok & _)|(rows' & t' & Hthrow & Hev & Himports & H500)]].
  - rewrite Hsame, Hcalls1 in Hcalls.
    apply (f_equal length) in Hcalls. rewrite length_app in Hcalls.
    cbn [length] in Hcalls. lia.
  - rewrite Hok, Hcalls1 in Hcalls.
    apply app_inj_tail in Hcalls as [_ Hcalls]. discriminate.
  - rewrite Hthrow, Hcalls1 in Hcalls.
    apply app_inj_tail in Hcalls as [_ [= -> ->]].
    assert (Hs' : Server.imports (fst (Server.ingest env p org st1))
                  !! Http.params_importId req
                  = Some (Server.mkSession (Server.siteId s1) Server.failed
                            (Server.platform s1) (Server.importedEvents s1)
                            (Some ("Failed to insert events: "
                                   +:+ Http.message_of t)))).
    { rewrite Himports, <- Hid, lookup_alter_eq, Hs1. reflexivity. }
    split; [exact H500|]. split; [congruence|]. split.
    + exists s. eexists. rewrite <- Hid at 1.
      split; [exact Hs|]. split; [exact Hs'|]. cbn. auto.
    + intros req' Hreq'. rewrite <- Hreq' in Hs'.
      destruct (rejects_terminal env req' _ _ Hs') as (r' & Hr' & Hok' & _);
        [right; reflexivity|].
      fold (Server.batchImportEvents env req'
              (fst (Server.ingest env p org st1))).
      rewrite Hr'. split; [reflexivity|exact Hok'].
Qed.

Lemma insert_failure_fails_session_witness :
  Http.status
    (snd (Server.batchImportEvents (Sample.env true)
            (Sample.request [Sample.event "2024-01-05 10:00:00"] false)
            (Sample.store Server.pending)))
  = 500.
Proof.
  refine (proj1 (insert_failure_fails_session (Sample.env true)
                   (Sample.request [Sample.event "2024-01-05 10:00:00"] false)
                   (Sample.store Server.pending)
                   [Sample.event "2024-01-05 10:00:00"]
                   (Http.ThrownError "connection reset") _)).
  vm_compute. reflexivity.
Defined.

Section ServerQuotaReplies.

Import Server.
Context {Row Tracker : Type}.
Variable env : Env Row Tracker.

(** The handler's reply and final state when the tracker admits nothing. *)
Lemma nothing_within_quota (req : Http.BatchImportRequest) (st st1 : State Row)
  (p : Parsed) (organizationId : string) (tr tr' : Tracker) (skipped : Z) :
  precheck env req st = inr (p, organizationId, st1) ->
  tracker_create env organizationId = inr tr ->
  partition_quota env tr (events p) [] 0 = ([], skipped, tr') ->
  let msg := quotaMessage (length (events p)) (getSummary env tr') in
  snd (batchImportEvents env req st)
  = reply_send (Http.mkBody (Some true) (Some 0) (Some true) (Some msg) None)
  /\ fst (batchImportEvents env req st)
     = (if default false (isLastBatch p)
        then updateImportStatus (importId p) completed (Some msg) st1
        else st1)
  /\ (isLastBatch p = Some true ->
      exists s',
        imports (fst (batchImportEvents env req st)) !! importId p = Some s'
        /\ status s' = completed
        /\ errorMessage s' = Some msg).
Proof.
  intros Hpre Htr Hpart msg.
  unfold batchImportEvents. rewrite Hpre.
  rewrite (ingest_nothing_within_quota env p organizationId st1 tr tr' skipped Htr Hpart).
  cbn [fst snd]. split; [reflexivity|]. split; [reflexivity|].
  intros Hlast. rewrite Hlast. cbn [from_option id].
  apply precheck_inr in Hpre as (_ & _ & s & Hs & _ & Hc & Hf & _ & _ & ->).
  destruct (checked_state_session p s st Hs Hc Hf) as (s1 & Hs1 & _).
  unfold updateImportStatus. cbn [imports].
  rewrite lookup_alter_eq, Hs1. eexists. split; [reflexivity|].
  split; reflexivity.
Qed.

(** A reply of the handler that carries [quotaExceeded] is a 200. *)
Lemma quota_reply_is_200 (req : Http.BatchImportRequest) (st : State Row) :
  Http.quotaExceeded (Http.body (snd (batchImportEvents env req st))) = Some true ->
  Http.status (snd (batchImportEvents env req st)) = 200.
Proof.
  unfold batchImportEvents.
  destruct (precheck env req st) as [[st1 r1]|[[p org] st1]] eqn:Hpre.
  - apply precheck_inl in Hpre as (_ & _ & Hq & _). cbn [snd].
    rewrite Hq. discriminate.
  - destruct (ingest_status env p org st1) as [H200|[_ Hq]];
      [intros _; exact H200|rewrite Hq; discriminate].
Qed.

End ServerQuotaReplies.

(** C5. When the tracker admits none of a batch's events, the reply is a
    success with [importedCount] 0 and [quotaExceeded: true], and a batch
    flagged [isLastBatch] completes the session with the quota message; a
    reply of the handler that carries [quotaExceeded: true] is a 200; and on
    a 2xx reply carrying [quotaExceeded: true] the coordinator reports the
    import as complete with the reply's message, sends nothing more and lets
    every parser callback return at once. *)
Theorem quota_exhausted_batch :
  (forall (Row Tracker : Type) (env : Server.Env Row Tracker)
          (req : Http.BatchImportRequest) (st st1 : Server.State Row)
          (p : Server.Parsed) (organizationId : string) (tr tr' : Tracker)
          (skipped : Z),
      Server.precheck env req st = inr (p, organizationId, st1) ->
      Server.tracker_create env organizationId = inr tr ->
      Server.partition_quota env tr (Server.events p) [] 0 = ([], skipped, tr') ->
      let msg := Server.quotaMessage (length (Server.events p))
                                     (Server.getSummary env tr') in
      snd (Server.batchImportEvents env req st)
      = Server.reply_send
          (Http.mkBody (Some true) (Some 0) (Some true) (Some msg) None)
      /\ Js.or_string (Some msg) "Import completed with quota limits" = msg
      /\ (Server.isLastBatch p = Some true ->
          exists s',
            Server.imports (fst (Server.batchImportEvents env req st))
            !! Server.importId p = Some s'
            /\ Server.status s' = Server.completed
            /\ Server.errorMessage s' = Some msg))
  /\ (forall (Row Tracker : Type) (env : Server.Env Row Tracker)
             (req : Http.BatchImportRequest) (st : Server.State Row),
        Http.quotaExceeded
          (Http.body (snd (Server.batchImportEvents env req st))) = Some true ->
        Http.status (snd (Server.batchImportEvents env req st)) = 200)
  /\ (forall (w : Manager.World) (i : nat) (pending : Http.BatchImportRequest)
             (status : Z) (data : Http.ResponseBody),
        Manager.inflight w !! i = Some pending ->
        Js.status_ok status = true ->
        Http.quotaExceeded data = Some true ->
        let w' := Manager.deliver w
                    (Manager.Settle i (Http.Responded status (inr data))) in
        (Manager.onComplete (Manager.mgr w) = true ->
         Manager.completions w'
         = Manager.completions w
           ++ [(true, Js.or_string (Http.message data)
                        "Import completed with quota limits")])
        /\ forall evs,
             Manager.sent (Manager.run w' evs) = Manager.sent w
             /\ forall ev, Manager.is_parser_event ev = true ->
                           Manager.deliver (Manager.run w' evs) ev
                           = Manager.run w' evs).
Proof.
  split; [|split].
  - intros Row Tracker env req st st1 p org tr tr' skipped Hpre Htr Hpart msg.
    destruct (nothing_within_quota env req st st1 p org tr tr' skipped Hpre Htr Hpart)
      as (Hr & _ & Hlast).
    split; [exact Hr|]. split; [|exact Hlast].
    unfold Js.or_string. subst msg. rewrite quotaMessage_truthy. reflexivity.
  - intros Row Tracker env req st. apply quota_reply_is_200.
  - intros w i pending status data. apply settle_quota_reply.
Qed.

Lemma quota_exhausted_batch_witness :
  Http.quotaExceeded
    (Http.body
       (snd (Server.batchImportEvents (Sample.env false)
               (Sample.request [Sample.event "2024-02-05 10:00:00"] true)
               (Sample.store Server.pending))))
  = Some true
  /\ Manager.sent
       (Manager.run
          (Manager.deliver Sample.world
             (Manager.Settle 0
                (Http.Responded 200
                   (inr (Http.mkBody (Some true) (Some 0) (Some true)
                                     (Some "quota") None)))))
          [Manager.Step (Sample.row "2024-01-06 10:00:00"); Manager.Complete])
     = Manager.sent Sample.world.
Proof.
  destruct quota_exhausted_batch as (Hserver & _ & Hclient).
  split.
  - destruct (Hserver _ _ (Sample.env false)
                (Sample.request [Sample.event "2024-02-05 10:00:00"] true)
                (Sample.store Server.pending)
                (Server.checked_state
                   (Server.mkParsed "1" Sample.importId
                      [Sample.event "2024-02-05 10:00:00"] (Some true))
                   (Sample.session Server.pending)
                   (Sample.store Server.pending))
                (Server.mkParsed "1" Sample.importId
                   [Sample.event "2024-02-05 10:00:00"] (Some true))
                "org" Sample.window Sample.window 1) as (Hr & _).
    + vm_compute. reflexivity.
    + reflexivity.
    + vm_compute. reflexivity.
    + rewrite Hr. reflexivity.
  - destruct (Hclient Sample.world 0%nat
                (Http.mkRequest "1" Sample.importId
                   [to_record (Sample.event "2024-01-05 10:00:00")] (Some true))
                200
                (Http.mkBody (Some true) (Some 0) (Some true) (Some "quota") None))
      as (_ & Hsent).
    + vm_compute. reflexivity.
    + reflexivity.
    + reflexivity.
    + apply Hsent.
Defined.

Section ServerProtocolErrors.

Import Server.
Context {Row Tracker : Type}.
Variable env : Env Row Tracker.

(** Every event of a request that passed the schema came out of the
    key-only schema. *)
Lemma mapM_schema_head (raws : list Js.RawRecord) (evs : list UmamiEvent)
  (e : UmamiEvent) :
  mapM (umamiEventKeyOnlySchema env) raws = Some evs ->
  head evs = Some e ->
  exists raw, umamiEventKeyOnlySchema env raw = Some e.
Proof.
  intros HmapM Hhead. apply mapM_Some in HmapM.
  destruct HmapM as [|raw e' raws' evs' He' _]; [discriminate|].
  cbn in Hhead. injection Hhead as ->. exists raw. exact He'.
Qed.

(** With a stable schema the first event of a valid request is always
    recognized: platform detection cannot fail. *)
Lemma first_event_recognized (req : Http.BatchImportRequest) (p : Parsed) :
  schema_stable env ->
  safeParse env req = Some p ->
  is_Some (head (events p) ≫= (fun firstEvent =>
             umamiEventKeyOnlySchema env (to_record firstEvent))).
Proof.
  intros Hstable Hparse.
  destruct (safeParse_Some env req p Hparse) as (_ & _ & _ & HmapM & Hlen & _).
  destruct (events p) as [|e evs] eqn:Hevs; [cbn [length] in Hlen; lia|].
  destruct (mapM_schema_head _ _ e HmapM eq_refl) as (raw & Hraw).
  cbn [head mbind option_bind]. eapply Hstable. exact Hraw.
Qed.

(** The state after an early reply other than the platform one is the
    state before. *)
Lemma precheck_inl_state (req : Http.BatchImportRequest) (st st1 : State Row)
  (r : Http.Response) :
  precheck env req st = inl (st1, r) ->
  r <> reply_error 400 "Unable to detect platform from event structure" ->
  r <> reply_error 404 "Site not found" ->
  st1 = st.
Proof.
  unfold precheck, getImportById.
  repeat match goal with
         | |- context [match ?x with _ => _ end] =>
             lazymatch x with
             | context [match _ with _ => _ end] => fail
             | _ => destruct x eqn:?
             end
         end;
    intros [= <- <-]; congruence.
Qed.

(** The platform reply stands for a first event that is not recognized. *)
Lemma precheck_platform_reply (req : Http.BatchImportRequest)
  (st st1 : State Row) :
  precheck env req st
  = inl (st1, reply_error 400 "Unable to detect platform from event structure") ->
  exists p,
    safeParse env req = Some p
    /\ head (events p) ≫= (fun firstEvent =>
         umamiEventKeyOnlySchema env (to_record firstEvent)) = None.
Proof.
  unfold precheck, getImportById.
  destruct (safeParse env req) as [p|] eqn:Hparse; [|discriminate].
  destruct (negb (getUserHasAdminAccessToSite env (site p))); [discriminate|].
  destruct (imports st !! importId p) as [s|]; [|discriminate].
  destruct (negb (bool_decide _)); [discriminate|].
  destruct (Status_eqb (status s) completed); [discriminate|].
  destruct (Status_eqb (status s) failed); [discriminate|].
  destruct (Js.truthy (platform s)).
  { destruct (_ ≫= site_organization env); discriminate. }
  destruct (head (events p) ≫= _) as [e|] eqn:He.
  { destruct (_ ≫= site_organization env); discriminate. }
  intros _. exists p. split; [reflexivity|exact He].
Qed.

(** The order of the code: a pending session is moved to [processing]
    before the platform is looked at, so a request rejected for its platform
    leaves the session in [processing]. *)
Lemma pending_moved_before_platform_check (req : Http.BatchImportRequest)
  (st : State Row) (p : Parsed) (s : ImportSession) :
  safeParse env req = Some p ->
  getUserHasAdminAccessToSite env (site p) = true ->
  imports st !! importId p = Some s ->
  Number env (site p) = Some (siteId s) ->
  status s = pending ->
  Js.truthy (platform s) = false ->
  head (events p) ≫= (fun firstEvent =>
    umamiEventKeyOnlySchema env (to_record firstEvent)) = None ->
  batchImportEvents env req st
  = (updateImportStatus (importId p) processing None st,
     reply_error 400 "Unable to detect platform from event structure").
Proof.
  intros Hparse Hadmin Hs Hnum Hst Hplat Hhead.
  unfold batchImportEvents, precheck, getImportById.
  rewrite Hparse, Hadmin, Hs, Hnum, Hst, Hplat, Hhead.
  cbn [negb]. rewrite bool_decide_eq_true_2 by reflexivity. reflexivity.
Qed.


End ServerProtocolErrors.

(** The rejections that come before any write leave the state as it was. *)
Lemma early_rejections_leave_state
  {Row Tracker : Type} (env : Server.Env Row Tracker)
  (req : Http.BatchImportRequest) (st : Server.State Row) :
  Server.rejected_before_write (snd (Server.batchImportEvents env req st)) ->
  fst (Server.batchImportEvents env req st) = st.
Proof.
  unfold Server.batchImportEvents.
  destruct (Server.precheck env req st) as [[st1 r1]|[[p org] st1]] eqn:Hpre;
    cbn [fst snd].
  - intros Herr. apply (precheck_inl_state env req st st1 r1 Hpre);
      destruct Herr as [-> | [-> | [-> | ->]]]; discriminate.
  - destruct (ingest_status env p org st1) as [H200|[H500 _]].
    + intros [E|[E|[E|E]]]; rewrite E in H200; discriminate.
    + intros [E|[E|[E|E]]]; rewrite E in H500; discriminate.
Qed.

(** With a key-only schema that accepts again what it has produced, the
    platform of a valid first batch is always detected: the platform
    rejection is then never given. *)
Lemma stable_schema_detects_platform
  {Row Tracker : Type} (env : Server.Env Row Tracker)
  (req : Http.BatchImportRequest) (st : Server.State Row) :
  Server.schema_stable env ->
  snd (Server.batchImportEvents env req st)
  <> Server.reply_error 400 "Unable to detect platform from event structure".
Proof.
  intros Hstable. unfold Server.batchImportEvents.
  destruct (Server.precheck env req st) as [[st1 r1]|[[p org] st1]] eqn:Hpre;
    cbn [fst snd].
  - intros ->.
    destruct (precheck_platform_reply env req st st1 Hpre) as (p & Hparse & Hnone).
    destruct (first_event_recognized env req p Hstable Hparse) as [e He].
    congruence.
  - destruct (ingest_status env p org st1) as [H200|[H500 _]].
    + intros E. rewrite E in H200. discriminate.
    + intros E. rewrite E in H500. discriminate.
Qed.



(** C10. A request that passes the checks and whose events all have an empty
    [created_at] is answered like a batch over quota: success,
    [importedCount] 0, [quotaExceeded: true], and the session is completed
    with the quota message when the batch is flagged [isLastBatch]; yet the
    tracker was never asked and no event was counted as skipped for quota.
    On that reply the coordinator reports the import as complete with the
    quota message and sends nothing more. *)
Theorem batch_without_timestamps
  {Row Tracker : Type} (env : Server.Env Row Tracker)
  (req : Http.BatchImportRequest) (st st1 : Server.State Row)
  (p : Server.Parsed) (organizationId : string) (tr : Tracker) :
  Server.precheck env req st = inr (p, organizationId, st1) ->
  Server.tracker_create env organizationId = inr tr ->
  Forall (fun e => created_at e = "") (Server.events p) ->
  let msg := Server.quotaMessage (length (Server.events p))
                                 (Server.getSummary env tr) in
  let r := snd (Server.batchImportEvents env req st) in
  Server.partition_quota env tr (Server.events p) [] 0 = ([], 0, tr)
  /\ r = Server.reply_send
           (Http.mkBody (Some true) (Some 0) (Some true) (Some msg) None)
  /\ (Server.isLastBatch p = Some true ->
      exists s',
        Server.imports (fst (Server.batchImportEvents env req st))
        !! Server.importId p = Some s'
        /\ Server.status s' = Server.completed
        /\ Server.errorMessage s' = Some msg)
  /\ forall (w : Manager.World) (i : nat) (pending : Http.BatchImportRequest),
       Manager.inflight w !! i = Some pending ->
       let w' := Manager.deliver w (Manager.Settle i (Http.of_response r)) in
       (Manager.onComplete (Manager.mgr w) = true ->
        Manager.completions w' = Manager.completions w ++ [(true, msg)])
       /\ forall evs,
            Manager.sent (Manager.run w' evs) = Manager.sent w
            /\ forall ev, Manager.is_parser_event ev = true ->
                          Manager.deliver (Manager.run w' evs) ev
                          = Manager.run w' evs.
Proof.
  intros Hpre Htr Hall msg r.
  pose proof (partition_quota_no_created_at env (Server.events p) tr [] 0 Hall)
    as Hpart.
  destruct (nothing_within_quota env req st st1 p organizationId tr tr 0
              Hpre Htr Hpart) as (Hr & _ & Hlast).
  split; [exact Hpart|]. split; [exact Hr|]. split; [exact Hlast|].
  intros w i pending Hi w'. subst w' r. rewrite Hr.
  destruct (settle_quota_reply w i pending 200
              (Http.mkBody (Some true) (Some 0) (Some true) (Some msg) None)
              Hi eq_refl eq_refl) as (Hdone & Hstop).
  split; [|exact Hstop].
  intros Hcb. specialize (Hdone Hcb).
  cbn [Http.message] in Hdone. unfold Js.or_string in Hdone.
  subst msg. rewrite quotaMessage_truthy in Hdone. exact Hdone.
Qed.

Lemma batch_without_timestamps_witness :
  snd (Server.batchImportEvents (Sample.env false)
         (Sample.request [Sample.event ""] true)
         (Sample.store Server.pending))
  = Server.reply_send
      (Http.mkBody (Some true) (Some 0) (Some true)
         (Some (Server.quotaMessage 1 (QuotaTracker.getSummary Sample.window)))
         None).
Proof.
  refine (proj1 (proj2
            (batch_without_timestamps (Sample.env false)
               (Sample.request [Sample.event ""] true)
               (Sample.store Server.pending)
               (Server.checked_state
                  (Server.mkParsed "1" Sample.importId [Sample.event ""]
                     (Some true))
                  (Sample.session Server.pending)
                  (Sample.store Server.pending))
               (Server.mkParsed "1" Sample.importId [Sample.event ""] (Some true))
               "org" Sample.window _ _ _))).
  - vm_compute. reflexivity.
  - reflexivity.
  - repeat constructor.
Defined.

(** ** The worker parser: the chunks it posts *)

Section WorkerChunks.

Import Worker.

(** An accepted row that does not fill the batch is appended and
    counted. *)
Lemma worker_step_below (w : t) (row : Js.RawRecord) :
  Manager.accepted (range w) row = true ->
  Z.of_nat (length (currentBatch w)) + 1 < BATCH_SIZE ->
  deliver w (Step (Some row) false)
  = mk (currentBatch w ++ [toUmamiEvent row]) (totalParsed w + 1)
       (totalSkipped w) (totalErrors w) (range w) (posted w).
Proof.
  intros Hacc Hlen. apply accepted_inv in Hacc as [Ht Hr].
  cbn [deliver]. unfold handleParsedRow. rewrite Ht, Hr. cbn [negb].
  cbn [currentBatch]. rewrite length_app. cbn [length].
  destruct (Z.leb_spec BATCH_SIZE (Z.of_nat (length (currentBatch w) + 1)));
    [lia|reflexivity].
Qed.

(** An accepted row that fills the batch posts it as a chunk. *)
Lemma worker_step_full (w : t) (row : Js.RawRecord) :
  Manager.accepted (range w) row = true ->
  BATCH_SIZE <= Z.of_nat (length (currentBatch w)) + 1 ->
  deliver w (Step (Some row) false)
  = mk [] (totalParsed w + 1) (totalSkipped w) (totalErrors w) (range w)
       (posted w ++ [CHUNK_READY (currentBatch w ++ [toUmamiEvent row])
                       (totalParsed w + 1) (totalSkipped w) (totalErrors w)]).
Proof.
  intros Hacc Hlen. apply accepted_inv in Hacc as [Ht Hr].
  cbn [deliver]. unfold handleParsedRow. rewrite Ht, Hr. cbn [negb].
  cbn [currentBatch]. rewrite length_app. cbn [length].
  destruct (Z.leb_spec BATCH_SIZE (Z.of_nat (length (currentBatch w) + 1)));
    [|lia].
  unfold sendChunk. cbn [currentBatch]. rewrite length_app. cbn [length].
  destruct (Z.ltb_spec 0 (Z.of_nat (length (currentBatch w) + 1))); [|lia].
  reflexivity.
Qed.

Lemma worker_run_app (w : t) (evs1 evs2 : list Event) :
  run w (evs1 ++ evs2) = run (run w evs1) evs2.
Proof. unfold run. apply foldl_app. Qed.

(** Rows that do not fill the batch only grow it. *)
Lemma worker_feed_below (rows : list Js.RawRecord) : forall w : t,
  Forall (fun row => Manager.accepted (range w) row = true) rows ->
  Z.of_nat (length (currentBatch w)) + Z.of_nat (length rows) < BATCH_SIZE ->
  run w (map (fun row => Step (Some row) false) rows)
  = mk (currentBatch w ++ map toUmamiEvent rows)
       (totalParsed w + Z.of_nat (length rows))
       (totalSkipped w) (totalErrors w) (range w) (posted w).
Proof.
  induction rows as [|row rows IH]; intros w Hall Hlen.
  - cbn [map run foldl length]. rewrite app_nil_r, Z.add_0_r.
    destruct w; reflexivity.
  - apply Forall_cons in Hall as [Hrow Hall]. cbn [length] in Hlen.
    cbn [map run foldl].
    fold (run (deliver w (Step (Some row) false))
              (map (fun row => Step (Some row) false) rows)).
    rewrite worker_step_below by (auto; lia).
    rewrite IH; cbn [currentBatch totalParsed totalSkipped totalErrors
                     range posted].
    + rewrite <- app_assoc. cbn [length app]. f_equal. lia.
    + exact Hall.
    + rewrite length_app. cbn [length]. lia.
Qed.

(** Rows that fill the batch exactly post it as one chunk. *)
Lemma worker_feed_fill (rows : list Js.RawRecord) (w : t) :
  Forall (fun row => Manager.accepted (range w) row = true) rows ->
  rows <> [] ->
  Z.of_nat (length (currentBatch w)) + Z.of_nat (length rows) = BATCH_SIZE ->
  run w (map (fun row => Step (Some row) false) rows)
  = mk [] (totalParsed w + Z.of_nat (length rows)) (totalSkipped w)
       (totalErrors w) (range w)
       (posted w ++ [CHUNK_READY (currentBatch w ++ map toUmamiEvent rows)
                       (totalParsed w + Z.of_nat (length rows))
                       (totalSkipped w) (totalErrors w)]).
Proof.
  intros Hall Hne Hlen.
  destruct (exists_last Hne) as (init & last & ->).
  apply Forall_app in Hall as [Hinit Hlast].
  apply Forall_cons in Hlast as [Hlast _].
  rewrite length_app in Hlen. cbn [length] in Hlen.
  rewrite map_app, worker_run_app. cbn [map].
  rewrite worker_feed_below by (auto; lia).
  cbn [run foldl].
  rewrite worker_step_full;
    cbn [currentBatch totalParsed totalSkipped totalErrors range posted].
  - rewrite map_app, app_assoc, length_app. cbn [map length].
    replace (totalParsed w + Z.of_nat (length init) + 1)
      with (totalParsed w + Z.of_nat (length init + 1)) by lia.
    reflexivity.
  - exact Hlast.
  - rewrite length_app, length_map. lia.
Qed.

(** 12001 accepted rows: the worker posts chunks of 5000, 5000 and 2001
    events and then [COMPLETE]; its messages carry no last-batch flag. *)
Lemma worker_chunks_of_12001_rows (f : DateRange) (rows : list Js.RawRecord) :
  Z.of_nat (length rows) = 12001 ->
  Forall (fun row => Manager.accepted f row = true) rows ->
  exists r1 r2 r3,
    rows = r1 ++ r2 ++ r3
    /\ Z.of_nat (length r1) = 5000 /\ Z.of_nat (length r2) = 5000
    /\ Z.of_nat (length r3) = 2001
    /\ posted (run (mk [] 0 0 0 f [])
                 (map (fun row => Step (Some row) false) rows ++ [Complete]))
       = [ CHUNK_READY (map toUmamiEvent r1) 5000 0 0;
           CHUNK_READY (map toUmamiEvent r2) 10000 0 0;
           CHUNK_READY (map toUmamiEvent r3) 12001 0 0;
           COMPLETE 12001 0 0 ].
Proof.
  intros Hlen Hall.
  set (n := Z.to_nat 5000).
  exists (take n rows), (take n (drop n rows)), (drop n (drop n rows)).
  assert (Hrows : rows = take n rows ++ take n (drop n rows) ++ drop n (drop n rows)).
  { rewrite !take_drop. reflexivity. }
  assert (Hl1 : Z.of_nat (length (take n rows)) = 5000).
  { rewrite length_take. subst n. lia. }
  assert (Hl2 : Z.of_nat (length (take n (drop n rows))) = 5000).
  { rewrite length_take, length_drop. subst n. lia. }
  assert (Hl3 : Z.of_nat (length (drop n (drop n rows))) = 2001).
  { rewrite !length_drop. subst n. lia. }
  split; [exact Hrows|]. do 3 (split; [assumption|]).
  rewrite Hrows in Hall.
  apply Forall_app in Hall as [Hall1 Hall].
  apply Forall_app in Hall as [Hall2 Hall3].
  set (r1 := take n rows) in *. set (r2 := take n (drop n rows)) in *.
  set (r3 := drop n (drop n rows)) in *.
  rewrite Hrows at 1. rewrite !map_app, !worker_run_app.
  assert (Hne1 : r1 <> []) by (intros E; rewrite E in Hl1; cbn [length] in Hl1; lia).
  assert (Hne2 : r2 <> []) by (intros E; rewrite E in Hl2; cbn [length] in Hl2; lia).
  rewrite (worker_feed_fill r1 (mk [] 0 0 0 f []) Hall1 Hne1)
    by (cbn [currentBatch length]; unfold BATCH_SIZE; lia).
  cbn [currentBatch totalParsed totalSkipped totalErrors range posted app].
  match goal with
  | |- context [run ?wA (map _ r2)] => set (w1 := wA)
  end.
  rewrite (worker_feed_fill r2 w1 Hall2 Hne2)
    by (subst w1; cbn [currentBatch length]; unfold BATCH_SIZE; lia).
  subst w1.
  cbn [currentBatch totalParsed totalSkipped totalErrors range posted app].
  match goal with
  | |- context [run ?wB (map _ r3)] => set (w2 := wB)
  end.
  rewrite (worker_feed_below r3 w2 Hall3)
    by (subst w2; cbn [currentBatch length]; unfold BATCH_SIZE; lia).
  subst w2.
  cbn [currentBatch totalParsed totalSkipped totalErrors range posted app
       run foldl deliver].
  unfold sendChunk. cbn [currentBatch]. rewrite length_map.
  destruct (Z.ltb_spec 0 (Z.of_nat (length r3))); [|lia].
  cbn [currentBatch totalParsed totalSkipped totalErrors range posted app].
  rewrite Hl1, Hl2, Hl3. reflexivity.
Qed.

(** A file without data rows: the worker posts no chunk at all, only
    [COMPLETE]. *)
Lemma worker_empty_file (f : DateRange) :
  posted (run (mk [] 0 0 0 f []) [Complete]) = [COMPLETE 0 0 0].
Proof. reflexivity. Qed.

End WorkerChunks.

(** * Further properties of the pipeline *)

(** ** The date filter as a window of time *)

Lemma fromFormat_date_midnight (s : string) (ms : Z) :
  Luxon.fromFormat_date s = Luxon.Valid ms ->
  exists d, ms = d * Luxon.msPerDay.
Proof.
  unfold Luxon.fromFormat_date.
  destruct (Luxon.digits 4 0 s) as [[y s1]|]; cbn [mbind option_bind]; [|discriminate].
  destruct (Luxon.lit "-" s1) as [s2|]; cbn [mbind option_bind]; [|discriminate].
  destruct (Luxon.digits 2 0 s2) as [[m s3]|]; cbn [mbind option_bind]; [|discriminate].
  destruct (Luxon.lit "-" s3) as [s4|]; cbn [mbind option_bind]; [|discriminate].
  destruct (Luxon.digits 2 0 s4) as [[d s5]|]; cbn [mbind option_bind]; [|discriminate].
  destruct (_ && _); [|discriminate].
  intros [= <-]. exists (Luxon.days_from_civil y m d). unfold Luxon.utc. lia.
Qed.

Lemma createDateRangeFilter_inr (earliestStr latestStr : string) (f : DateRange) :
  createDateRangeFilter earliestStr latestStr = inr f ->
  exists E L,
    Luxon.fromFormat_date earliestStr = Luxon.Valid E
    /\ Luxon.fromFormat_date latestStr = Luxon.Valid L
    /\ f = mkDateRange (Some (Luxon.Valid E))
                       (Some (Luxon.Valid (L + Luxon.msPerDay - 1))).
Proof.
  unfold createDateRangeFilter.
  destruct (Luxon.fromFormat_date earliestStr) as [|E] eqn:HE; [discriminate|].
  destruct (Luxon.fromFormat_date latestStr) as [|L] eqn:HL; [discriminate|].
  cbn [Luxon.startOf_day Luxon.endOf_day Luxon.isValid negb].
  intros [= <-]. exists E, L. split; [reflexivity|]. split; [reflexivity|].
  destruct (fromFormat_date_midnight _ _ HE) as (dE & ->).
  destruct (fromFormat_date_midnight _ _ HL) as (dL & ->).
  rewrite !Z.div_mul by (unfold Luxon.msPerDay; lia). reflexivity.
Qed.

(** Between two valid ends, the filter accepts the timestamps that parse and
    lie between them, the ends included. *)
Lemma isDateInRange_between (a b : Z) (dateStr : string) :
  isDateInRange (mkDateRange (Some (Luxon.Valid a)) (Some (Luxon.Valid b)))
                dateStr = true
  <-> exists ms, Luxon.fromFormat_datetime dateStr = Luxon.Valid ms
                 /\ a <= ms <= b.
Proof.
  unfold isDateInRange. cbn [earliestAllowedDate latestAllowedDate].
  destruct (Luxon.fromFormat_datetime dateStr) as [|ms];
    cbn [Luxon.isValid negb Luxon.lt].
  - split; [discriminate|]. intros (ms & Hms & _). discriminate.
  - destruct (Z.ltb_spec ms a); destruct (Z.ltb_spec b ms);
      split; try discriminate; try (intros (ms' & [= <-] & ?); lia);
      intros _; exists ms; split; [reflexivity|lia].
Qed.

(** X1. With valid bounds, the date filter accepts exactly the timestamps
    that parse as "yyyy-MM-dd HH:mm:ss" and lie between midnight of the
    earliest day and the last millisecond of the latest day, both included:
    E <= t < L + one day, where E and L are the midnights of the two bounds.
    A timestamp that does not parse is rejected. *)
Theorem filter_window (earliestStr latestStr dateStr : string) (f : DateRange)
  (E L : Z) :
  createDateRangeFilter earliestStr latestStr = inr f ->
  Luxon.fromFormat_date earliestStr = Luxon.Valid E ->
  Luxon.fromFormat_date latestStr = Luxon.Valid L ->
  isDateInRange f dateStr = true
  <-> exists ms, Luxon.fromFormat_datetime dateStr = Luxon.Valid ms
                 /\ E <= ms < L + Luxon.msPerDay.
Proof.
  intros Hf HE HL.
  destruct (createDateRangeFilter_inr _ _ _ Hf) as (E' & L' & HE' & HL' & ->).
  assert (E' = E) as -> by congruence. assert (L' = L) as -> by congruence.
  rewrite isDateInRange_between.
  split; intros (ms & Hms & Hin); exists ms; (split; [exact Hms|lia]).
Qed.

Lemma filter_window_witness :
  isDateInRange
    (mkDateRange (Some (Luxon.Valid 1704067200000))
                 (Some (Luxon.Valid 1706745599999)))
    "2024-01-15 12:30:00" = true.
Proof.
  apply (filter_window "2024-01-01" "2024-01-31" "2024-01-15 12:30:00" _
           1704067200000 1706659200000).
  - vm_compute. reflexivity.
  - vm_compute. reflexivity.
  - vm_compute. reflexivity.
  - exists 1705321800000. split; [vm_compute; reflexivity|].
    unfold Luxon.msPerDay. lia.
Defined.

(** Two valid bounds always give a filter, whatever their order. *)
Lemma createDateRangeFilter_valid (earliestStr latestStr : string) (E L : Z) :
  Luxon.fromFormat_date earliestStr = Luxon.Valid E ->
  Luxon.fromFormat_date latestStr = Luxon.Valid L ->
  createDateRangeFilter earliestStr latestStr
  = inr (mkDateRange (Some (Luxon.Valid E))
                     (Some (Luxon.Valid (L + Luxon.msPerDay - 1)))).
Proof.
  intros HE HL.
  destruct (createDateRangeFilter earliestStr latestStr) as [msg|f] eqn:Hf.
  - exfalso. unfold createDateRangeFilter in Hf. rewrite HE, HL in Hf.
    cbn [Luxon.isValid negb] in Hf. discriminate Hf.
  - destruct (createDateRangeFilter_inr _ _ _ Hf) as (E' & L' & HE' & HL' & ->).
    congruence.
Qed.

(** ** The mapper and the record sent *)

(** X3. An event survives the way to the server unchanged: reading the
    record that carries an event's twenty fields under their column names
    gives the event back. *)
Theorem mapper_round_trip (e : UmamiEvent) : toUmamiEvent (to_record e) = e.
Proof.
  destruct e. unfold toUmamiEvent.
  rewrite !String_or_empty_default. vm_compute. reflexivity.
Qed.



(** ** Every request is well formed *)

Section ManagerInvariant.

Import Manager.

Variable f : DateRange.

Lemma invariant_report (ok : bool) (msg : string) (w : World) :
  batching_invariant f w -> batching_invariant f (report ok msg w).
Proof. unfold report. destruct (onComplete (mgr w)); auto. Qed.

Lemma invariant_checkCompletion (w : World) :
  batching_invariant f w -> batching_invariant f (checkCompletion w).
Proof.
  unfold checkCompletion. destruct (_ && _); [apply invariant_report|auto].
Qed.

Lemma invariant_flags (g : t -> t) (w : World) :
  (forall m, range (g m) = range m) ->
  (forall m, currentBatch (g m) = currentBatch m) ->
  batching_invariant f w -> batching_invariant f (with_mgr g w).
Proof.
  intros Hr Hc (H1 & H2 & H3 & H4 & H5).
  unfold batching_invariant. cbn [with_mgr mgr sent inflight].
  rewrite Hr, Hc. auto.
Qed.

Lemma invariant_uploadBatch (evs : list UmamiEvent) (b : bool) (w : World) :
  batching_invariant f w ->
  Forall (kept f) evs ->
  (if b then Z.of_nat (length evs) < BATCH_SIZE
   else Z.of_nat (length evs) = BATCH_SIZE) ->
  batching_invariant f (uploadBatch evs b w).
Proof.
  intros Hinv Hevs Hlen. unfold uploadBatch.
  destruct (quotaExceeded (mgr w)); [exact Hinv|].
  destruct (_ && _); [exact Hinv|].
  destruct Hinv as (H1 & H2 & H3 & H4 & H5).
  unfold fetch, batching_invariant.
  cbn [with_mgr mgr sent inflight set_uploadInProgress range currentBatch siteId importId].
  repeat split; try assumption.
  - apply Forall_app. split; [assumption|]. constructor; [|constructor].
    exists evs. cbn. split; [reflexivity|]. split; [assumption|].
    destruct b; [right|left]; auto.
  - intros r Hr. apply elem_of_app in Hr as [Hr|Hr]; apply elem_of_app; auto.
Qed.

Lemma invariant_sendBatch_last (w : World) :
  batching_invariant f w -> batching_invariant f (sendBatch true w).
Proof.
  intros Hinv. unfold sendBatch.
  destruct (Z.ltb_spec 0 (Z.of_nat (length (currentBatch (mgr w))))).
  - pose proof Hinv as (H1 & H2 & H3 & H4 & H5).
    apply invariant_uploadBatch; [|exact H3|exact H2].
    unfold batching_invariant.
    cbn [with_mgr mgr sent inflight set_currentBatch range currentBatch length].
    unfold BATCH_SIZE. repeat split; try assumption; try lia. constructor.
  - apply invariant_uploadBatch; [exact Hinv|constructor|].
    cbn [length]. unfold BATCH_SIZE. lia.
Qed.

Lemma invariant_sendBatch_full (w : World) :
  range (mgr w) = f ->
  Z.of_nat (length (currentBatch (mgr w))) = BATCH_SIZE ->
  Forall (kept f) (currentBatch (mgr w)) ->
  Forall (request_ok f) (sent w) ->
  inflight w ⊆ sent w ->
  batching_invariant f (sendBatch false w).
Proof.
  intros H1 H2 H3 H4 H5. unfold sendBatch.
  destruct (Z.ltb_spec 0 (Z.of_nat (length (currentBatch (mgr w)))));
    [|unfold BATCH_SIZE in H2; lia].
  apply invariant_uploadBatch; [|exact H3|exact H2].
  unfold batching_invariant.
  cbn [with_mgr mgr sent inflight set_currentBatch range currentBatch length].
  unfold BATCH_SIZE. repeat split; try assumption; try lia. constructor.
Qed.

Lemma invariant_catch (t0 : Http.Thrown) (w : World) :
  batching_invariant f w -> batching_invariant f (uploadBatch_catch t0 w).
Proof.
  intros Hinv. unfold uploadBatch_catch, terminate.
  apply invariant_flags; [reflexivity|reflexivity|].
  apply invariant_flags; [reflexivity|reflexivity|].
  apply invariant_report. exact Hinv.
Qed.

Lemma invariant_resume (o : Http.FetchOutcome) (w : World) :
  batching_invariant f w -> batching_invariant f (uploadBatch_resume o w).
Proof.
  intros Hinv. unfold uploadBatch_resume.
  destruct o as [t0|status [t0|data]]; [apply invariant_catch; exact Hinv| |].
  - destruct (negb (Js.status_ok status)); apply invariant_catch; exact Hinv.
  - destruct (negb (Js.status_ok status)); [apply invariant_catch; exact Hinv|].
    destruct (default false (Http.quotaExceeded data)).
    + apply invariant_flags; [reflexivity|reflexivity|].
      apply invariant_report.
      apply invariant_flags; [reflexivity|reflexivity|].
      apply invariant_flags; [reflexivity|reflexivity|]. exact Hinv.
    + apply invariant_checkCompletion.
      apply invariant_flags; [reflexivity|reflexivity|]. exact Hinv.
Qed.

Lemma invariant_deliver (w : World) (ev : Event) :
  batching_invariant f w -> batching_invariant f (deliver w ev).
Proof.
  intros Hinv. destruct ev as [row| |msg|i o]; cbn [deliver].
  - destruct (negb (parsing w)); [exact Hinv|].
    destruct (_ || _); [exact Hinv|].
    unfold handleParsedRow.
    destruct (Js.truthy (Some (created_at (toUmamiEvent row)))) eqn:Ht;
      cbn [negb]; [|exact Hinv].
    destruct (isDateInRange (range (mgr w)) (created_at (toUmamiEvent row))) eqn:Hr;
      cbn [negb]; [|exact Hinv].
    cbv zeta. cbn [with_mgr mgr set_currentBatch currentBatch].
    destruct Hinv as (H1 & H2 & H3 & H4 & H5).
    assert (Hkept : Forall (kept f) (currentBatch (mgr w) ++ [toUmamiEvent row])).
    { apply Forall_app. split; [exact H3|]. constructor; [|constructor].
      split; [apply truthy_Some_nonempty; exact Ht|rewrite <- H1; exact Hr]. }
    rewrite length_app. cbn [length].
    destruct (Z.leb_spec BATCH_SIZE (Z.of_nat (length (currentBatch (mgr w)) + 1))).
    + apply invariant_sendBatch_full;
        cbn [with_mgr mgr set_currentBatch currentBatch range sent inflight];
        try assumption.
      rewrite length_app. cbn [length]. lia.
    + unfold batching_invariant.
      cbn [with_mgr mgr set_currentBatch currentBatch range sent inflight].
      rewrite length_app. cbn [length]. repeat split; try assumption; lia.
  - destruct (negb (parsing w)); [exact Hinv|].
    destruct (aborted (mgr w)); [exact Hinv|].
    unfold handleParseComplete. cbv zeta.
    assert (H' : batching_invariant f
                   (sendBatch true (with_mgr (set_parsingComplete true) w))).
    { apply invariant_sendBatch_last.
      apply invariant_flags; [reflexivity|reflexivity|exact Hinv]. }
    destruct (negb _); [apply invariant_checkCompletion|]; exact H'.
  - destruct (negb (parsing w)); [exact Hinv|].
    destruct (aborted (mgr w)); [exact Hinv|].
    apply invariant_report. exact Hinv.
  - destruct (inflight w !! i) as [r|] eqn:Hi; [|exact Hinv].
    apply invariant_resume.
    destruct Hinv as (H1 & H2 & H3 & H4 & H5).
    unfold batching_invariant. cbn [mgr sent inflight].
    repeat split; try assumption.
    intros r' Hr'. apply H5. eapply list_elem_of_delete_inv. exact Hr'.
Qed.

Lemma invariant_run (evs : list Event) : forall w : World,
  batching_invariant f w -> batching_invariant f (run w evs).
Proof.
  induction evs as [|ev evs IH]; intros w Hinv; [exact Hinv|].
  cbn [run foldl]. apply IH. apply invariant_deliver. exact Hinv.
Qed.

End ManagerInvariant.

Lemma invariant_startImport (hasCallback : bool) (site : Z)
  (import earliestStr latestStr : string) (f : DateRange) :
  createDateRangeFilter earliestStr latestStr = inr f ->
  batching_invariant f
    (Manager.startImport hasCallback site import earliestStr latestStr).
Proof.
  intros Hf. rewrite (startImport_valid _ _ _ _ _ f Hf).
  unfold batching_invariant. cbn. unfold Manager.BATCH_SIZE.
  repeat split; try constructor; try lia. intros r Hr. exact Hr.
Qed.

(** X5. Whatever happens in whatever order (rows, end of file, parse
    errors, uploads settling in any way), every request the coordinator
    sends either is not flagged last and carries exactly 5000 events, or is
    flagged last and carries fewer than 5000. *)
Theorem requests_are_bounded
  (hasCallback : bool) (site : Z) (import earliestStr latestStr : string)
  (f : DateRange) (evs : list Manager.Event) (r : Http.BatchImportRequest) :
  createDateRangeFilter earliestStr latestStr = inr f ->
  r ∈ Manager.sent
        (Manager.run
           (Manager.startImport hasCallback site import earliestStr latestStr)
           evs) ->
  (Http.body_isLastBatch r = Some false
   /\ Z.of_nat (length (Http.body_events r)) = 5000)
  \/ (Http.body_isLastBatch r = Some true
      /\ Z.of_nat (length (Http.body_events r)) < 5000).
Proof.
  intros Hf Hr.
  pose proof (invariant_run f evs _ (invariant_startImport hasCallback site import
                                       earliestStr latestStr f Hf))
    as (_ & _ & _ & Hsent & _).
  rewrite Forall_forall in Hsent.
  destruct (Hsent r Hr) as (es & -> & _ & Hshape).
  rewrite length_map. exact Hshape.
Qed.

(** X6. Whatever happens in whatever order, every record in every request
    comes from an event with a non-empty [created_at] that lies in the
    allowed range. *)
Theorem only_accepted_events_are_sent
  (hasCallback : bool) (site : Z) (import earliestStr latestStr : string)
  (f : DateRange) (evs : list Manager.Event) (r : Http.BatchImportRequest)
  (record : Js.RawRecord) :
  createDateRangeFilter earliestStr latestStr = inr f ->
  r ∈ Manager.sent
        (Manager.run
           (Manager.startImport hasCallback site import earliestStr latestStr)
           evs) ->
  record ∈ Http.body_events r ->
  exists e, record = to_record e
            /\ created_at e <> ""
            /\ isDateInRange f (created_at e) = true.
Proof.
  intros Hf Hr Hrec.
  pose proof (invariant_run f evs _ (invariant_startImport hasCallback site import
                                       earliestStr latestStr f Hf))
    as (_ & _ & _ & Hsent & _).
  rewrite Forall_forall in Hsent.
  destruct (Hsent r Hr) as (es & Hes & Hkept & _).
  rewrite Hes in Hrec. apply list_elem_of_fmap in Hrec as (e & -> & He).
  rewrite Forall_forall in Hkept. destruct (Hkept e He) as [H1 H2].
  exists e. auto.
Qed.

(** X2. When the latest allowed day lies before the earliest one, both being
    valid dates, the filter is built without complaint, it rejects every
    timestamp, and the coordinator sends no event of the file: every
    request it sends, whatever happens, is empty. *)
Theorem inverted_range_rejects_all (earliestStr latestStr : string) (E L : Z) :
  Luxon.fromFormat_date earliestStr = Luxon.Valid E ->
  Luxon.fromFormat_date latestStr = Luxon.Valid L ->
  L < E ->
  exists f,
    createDateRangeFilter earliestStr latestStr = inr f
    /\ (forall dateStr, isDateInRange f dateStr = false)
    /\ (forall (hasCallback : bool) (site : Z) (import : string)
               (evs : list Manager.Event) (r : Http.BatchImportRequest),
          r ∈ Manager.sent
                (Manager.run
                   (Manager.startImport hasCallback site import earliestStr
                      latestStr) evs) ->
          Http.body_events r = []).
Proof.
  intros HE HL Hlt.
  pose proof (createDateRangeFilter_valid _ _ _ _ HE HL) as Hf.
  eexists. split; [exact Hf|].
  assert (Hnone : forall dateStr,
             isDateInRange
               (mkDateRange (Some (Luxon.Valid E))
                            (Some (Luxon.Valid (L + Luxon.msPerDay - 1))))
               dateStr = false).
  { intros dateStr.
    destruct (isDateInRange _ dateStr) eqn:Hin; [|reflexivity].
    apply isDateInRange_between in Hin as (ms & _ & Hms).
    destruct (fromFormat_date_midnight _ _ HE) as (dE & ->).
    destruct (fromFormat_date_midnight _ _ HL) as (dL & ->).
    unfold Luxon.msPerDay in *. lia. }
  split; [exact Hnone|].
  intros hasCallback site import evs r Hr.
  pose proof (invariant_run _ evs _
                (invariant_startImport hasCallback site import earliestStr
                   latestStr _ Hf))
    as (_ & _ & _ & Hsent & _).
  rewrite Forall_forall in Hsent.
  destruct (Hsent r Hr) as (es & -> & Hkept & _).
  destruct es as [|e es]; [reflexivity|].
  apply Forall_cons in Hkept as [[_ Hin] _].
  rewrite Hnone in Hin. discriminate Hin.
Qed.

Lemma inverted_range_rejects_all_witness :
  exists f,
    createDateRangeFilter "2024-01-31" "2024-01-01" = inr f
    /\ (forall dateStr, isDateInRange f dateStr = false)
    /\ (forall (hasCallback : bool) (site : Z) (import : string)
               (evs : list Manager.Event) (r : Http.BatchImportRequest),
          r ∈ Manager.sent
                (Manager.run
                   (Manager.startImport hasCallback site import "2024-01-31"
                      "2024-01-01") evs) ->
          Http.body_events r = []).
Proof.
  apply (inverted_range_rejects_all "2024-01-31" "2024-01-01"
           1706659200000 1704067200000).
  - vm_compute. reflexivity.
  - vm_compute. reflexivity.
  - lia.
Defined.

(** ** The requests carry the accepted rows *)

Section ManagerFlow.

Import Manager.

(** A row the filter rejects changes nothing. *)
Lemma deliver_step_rejected (w : World) (row : Js.RawRecord) :
  accepted (range (mgr w)) row = false -> deliver w (Step row) = w.
Proof.
  intros Hacc. cbn [deliver]. unfold handleParsedRow, accepted in *.
  destruct (negb (parsing w)); [reflexivity|].
  destruct (_ || _); [reflexivity|].
  destruct (Js.truthy _); cbn [negb andb] in *; [|reflexivity].
  rewrite Hacc. reflexivity.
Qed.

Lemma ready_step (w : World) (row : Js.RawRecord) :
  ready w ->
  ready (deliver w (Step row))
  /\ range (mgr (deliver w (Step row))) = range (mgr w)
  /\ handed_over (deliver w (Step row))
     = handed_over w
       ++ (if accepted (range (mgr w)) row
           then [to_record (toUmamiEvent row)] else []).
Proof.
  intros Hready. pose proof Hready as (Hp & Ha & Hq).
  destruct (accepted (range (mgr w)) row) eqn:Hacc.
  - destruct (Z.leb_spec BATCH_SIZE
                (Z.of_nat (length (currentBatch (mgr w))) + 1)).
    + rewrite deliver_step_full by assumption.
      unfold ready, handed_over. fields.
      repeat split; try assumption.
      rewrite ?map_app, ?concat_app. cbn [map concat Http.body_events].
      rewrite ?map_app, ?app_nil_r, <- ?app_assoc. reflexivity.
    + rewrite deliver_step_below by assumption.
      unfold ready, handed_over. fields.
      repeat split; try assumption.
      rewrite ?map_app, <- ?app_assoc. reflexivity.
  - rewrite deliver_step_rejected by assumption.
    rewrite app_nil_r. auto.
Qed.

Lemma ready_steps (rows : list Js.RawRecord) : forall w : World,
  ready w ->
  ready (run w (map Step rows))
  /\ range (mgr (run w (map Step rows))) = range (mgr w)
  /\ handed_over (run w (map Step rows))
     = handed_over w
       ++ map (fun row => to_record (toUmamiEvent row))
              (filter (fun row => accepted (range (mgr w)) row = true) rows).
Proof.
  induction rows as [|row rows IH]; intros w Hready.
  - cbn [map run foldl filter]. rewrite app_nil_r. auto.
  - cbn [map run foldl]. fold (run (deliver w (Step row)) (map Step rows)).
    destruct (ready_step w row Hready) as (Hready' & Hrange & Hflat).
    destruct (IH _ Hready') as (Hready'' & Hrange' & Hflat').
    split; [exact Hready''|]. split; [congruence|].
    rewrite Hflat', Hflat, Hrange.
    destruct (accepted (range (mgr w)) row) eqn:Hacc.
    + rewrite filter_cons_True by exact Hacc.
      cbn [map]. rewrite <- app_assoc. reflexivity.
    + rewrite filter_cons_False by congruence.
      rewrite app_nil_r. reflexivity.
Qed.

End ManagerFlow.

(** X7. When the file is parsed to its end and no upload fails or hits the
    quota, the events of the requests, read in the order the requests were
    sent, are the accepted rows of the file in the file's order: none lost,
    none twice, none reordered; whenever the uploads settle. *)
Theorem sent_events_are_the_accepted_rows
  (hasCallback : bool) (site : Z) (import earliestStr latestStr : string)
  (f : DateRange) (rows : list Js.RawRecord) (evs : list Manager.Event) :
  createDateRangeFilter earliestStr latestStr = inr f ->
  Forall (fun ev => Manager.undisturbed ev = true) evs ->
  filter (fun ev => Manager.is_parser_event ev = true) evs
  = map Manager.Step rows ++ [Manager.Complete] ->
  concat (map Http.body_events
            (Manager.sent
               (Manager.run
                  (Manager.startImport hasCallback site import earliestStr
                     latestStr) evs)))
  = map (fun row => to_record (toUmamiEvent row))
        (filter (fun row => Manager.accepted f row = true) rows).
Proof.
  intros Hf Hevs Hparser.
  rewrite (startImport_valid _ _ _ _ _ f Hf).
  set (w0 := Manager.mkWorld _ _ _ _ _).
  pose proof (run_undisturbed evs w0 w0 (same_batching_refl _) Hevs)
    as (_ & _ & _ & _ & _ & _ & _ & Hsent).
  rewrite Hsent, Hparser, run_app.
  assert (Hready0 : Manager.ready w0) by (repeat split; reflexivity).
  destruct (ready_steps rows w0 Hready0) as (Hready & _ & Hflat).
  cbn [Manager.run foldl].
  rewrite deliver_complete by exact Hready.
  rewrite map_app, concat_app. cbn [map concat Http.body_events].
  rewrite app_nil_r.
  exact Hflat.
Qed.

(** ** Stopping: terminate, failed uploads, completion *)

Section ManagerStops.

Import Manager.

(** Once [aborted] is set, a parser callback returns at once. *)
Lemma aborted_parser_event (w : World) (ev : Event) :
  aborted (mgr w) = true -> is_parser_event ev = true -> deliver w ev = w.
Proof.
  intros Ha Hev.
  destruct ev as [row| |msg|i o]; try discriminate; cbn [deliver];
    rewrite Ha; destruct (negb (parsing w)); reflexivity.
Qed.

Lemma aborted_deliver (w : World) (ev : Event) :
  aborted (mgr w) = true ->
  aborted (mgr (deliver w ev)) = true
  /\ sent (deliver w ev) = sent w
  /\ currentBatch (mgr (deliver w ev)) = currentBatch (mgr w).
Proof.
  intros Ha.
  destruct (is_parser_event ev) eqn:Hev.
  { rewrite aborted_parser_event by assumption. auto. }
  destruct ev as [row| |msg|i o]; try discriminate. cbn [deliver].
  destruct (inflight w !! i); [|auto].
  set (w0 := mkWorld (mgr w) (delete i (inflight w)) (sent w)
                     (completions w) (parsing w)).
  change (sent w) with (sent w0).
  change (currentBatch (mgr w)) with (currentBatch (mgr w0)).
  assert (Ha0 : aborted (mgr w0) = true) by exact Ha.
  clearbody w0.
  assert (Hcatch : forall t0,
             aborted (mgr (uploadBatch_catch t0 w0)) = true
             /\ sent (uploadBatch_catch t0 w0) = sent w0
             /\ currentBatch (mgr (uploadBatch_catch t0 w0)) = currentBatch (mgr w0)).
  { intros t0. unfold uploadBatch_catch, terminate, report.
    destruct (onComplete (mgr w0)); fields; auto. }
  unfold uploadBatch_resume.
  destruct o as [t0|status [t0|data]]; [apply Hcatch| |].
  - destruct (negb (Js.status_ok status)); apply Hcatch.
  - destruct (negb (Js.status_ok status)); [apply Hcatch|].
    destruct (default false (Http.quotaExceeded data)).
    + unfold report. fields. destruct (onComplete (mgr w0)); fields; auto.
    + unfold checkCompletion, report. fields.
      destruct (_ && _); [destruct (onComplete (mgr w0))|]; fields; auto.
Qed.

Lemma aborted_run (evs : list Event) : forall w : World,
  aborted (mgr w) = true ->
  aborted (mgr (run w evs)) = true
  /\ sent (run w evs) = sent w
  /\ currentBatch (mgr (run w evs)) = currentBatch (mgr w).
Proof.
  induction evs as [|ev evs IH]; intros w Ha; [auto|].
  cbn [run foldl]. fold (run (deliver w ev) evs).
  destruct (aborted_deliver w ev Ha) as (Ha' & Hs & Hc).
  destruct (IH _ Ha') as (Ha'' & Hs' & Hc').
  repeat split; congruence.
Qed.

End ManagerStops.

(** X8. [terminate] only raises the flag: the uploads pending at that
    moment stay pending, and afterwards no request is sent and no row is
    added to the batch, whatever arrives. *)
Theorem terminate_stops_sending (w : Manager.World) (evs : list Manager.Event) :
  Manager.inflight (Manager.terminate w) = Manager.inflight w
  /\ Manager.sent (Manager.run (Manager.terminate w) evs) = Manager.sent w
  /\ Manager.currentBatch (Manager.mgr (Manager.run (Manager.terminate w) evs))
     = Manager.currentBatch (Manager.mgr w).
Proof.
  split; [reflexivity|].
  destruct (aborted_run evs (Manager.terminate w) eq_refl) as (_ & Hs & Hc).
  split; [exact Hs|exact Hc].
Qed.

(** X9. An upload that fails (the fetch rejects, the status is not 2xx, or
    the body is not JSON) is reported as "Upload failed: ..." and is not
    retried: no request is sent after it, whatever arrives. *)
Theorem failed_upload_is_final (w : Manager.World) (i : nat)
  (pending : Http.BatchImportRequest) (o : Http.FetchOutcome)
  (evs : list Manager.Event) :
  Manager.inflight w !! i = Some pending ->
  failed_upload o = true ->
  let w' := Manager.deliver w (Manager.Settle i o) in
  (Manager.onComplete (Manager.mgr w) = true ->
   exists reason,
     Manager.completions w'
     = Manager.completions w ++ [(false, "Upload failed: " +:+ reason)])
  /\ Manager.sent (Manager.run w' evs) = Manager.sent w.
Proof.
  intros Hi Ho w'.
  assert (Hw' : exists t0,
             w' = Manager.uploadBatch_catch t0
                    (Manager.mkWorld (Manager.mgr w) (delete i (Manager.inflight w))
                       (Manager.sent w) (Manager.completions w) (Manager.parsing w))).
  { subst w'. cbn [Manager.deliver]. rewrite Hi. unfold Manager.uploadBatch_resume.
    destruct o as [t0|status [t0|data]]; cbn [failed_upload] in Ho.
    - eexists. reflexivity.
    - destruct (negb (Js.status_ok status)); eexists; reflexivity.
    - rewrite Ho. eexists. reflexivity. }
  destruct Hw' as (t0 & Hw'). rewrite Hw'.
  split.
  - intros Hcb. exists (Http.message_of t0).
    unfold Manager.uploadBatch_catch, Manager.terminate, Manager.report.
    fields. rewrite Hcb. reflexivity.
  - destruct (aborted_run evs
                (Manager.uploadBatch_catch t0
                   (Manager.mkWorld (Manager.mgr w) (delete i (Manager.inflight w))
                      (Manager.sent w) (Manager.completions w) (Manager.parsing w))))
      as (_ & Hs & _).
    + unfold Manager.uploadBatch_catch, Manager.terminate, Manager.report.
      destruct (Manager.onComplete _); reflexivity.
    + rewrite Hs. unfold Manager.uploadBatch_catch, Manager.terminate, Manager.report.
      destruct (Manager.onComplete _); reflexivity.
Qed.

(** X10. Completion does not wait for the other uploads: when parsing is
    done and one of several pending uploads succeeds, "Import completed
    successfully" is reported although another upload is still pending. *)
Theorem completion_reported_while_uploads_pending (w : Manager.World) (i : nat)
  (pending : Http.BatchImportRequest) (o : Http.FetchOutcome) :
  Manager.inflight w !! i = Some pending ->
  (2 <= length (Manager.inflight w))%nat ->
  Manager.parsingComplete (Manager.mgr w) = true ->
  Manager.quotaExceeded (Manager.mgr w) = false ->
  Manager.onComplete (Manager.mgr w) = true ->
  Manager.plain_success o = true ->
  let w' := Manager.deliver w (Manager.Settle i o) in
  Manager.completions w'
  = Manager.completions w ++ [(true, "Import completed successfully")]
  /\ Manager.inflight w' <> [].
Proof.
  intros Hi Hlen Hpc Hq Hcb Ho w'. subst w'.
  cbn [Manager.deliver]. rewrite Hi.
  destruct o as [t0|status [t0|data]]; try discriminate.
  cbn [Manager.plain_success] in Ho. apply andb_true_iff in Ho as [Hs Hqe].
  apply negb_true_iff in Hqe.
  unfold Manager.uploadBatch_resume. rewrite Hs, Hqe. cbn [negb].
  unfold Manager.checkCompletion, Manager.report. fields.
  rewrite Hpc, Hq, Hcb. cbn [negb andb]. fields.
  split; [reflexivity|].
  intros Hnil. apply (f_equal length) in Hnil.
  rewrite length_delete in Hnil by (eexists; exact Hi). cbn [length] in Hnil. lia.
Qed.

(** X11. A bound that is not a valid date is reported through the callback
    with the message of the filter, and the import never starts: no row is
    taken and no request is sent, whatever arrives. *)
Theorem invalid_bound_never_parses
  (site : Z) (import earliestStr latestStr msg : string)
  (evs : list Manager.Event) :
  createDateRangeFilter earliestStr latestStr = inl msg ->
  let w := Manager.run
             (Manager.startImport true site import earliestStr latestStr) evs in
  Manager.completions w = [(false, msg)]
  /\ Manager.sent w = []
  /\ Manager.currentBatch (Manager.mgr w) = [].
Proof.
  intros Hf w. subst w.
  assert (Hstart : Manager.startImport true site import earliestStr latestStr
                   = Manager.mkWorld
                       (Manager.mk false true false false false site import []
                          (mkDateRange
                             (Some (Luxon.startOf_day (Luxon.fromFormat_date earliestStr)))
                             (Some (Luxon.endOf_day (Luxon.fromFormat_date latestStr)))))
                       [] [] [(false, msg)] false).
  { unfold createDateRangeFilter in Hf. unfold Manager.startImport.
    destruct (negb (Luxon.isValid _)); [injection Hf as <-; reflexivity|].
    destruct (negb (Luxon.isValid _)); [injection Hf as <-; reflexivity|].
    discriminate. }
  rewrite Hstart. clear Hstart Hf.
  set (w0 := Manager.mkWorld _ _ _ _ _).
  assert (Hfix : forall ev, Manager.deliver w0 ev = w0).
  { intros [row| |m|i o]; reflexivity. }
  induction evs as [|ev evs IH]; [repeat split|].
  cbn [Manager.run foldl]. rewrite Hfix. exact IH.
Qed.

(** ** Files smaller than a batch *)

Section ManagerSmallFile.

Import Manager.

(** Rows, kept or not, that do not fill the batch only grow it by the kept
    ones. *)
Lemma steps_below (rows : list Js.RawRecord) : forall w : World,
  ready w ->
  Z.of_nat (length (currentBatch (mgr w)))
  + Z.of_nat (length (filter (fun row => accepted (range (mgr w)) row = true) rows))
  < BATCH_SIZE ->
  run w (map Step rows)
  = with_mgr (set_currentBatch
                (currentBatch (mgr w)
                 ++ map toUmamiEvent
                      (filter (fun row => accepted (range (mgr w)) row = true) rows)))
             w.
Proof.
  induction rows as [|row rows IH]; intros w Hready Hlen.
  - cbn [map run foldl filter]. rewrite app_nil_r.
    symmetry. apply with_mgr_set_currentBatch_id.
  - cbn [map run foldl]. fold (run (deliver w (Step row)) (map Step rows)).
    destruct (accepted (range (mgr w)) row) eqn:Hacc.
    + rewrite filter_cons_True in * by exact Hacc. cbn [length] in Hlen.
      rewrite deliver_step_below by (auto; lia).
      rewrite IH; fields.
      * cbn [map]. rewrite <- app_assoc. reflexivity.
      * destruct Hready as (? & ? & ?). repeat split; assumption.
      * rewrite length_app. cbn [length]. lia.
    + rewrite filter_cons_False in * by congruence.
      rewrite deliver_step_rejected by exact Hacc.
      apply IH; assumption.
Qed.

End ManagerSmallFile.

(** X12. A file with fewer than 5000 accepted rows, or with none, gives
    exactly one request, flagged last, carrying the accepted rows in order;
    nothing is reported before it settles, and its success reports
    "Import completed successfully" once. *)
Theorem small_file_is_one_request
  (site : Z) (import earliestStr latestStr : string)
  (f : DateRange) (rows : list Js.RawRecord) (o : Http.FetchOutcome) :
  createDateRangeFilter earliestStr latestStr = inr f ->
  Z.of_nat (length (filter (fun row => Manager.accepted f row = true) rows)) < 5000 ->
  Manager.plain_success o = true ->
  let req := Http.mkRequest (pretty site) import
               (map to_record
                    (map toUmamiEvent
                       (filter (fun row => Manager.accepted f row = true) rows)))
               (Some true) in
  let w := Manager.run
             (Manager.startImport true site import earliestStr latestStr)
             (map Manager.Step rows ++ [Manager.Complete]) in
  Manager.sent w = [req]
  /\ Manager.inflight w = [req]
  /\ Manager.completions w = []
  /\ Manager.inflight (Manager.deliver w (Manager.Settle 0 o)) = []
  /\ Manager.completions (Manager.deliver w (Manager.Settle 0 o))
     = [(true, "Import completed successfully")].
Proof.
  intros Hf Hlen Ho req w.
  assert (Hw : w = Manager.mkWorld
                     (Manager.mk false true true true false site import [] f)
                     [req] [req] [] true).
  { subst w req.
    rewrite (startImport_valid _ _ _ _ _ f Hf), run_app.
    set (w0 := Manager.mkWorld _ _ _ _ _).
    assert (Hready0 : Manager.ready w0) by (repeat split; reflexivity).
    rewrite (steps_below rows w0 Hready0)
      by (subst w0; cbn [Manager.mgr Manager.currentBatch Manager.range length];
          unfold Manager.BATCH_SIZE; lia).
    subst w0. fields. cbn [app Manager.run foldl Manager.deliver negb].
    unfold Manager.handleParseComplete, Manager.sendBatch. fields.
    set (kept_rows := map toUmamiEvent
                        (filter (fun row => Manager.accepted f row = true) rows)).
    destruct (Z.ltb_spec 0 (Z.of_nat (length kept_rows))) as [Hpos|Hzero].
    - unfold Manager.uploadBatch. fields.
      destruct (Z.eqb_spec (Z.of_nat (length kept_rows)) 0); [lia|].
      cbn [andb negb]. fields. cbn [app negb]. reflexivity.
    - assert (Hnil : kept_rows = []).
      { destruct kept_rows; [reflexivity|cbn [length] in Hzero; lia]. }
      rewrite Hnil.
      unfold Manager.uploadBatch. fields. cbn [length andb negb app]. fields.
      cbn [map app negb]. reflexivity. }
  rewrite Hw. clear Hw w.
  destruct o as [t0|status [t0|data]]; try discriminate.
  cbn [Manager.plain_success] in Ho. apply andb_true_iff in Ho as [Hs Hq].
  apply negb_true_iff in Hq.
  repeat split; try reflexivity;
    cbn [Manager.deliver lookup list_lookup Manager.inflight delete list_delete];
    unfold Manager.uploadBatch_resume; rewrite Hs, Hq; reflexivity.
Qed.

(** ** The worker: counts and chunks *)

Section WorkerTotals.

Import Worker.

Variable f : DateRange.

Lemma chunk_events_app (l1 l2 : list MessageToMain) :
  chunk_events (l1 ++ l2) = chunk_events l1 ++ chunk_events l2.
Proof. unfold chunk_events. apply omap_app. Qed.

Lemma chunk_events_chunk (c : list UmamiEvent) (p s e : Z) :
  chunk_events [CHUNK_READY c p s e] = [c].
Proof. reflexivity. Qed.

Lemma length_filter_snoc {A} (P : A -> Prop) `{forall x, Decision (P x)}
  (l : list A) (x : A) :
  Z.of_nat (length (filter P (l ++ [x])))
  = Z.of_nat (length (filter P l)) + (if decide (P x) then 1 else 0).
Proof.
  rewrite filter_app, length_app.
  destruct (decide (P x)).
  - rewrite filter_cons_True by assumption. rewrite filter_nil.
    cbn [length]. lia.
  - rewrite filter_cons_False by assumption. rewrite filter_nil.
    cbn [length]. lia.
Qed.

(** What one [step] call with a row does to the worker. *)
Lemma worker_deliver_row (w : t) (row : Js.RawRecord) (b : bool) :
  Z.of_nat (length (currentBatch w)) < BATCH_SIZE ->
  Forall (fun c => Z.of_nat (length c) = BATCH_SIZE) (chunk_events (posted w)) ->
  let w' := deliver w (Step (Some row) b) in
  range w' = range w
  /\ totalErrors w' = totalErrors w + (if b then 1 else 0)
  /\ Z.of_nat (length (currentBatch w')) < BATCH_SIZE
  /\ Forall (fun c => Z.of_nat (length c) = BATCH_SIZE) (chunk_events (posted w'))
  /\ totalParsed w'
     = totalParsed w + (if Manager.accepted (range w) row then 1 else 0)
  /\ totalSkipped w'
     = totalSkipped w + (if Manager.accepted (range w) row then 0 else 1)
  /\ concat (chunk_events (posted w')) ++ currentBatch w'
     = (concat (chunk_events (posted w)) ++ currentBatch w)
       ++ (if Manager.accepted (range w) row then [toUmamiEvent row] else []).
Proof.
  intros Hlen Hfull.
  assert (Hb : forall (w1 : t),
             let w2 := if b then mk (currentBatch w1) (totalParsed w1)
                                    (totalSkipped w1) (totalErrors w1 + 1)
                                    (range w1) (posted w1)
                       else w1 in
             range w2 = range w1 /\ currentBatch w2 = currentBatch w1
             /\ posted w2 = posted w1 /\ totalParsed w2 = totalParsed w1
             /\ totalSkipped w2 = totalSkipped w1
             /\ totalErrors w2 = totalErrors w1 + (if b then 1 else 0)).
  { intros w1. destruct b; cbn; repeat split; lia. }
  destruct (Manager.accepted (range w) row) eqn:Hacc.
  - destruct (Z.leb_spec BATCH_SIZE (Z.of_nat (length (currentBatch w)) + 1)).
    + pose proof (worker_step_full w row Hacc ltac:(assumption)) as Hstep.
      cbn [deliver] in Hstep |- *. cbv zeta. rewrite Hstep.
      match goal with |- context [if b then _ else ?w1] => specialize (Hb w1) end.
      cbv zeta in Hb. destruct Hb as (-> & -> & -> & -> & -> & ->).
      cbn [currentBatch totalParsed totalSkipped totalErrors range posted length].
      rewrite chunk_events_app, concat_app, chunk_events_chunk.
      cbn [concat]. rewrite !app_nil_r.
      repeat split; try lia; try (unfold BATCH_SIZE; lia).
      * apply Forall_app. split; [exact Hfull|]. constructor; [|constructor].
        rewrite length_app. cbn [length]. lia.
      * rewrite <- app_assoc. reflexivity.
    + pose proof (worker_step_below w row Hacc ltac:(assumption)) as Hstep.
      cbn [deliver] in Hstep |- *. cbv zeta. rewrite Hstep.
      match goal with |- context [if b then _ else ?w1] => specialize (Hb w1) end.
      cbv zeta in Hb. destruct Hb as (-> & -> & -> & -> & -> & ->).
      cbn [currentBatch totalParsed totalSkipped totalErrors range posted].
      rewrite length_app. cbn [length].
      repeat split; try lia; try assumption.
      rewrite <- app_assoc. reflexivity.
  - cbn [deliver]. cbv zeta.
    assert (Hskip : handleParsedRow row w
                    = mk (currentBatch w) (totalParsed w) (totalSkipped w + 1)
                         (totalErrors w) (range w) (posted w)).
    { unfold handleParsedRow. unfold Manager.accepted in Hacc.
      destruct (Js.truthy _); cbn [negb andb] in *; [rewrite Hacc|]; reflexivity. }
    rewrite Hskip.
    match goal with |- context [if b then _ else ?w1] => specialize (Hb w1) end.
    cbv zeta in Hb. destruct Hb as (-> & -> & -> & -> & -> & ->).
    cbn [currentBatch totalParsed totalSkipped totalErrors range posted].
    rewrite app_nil_r. repeat split; try lia; assumption.
Qed.

Lemma worker_invariant_step (seen : list (option Js.RawRecord * bool))
  (w : t) (s : option Js.RawRecord * bool) :
  worker_invariant f seen w ->
  worker_invariant f (seen ++ [s]) (deliver w (worker_step s)).
Proof.
  intros (Hr & Hlen & Hflat & Hp & Hs & He & Hfull).
  unfold worker_invariant. rewrite omap_app.
  rewrite (length_filter_snoc (fun s => snd s = true)).
  destruct s as [[row|] b]; unfold worker_step; cbn [fst snd].
  - change (omap fst [(Some row, b)]) with [row].
    destruct (worker_deliver_row w row b Hlen Hfull)
      as (Hr' & He' & Hlen' & Hfull' & Hp' & Hs' & Hflat').
    rewrite Hr in *.
    rewrite (length_filter_snoc (fun row => Manager.accepted f row = true)).
    rewrite (length_filter_snoc (fun row => Manager.accepted f row <> true)).
    rewrite filter_app, map_app.
    repeat split; try assumption.
    + rewrite Hflat', Hflat. f_equal.
      destruct (Manager.accepted f row) eqn:Hacc.
      * rewrite filter_cons_True by exact Hacc. reflexivity.
      * rewrite filter_cons_False by congruence. reflexivity.
    + rewrite Hp', Hp. f_equal.
      destruct (Manager.accepted f row); case_decide; congruence.
    + rewrite Hs', Hs. f_equal.
      destruct (Manager.accepted f row); case_decide; congruence.
    + rewrite He', He. f_equal. destruct b; case_decide; congruence.
  - change (omap fst [(@None Js.RawRecord, b)]) with (@nil Js.RawRecord).
    rewrite !app_nil_r. cbn [deliver].
    destruct b; cbn [currentBatch totalParsed totalSkipped totalErrors range posted];
      repeat split; try assumption; rewrite He; case_decide; try congruence; lia.
Qed.

Lemma worker_invariant_steps (steps : list (option Js.RawRecord * bool)) :
  forall (seen : list (option Js.RawRecord * bool)) (w : t),
  worker_invariant f seen w ->
  worker_invariant f (seen ++ steps) (run w (map worker_step steps)).
Proof.
  induction steps as [|s steps IH]; intros seen w Hinv.
  - rewrite app_nil_r. exact Hinv.
  - cbn [map run foldl]. fold (run (deliver w (worker_step s)) (map worker_step steps)).
    replace (seen ++ s :: steps) with ((seen ++ [s]) ++ steps)
      by (rewrite <- app_assoc; reflexivity).
    apply IH. apply worker_invariant_step. exact Hinv.
Qed.

End WorkerTotals.

(** ** The worker: totals; the worker-driven coordinator *)

Lemma worker_invariant_start (earliestStr latestStr : string) (w0 : Worker.t) :
  Worker.parse_start earliestStr latestStr = inr w0 ->
  exists f, createDateRangeFilter earliestStr latestStr = inr f
            /\ w0 = Worker.mk [] 0 0 0 f []
            /\ worker_invariant f [] w0.
Proof.
  unfold Worker.parse_start.
  destruct (createDateRangeFilter earliestStr latestStr) as [msg|f]; [discriminate|].
  intros [= <-]. exists f. split; [reflexivity|]. split; [reflexivity|].
  unfold worker_invariant. cbn. unfold Worker.BATCH_SIZE.
  repeat split; try lia. constructor.
Qed.

Lemma length_filter_complement {A} (P : A -> Prop) `{forall x, Decision (P x)}
  (l : list A) :
  Z.of_nat (length (filter P l)) + Z.of_nat (length (filter (fun x => ~ P x) l))
  = Z.of_nat (length l).
Proof.
  induction l as [|x l IH]; [reflexivity|].
  destruct (decide (P x)).
  - rewrite filter_cons_True by assumption.
    rewrite filter_cons_False by tauto. cbn [length]. lia.
  - rewrite filter_cons_False by assumption.
    rewrite filter_cons_True by assumption. cbn [length]. lia.
Qed.

(** X13. The worker ends with a [COMPLETE] message whose counts are: the
    accepted rows as parsed, the other rows as skipped, and the [step]
    results with errors as errors; parsed and skipped add up to the rows
    seen. The batch is empty at the end. *)
Theorem worker_totals (earliestStr latestStr : string) (f : DateRange)
  (w0 : Worker.t) (steps : list (option Js.RawRecord * bool)) :
  createDateRangeFilter earliestStr latestStr = inr f ->
  Worker.parse_start earliestStr latestStr = inr w0 ->
  let w := Worker.run w0 (map worker_step steps ++ [Worker.Complete]) in
  let parsed := Z.of_nat (length (filter (fun row => Manager.accepted f row = true)
                                         (omap fst steps))) in
  let errors := Z.of_nat (length (filter (fun s => snd s = true) steps)) in
  let skipped := Z.of_nat (length (omap fst steps)) - parsed in
  last (Worker.posted w) = Some (Worker.COMPLETE parsed skipped errors)
  /\ Worker.currentBatch w = [].
Proof.
  intros Hf Hstart w parsed errors skipped.
  destruct (worker_invariant_start _ _ _ Hstart) as (f' & Hf' & Hw0 & Hinv).
  assert (f' = f) as -> by congruence.
  pose proof (worker_invariant_steps f steps [] w0 Hinv)
    as (Hr & Hlen & Hflat & Hp & Hs & He & Hfull).
  cbn [app] in *.
  subst w. rewrite worker_run_app. cbn [Worker.run foldl Worker.deliver].
  cbv zeta.
  set (w1 := Worker.run w0 (map worker_step steps)) in *.
  assert (Hsend : Worker.totalParsed (Worker.sendChunk w1) = Worker.totalParsed w1
                  /\ Worker.totalSkipped (Worker.sendChunk w1) = Worker.totalSkipped w1
                  /\ Worker.totalErrors (Worker.sendChunk w1) = Worker.totalErrors w1
                  /\ Worker.currentBatch (Worker.sendChunk w1) = []).
  { unfold Worker.sendChunk.
    destruct (Z.ltb_spec 0 (Z.of_nat (length (Worker.currentBatch w1)))).
    - repeat split.
    - repeat split. destruct (Worker.currentBatch w1); [reflexivity|].
      cbn [length] in *. lia. }
  destruct Hsend as (-> & -> & -> & Hcb).
  cbn [Worker.posted Worker.currentBatch].
  rewrite last_snoc. rewrite Hp, Hs, He.
  split; [|exact Hcb].
  pose proof (length_filter_complement
                (fun row => Manager.accepted f row = true) (omap fst steps))
    as Hsum.
  subst parsed errors skipped. do 2 f_equal. lia.
Qed.

(** X14. The chunks posted by the worker, in order, are the accepted rows
    of the file in order; no chunk is empty and none has more than 5000
    events. *)
Theorem worker_chunks_carry_accepted_rows (earliestStr latestStr : string)
  (f : DateRange) (w0 : Worker.t) (steps : list (option Js.RawRecord * bool)) :
  createDateRangeFilter earliestStr latestStr = inr f ->
  Worker.parse_start earliestStr latestStr = inr w0 ->
  let w := Worker.run w0 (map worker_step steps ++ [Worker.Complete]) in
  concat (chunk_events (Worker.posted w))
  = map toUmamiEvent
        (filter (fun row => Manager.accepted f row = true) (omap fst steps))
  /\ Forall (fun c => 0 < Z.of_nat (length c) <= 5000)
            (chunk_events (Worker.posted w)).
Proof.
  intros Hf Hstart w.
  destruct (worker_invariant_start _ _ _ Hstart) as (f' & Hf' & Hw0 & Hinv).
  assert (f' = f) as -> by congruence.
  pose proof (worker_invariant_steps f steps [] w0 Hinv)
    as (Hr & Hlen & Hflat & Hp & Hs & He & Hfull).
  cbn [app] in *.
  subst w. rewrite worker_run_app. cbn [Worker.run foldl Worker.deliver].
  cbv zeta.
  set (w1 := Worker.run w0 (map worker_step steps)) in *.
  cbn [Worker.posted]. rewrite chunk_events_app.
  change (chunk_events [Worker.COMPLETE _ _ _]) with (@nil (list UmamiEvent)).
  rewrite app_nil_r.
  assert (Hfull' : Forall (fun c => 0 < Z.of_nat (length c) <= 5000)
                          (chunk_events (Worker.posted w1))).
  { eapply Forall_impl; [exact Hfull|].
    intros c Hc. cbn in Hc. unfold Worker.BATCH_SIZE in Hc. lia. }
  unfold Worker.sendChunk.
  destruct (Z.ltb_spec 0 (Z.of_nat (length (Worker.currentBatch w1)))).
  - cbn [Worker.posted]. rewrite chunk_events_app, chunk_events_chunk, concat_app.
    cbn [concat]. rewrite app_nil_r. split; [exact Hflat|].
    apply Forall_app. split; [exact Hfull'|]. constructor; [|constructor].
    unfold Worker.BATCH_SIZE in Hlen. lia.
  - assert (Hnil : Worker.currentBatch w1 = []).
    { destruct (Worker.currentBatch w1); [reflexivity|cbn [length] in *; lia]. }
    rewrite Hnil, app_nil_r in Hflat. split; [exact Hflat|exact Hfull'].
Qed.

Section LegacyManager.

Import WorkerManager.

Lemma legacy_checkCompletion_sent (m : t) :
  sent (checkCompletion m) = sent m /\ inflight (checkCompletion m) = inflight m.
Proof. unfold checkCompletion. destruct (_ && _); split; reflexivity. Qed.

(** Every [CHUNK_READY] message starts an upload, at once and in order;
    nothing else the worker posts sends anything. *)
Lemma legacy_message_sent (m : t) (msg : Worker.MessageToMain) :
  sent (deliver m (Message msg)) = sent m ++ chunk_events [msg]
  /\ inflight (deliver m (Message msg)) = inflight m ++ chunk_events [msg].
Proof.
  destruct msg as [events p s e|p s e|message]; cbn [deliver handleWorkerMessage].
  - split; reflexivity.
  - cbv zeta. rewrite (proj1 (legacy_checkCompletion_sent _)),
                      (proj2 (legacy_checkCompletion_sent _)).
    cbn. rewrite !app_nil_r. split; reflexivity.
  - cbn. rewrite !app_nil_r. split; reflexivity.
Qed.

End LegacyManager.

(** X15. The worker-driven coordinator starts one upload per [CHUNK_READY]
    message, at once and in the order of the messages, carrying the chunk as
    it came; the other messages start none. *)
Theorem legacy_uploads_every_chunk (msgs : list Worker.MessageToMain) :
  forall m : WorkerManager.t,
  WorkerManager.sent (WorkerManager.run m (map WorkerManager.Message msgs))
  = WorkerManager.sent m ++ chunk_events msgs
  /\ WorkerManager.inflight (WorkerManager.run m (map WorkerManager.Message msgs))
     = WorkerManager.inflight m ++ chunk_events msgs.
Proof.
  induction msgs as [|msg msgs IH]; intros m.
  - cbn. rewrite !app_nil_r. split; reflexivity.
  - cbn [map WorkerManager.run foldl].
    fold (WorkerManager.run (WorkerManager.deliver m (WorkerManager.Message msg))
            (map WorkerManager.Message msgs)).
    destruct (IH (WorkerManager.deliver m (WorkerManager.Message msg))) as [-> ->].
    destruct (legacy_message_sent m msg) as [-> ->].
    change (msg :: msgs) with ([msg] ++ msgs).
    rewrite chunk_events_app, !app_assoc. split; reflexivity.
Qed.

(** ** The server: what a request does to its session *)

Section ServerEffects.

Import Server.
Context {Row Tracker : Type}.
Variable env : Env Row Tracker.

(** What the inner [try] does to the session of the request, to the event
    store and in its reply. *)
Lemma ingest_session (p : Parsed) (organizationId : string) (st : State Row)
  (s : ImportSession) :
  imports st !! importId p = Some s ->
  let st' := fst (ingest env p organizationId st) in
  let r := snd (ingest env p organizationId st) in
  exists s' rows,
    imports st' !! importId p = Some s'
    /\ (forall id, id <> importId p -> imports st' !! id = imports st !! id)
    /\ siteId s' = siteId s
    /\ platform s' = platform s
    /\ events_table st' = events_table st ++ rows
    /\ importedEvents s' = importedEvents s + Z.of_nat (length rows)
    /\ ((Http.status r = 200
         /\ Http.importedCount (Http.body r) = Some (Z.of_nat (length rows))
         /\ status s' = (if default false (isLastBatch p) then completed
                         else status s))
        \/ (Http.status r = 500
            /\ rows = []
            /\ status s' = failed
            /\ exists t, errorMessage s'
                         = Some ("Failed to insert events: " +:+ Http.message_of t))).
Proof.
  intros Hs. cbv zeta. unfold ingest.
  assert (Hfail : forall (t : Http.Thrown) (st0 : State Row),
             imports st0 = imports st -> events_table st0 = events_table st ->
             exists s' rows,
               imports (fst (catch_insertError p t st0)) !! importId p = Some s'
               /\ (forall id, id <> importId p ->
                     imports (fst (catch_insertError p t st0)) !! id = imports st !! id)
               /\ siteId s' = siteId s /\ platform s' = platform s
               /\ events_table (fst (catch_insertError p t st0)) = events_table st ++ rows
               /\ importedEvents s' = importedEvents s + Z.of_nat (length rows)
               /\ ((Http.status (snd (catch_insertError p t st0)) = 200
                    /\ Http.importedCount (Http.body (snd (catch_insertError p t st0)))
                       = Some (Z.of_nat (length rows))
                    /\ status s' = (if default false (isLastBatch p) then completed
                                    else status s))
                   \/ (Http.status (snd (catch_insertError p t st0)) = 500
                       /\ rows = [] /\ status s' = failed
                       /\ exists t, errorMessage s'
                            = Some ("Failed to insert events: " +:+ Http.message_of t)))).
  { intros t st0 Him Hev. unfold catch_insertError, updateImportStatus.
    cbn [fst snd imports events_table]. rewrite Him, Hev.
    eexists _, []. rewrite lookup_alter_eq, Hs. cbn [fmap option_fmap option_map].
    split; [reflexivity|]. split.
    { intros id Hid. apply lookup_alter_ne. congruence. }
    cbn. rewrite app_nil_r.
    repeat split; try lia. right. repeat split. eexists. reflexivity. }
  assert (Hdone : forall (msg : string) (quota : option bool),
             exists s' rows,
               imports (if default false (isLastBatch p)
                        then updateImportStatus (importId p) completed (Some msg) st
                        else st) !! importId p = Some s'
               /\ (forall id, id <> importId p ->
                     imports (if default false (isLastBatch p)
                              then updateImportStatus (importId p) completed (Some msg) st
                              else st) !! id = imports st !! id)
               /\ siteId s' = siteId s /\ platform s' = platform s
               /\ events_table (if default false (isLastBatch p)
                                then updateImportStatus (importId p) completed (Some msg) st
                                else st) = events_table st ++ rows
               /\ importedEvents s' = importedEvents s + Z.of_nat (length rows)
               /\ rows = []
               /\ status s' = (if default false (isLastBatch p) then completed
                               else status s)).
  { intros msg quota. destruct (default false (isLastBatch p)).
    - unfold updateImportStatus. cbn [imports events_table].
      eexists _, []. rewrite lookup_alter_eq, Hs. cbn [fmap option_fmap option_map].
      split; [reflexivity|]. split.
      { intros id Hid. apply lookup_alter_ne. congruence. }
      cbn. rewrite app_nil_r. repeat split; lia.
    - exists s, []. rewrite app_nil_r. cbn. repeat split; try assumption; lia. }
  destruct (tracker_create env organizationId) as [t|tr].
  { apply Hfail; reflexivity. }
  destruct (partition_quota env tr (events p) [] 0) as [[within skipped] tr'].
  destruct (Z.of_nat (length within) =? 0).
  { cbn [fst snd].
    destruct (Hdone (quotaMessage (length (events p)) (getSummary env tr')) None)
      as (s' & rows & H1 & H2 & H3 & H4 & H5 & H6 & -> & H8).
    exists s', []. repeat split; try assumption. left. repeat split. exact H8. }
  destruct (Z.of_nat (length (transform env within (site p) (importId p))) =? 0).
  { cbn [fst snd].
    destruct (Hdone "No valid events found in the final batch" None)
      as (s' & rows & H1 & H2 & H3 & H4 & H5 & H6 & -> & H8).
    exists s', []. repeat split; try assumption. left. repeat split. exact H8. }
  unfold insert.
  destruct (clickhouse_insert env _) as [t|].
  { apply Hfail; reflexivity. }
  cbn [fst snd].
  set (rows := transform env within (site p) (importId p)).
  destruct (default false (isLastBatch p));
    unfold updateImportStatus, updateImportProgress;
    cbn [imports events_table];
    eexists _, rows; rewrite ?lookup_alter_eq, Hs;
    cbn [fmap option_fmap option_map];
    (split; [reflexivity|]);
    (split; [intros id Hid; rewrite ?lookup_alter_ne by congruence; reflexivity|]);
    cbn; repeat split; left; repeat split.
Qed.

(** The session after the checks. *)
Lemma checked_state_lookup (p : Parsed) (s : ImportSession) (st : State Row) :
  imports st !! importId p = Some s ->
  imports (checked_state p s st) !! importId p
  = Some (mkSession (siteId s)
            (if Status_eqb (status s) pending then processing else status s)
            (if Js.truthy (platform s) then platform s else Some "umami")
            (importedEvents s) (errorMessage s))
  /\ (forall id, id <> importId p ->
        imports (checked_state p s st) !! id = imports st !! id)
  /\ events_table (checked_state p s st) = events_table st.
Proof.
  intros Hs. unfold checked_state.
  destruct (Status_eqb (status s) pending) eqn:Hst;
    destruct (Js.truthy (platform s)) eqn:Hplat;
    unfold set_platform, updateImportStatus; cbn [imports events_table];
    rewrite ?lookup_alter_eq, ?Hs; cbn [fmap option_fmap option_map];
    rewrite ?lookup_alter_eq, ?Hs; cbn [fmap option_fmap option_map];
    (split; [destruct s; reflexivity|]);
    (split; [|reflexivity]);
    intros id Hid; rewrite ?lookup_alter_ne by congruence; reflexivity.
Qed.

Lemma pending_step_lookup (id : string) (s : ImportSession) (st : State Row) :
  imports st !! id = Some s ->
  let st1 := if Status_eqb (status s) pending
             then updateImportStatus id processing None st else st in
  imports st1 !! id
  = Some (mkSession (siteId s)
            (if Status_eqb (status s) pending then processing else status s)
            (platform s) (importedEvents s) (errorMessage s))
  /\ (forall id', id' <> id -> imports st1 !! id' = imports st !! id')
  /\ events_table st1 = events_table st.
Proof.
  intros Hs. cbv zeta.
  destruct (Status_eqb (status s) pending) eqn:Hst;
    unfold updateImportStatus; cbn [imports events_table];
    rewrite ?lookup_alter_eq, ?Hs; cbn [fmap option_fmap option_map];
    (split; [destruct s; reflexivity|]);
    (split; [|reflexivity]);
    intros id' Hid; rewrite ?lookup_alter_ne by congruence; reflexivity.
Qed.

(** The state in which the checks end, for a request whose import exists. *)
Lemma precheck_state (req : Http.BatchImportRequest) (st : State Row)
  (s : ImportSession) :
  imports st !! Http.params_importId req = Some s ->
  match precheck env req st with
  | inl (st1, r) =>
      Http.status r <> 200 /\ Http.status r <> 500
      /\ (st1 = st
          \/ st1 = (if Status_eqb (status s) pending
                    then updateImportStatus (Http.params_importId req)
                           processing None st
                    else st)
          \/ exists p, importId p = Http.params_importId req
                       /\ st1 = checked_state p s st)
  | inr (p, _, st1) =>
      importId p = Http.params_importId req
      /\ isLastBatch p = Http.body_isLastBatch req
      /\ status s <> completed /\ status s <> failed
      /\ st1 = checked_state p s st
  end.
Proof.
  intros Hs. unfold precheck, getImportById.
  destruct (safeParse env req) as [p|] eqn:Hparse.
  2:{ cbn. repeat split; try discriminate. auto. }
  destruct (safeParse_Some env req p Hparse) as (_ & Hid & Hlast & _).
  rewrite Hid, Hs.
  destruct (negb (getUserHasAdminAccessToSite env (site p))).
  { cbn. repeat split; try discriminate. auto. }
  destruct (negb (bool_decide _)).
  { cbn. repeat split; try discriminate. auto. }
  destruct (Status_eqb (status s) completed) eqn:Hc.
  { cbn. repeat split; try discriminate. auto. }
  destruct (Status_eqb (status s) failed) eqn:Hf.
  { cbn. repeat split; try discriminate. auto. }
  apply Status_eqb_neq in Hc, Hf.
  destruct (Js.truthy (platform s)) eqn:Hplat.
  - destruct (_ ≫= site_organization env).
    + repeat split; try assumption. unfold checked_state. rewrite Hplat, Hid.
      reflexivity.
    + cbn. repeat split; try discriminate. auto.
  - destruct (head (events p) ≫= _).
    + destruct (_ ≫= site_organization env).
      * repeat split; try assumption. unfold checked_state. rewrite Hplat, Hid.
        reflexivity.
      * cbn. repeat split; try discriminate. right. right. exists p.
        split; [exact Hid|]. unfold checked_state. rewrite Hplat, Hid. reflexivity.
    + cbn. repeat split; try discriminate. auto.
Qed.

(** The whole handler, for a request whose import exists: what becomes of
    the session, of the event store, and how the reply goes with them. *)
Lemma handler_session (req : Http.BatchImportRequest) (st : State Row)
  (s : ImportSession) :
  imports st !! Http.params_importId req = Some s ->
  let st' := fst (batchImportEvents env req st) in
  let r := snd (batchImportEvents env req st) in
  exists s' rows,
    imports st' !! Http.params_importId req = Some s'
    /\ (forall id, id <> Http.params_importId req ->
          imports st' !! id = imports st !! id)
    /\ siteId s' = siteId s
    /\ (Js.truthy (platform s) = true -> platform s' = platform s)
    /\ events_table st' = events_table st ++ rows
    /\ importedEvents s' = importedEvents s + Z.of_nat (length rows)
    /\ (Http.status r = 200 ->
        Http.importedCount (Http.body r) = Some (Z.of_nat (length rows))
        /\ Js.truthy (platform s') = true
        /\ status s' = (if default false (Http.body_isLastBatch req)
                        then completed else processing))
    /\ (Http.status r = 500 ->
        status s' = failed
        /\ exists t, errorMessage s'
                     = Some ("Failed to insert events: " +:+ Http.message_of t))
    /\ (Http.status r <> 200 -> rows = [])
    /\ (status s' = status s
        \/ (status s = pending /\ status s' <> pending)
        \/ (status s = processing
            /\ (status s' = completed \/ status s' = failed))).
Proof.
  intros Hs. cbv zeta. unfold batchImportEvents.
  pose proof (precheck_state req st s Hs) as Hpre.
  destruct (precheck env req st) as [[st1 r1]|[[p org] st1]]; cbn [fst snd].
  - destruct Hpre as (Hn200 & Hn500 & Hst1).
    assert (Hsession : exists s',
               imports st1 !! Http.params_importId req = Some s'
               /\ (forall id, id <> Http.params_importId req ->
                     imports st1 !! id = imports st !! id)
               /\ events_table st1 = events_table st
               /\ siteId s' = siteId s
               /\ (Js.truthy (platform s) = true -> platform s' = platform s)
               /\ importedEvents s' = importedEvents s
               /\ (status s' = status s
                   \/ (status s = pending /\ status s' = processing))).
    { destruct Hst1 as [->|[->|(p & Hid & ->)]].
      - exists s. repeat split; auto.
      - destruct (pending_step_lookup _ s st Hs) as (H1 & H2 & H3).
        eexists. split; [exact H1|]. cbn. repeat split; auto.
        destruct (status s); cbn [Status_eqb]; auto.
      - rewrite <- Hid in *.
        destruct (checked_state_lookup p s st Hs) as (H1 & H2 & H3).
        eexists. split; [exact H1|]. cbn. repeat split; auto.
        + intros ->. reflexivity.
        + destruct (status s); cbn [Status_eqb]; auto. }
    destruct Hsession as (s' & H1 & H2 & H3 & H4 & H5 & H6 & H7).
    exists s', []. rewrite app_nil_r, Z.add_0_r.
    repeat split; try assumption; try contradiction.
    destruct H7 as [H7|[H7 H8]]; [left; exact H7|].
    right. left. split; [exact H7|]. rewrite H8. discriminate.
  - destruct Hpre as (Hid & Hlast & Hc & Hf & ->).
    rewrite <- Hid in *.
    destruct (checked_state_lookup p s st Hs) as (H1 & H2 & H3).
    destruct (ingest_session p org (checked_state p s st) _ H1)
      as (s' & rows & G1 & G2 & G3 & G4 & G5 & G6 & G7).
    cbn [siteId platform importedEvents status] in *.
    assert (Hproc : (if Status_eqb (status s) pending then processing else status s)
                    = processing).
    { destruct (status s); cbn [Status_eqb]; congruence. }
    rewrite Hproc in G7.
    exists s', rows. rewrite <- Hlast.
    split; [exact G1|].
    split; [intros id Hne; rewrite G2 by exact Hne; apply H2; exact Hne|].
    split; [exact G3|].
    split; [intros Ht; rewrite G4, Ht; reflexivity|].
    split; [rewrite G5, H3; reflexivity|].
    split; [exact G6|].
    assert (Hplat : Js.truthy (platform s') = true).
    { rewrite G4. destruct (Js.truthy (platform s)) eqn:Ht; [exact Ht|reflexivity]. }
    destruct G7 as [(R200 & Hcount & Hst)|(R500 & -> & Hst & Hmsg)].
    + split; [intros _; auto|].
      split; [intros E; rewrite E in R200; discriminate|].
      split; [intros E; contradiction|].
      rewrite Hst. destruct (status s) eqn:Hs0; try congruence.
      * right. left. split; [reflexivity|].
        destruct (default false (isLastBatch p)); discriminate.
      * destruct (default false (isLastBatch p));
          [right; right; split; [reflexivity|left; reflexivity]|left; reflexivity].
    + split; [intros E; rewrite E in R500; discriminate|].
      split; [intros _; auto|].
      split; [reflexivity|].
      rewrite Hst. destruct (status s) eqn:Hs0; try congruence.
      * right. left. split; [reflexivity|discriminate].
      * right. right. split; [reflexivity|right; reflexivity].
Qed.

End ServerEffects.

(** ** The server: validation, isolation and accounting *)

Section ServerValidation.

Import Server.
Context {Row Tracker : Type}.
Variable env : Env Row Tracker.

Lemma handler_no_session (req : Http.BatchImportRequest) (st : State Row) :
  imports st !! Http.params_importId req = None ->
  fst (batchImportEvents env req st) = st.
Proof.
  intros Hnone. unfold batchImportEvents, precheck, getImportById.
  destruct (safeParse env req) as [p|] eqn:Hparse; [|reflexivity].
  destruct (safeParse_Some env req p Hparse) as (_ & Hid & _).
  rewrite Hid, Hnone.
  destruct (negb (getUserHasAdminAccessToSite env (site p))); reflexivity.
Qed.

(** The loop over the events, with its accumulators. *)
Lemma partition_quota_acc (evs : list UmamiEvent) :
  forall (tr tr' : Tracker) (acc within : list UmamiEvent) (k skipped : Z),
  partition_quota env tr evs acc k = (within, skipped, tr') ->
  exists taken,
    within = acc ++ taken
    /\ taken `sublist_of` evs
    /\ Forall (fun e => created_at e <> "") taken
    /\ Z.of_nat (length taken) + (skipped - k)
       + Z.of_nat (length (filter (fun e => created_at e = "") evs))
       = Z.of_nat (length evs).
Proof.
  induction evs as [|e evs IH]; intros tr tr' acc within k skipped Hpart.
  - cbn [partition_quota] in Hpart. injection Hpart as <- <- <-.
    exists []. rewrite app_nil_r. repeat split; try constructor.
    cbn. lia.
  - cbn [partition_quota] in Hpart.
    destruct (Js.truthy (Some (created_at e))) eqn:Ht; cbn [negb] in Hpart.
    + apply truthy_Some_nonempty in Ht.
      rewrite filter_cons_False by exact Ht.
      destruct (canImportEvent env tr (created_at e)) as [[|] tr1].
      * destruct (IH _ _ _ _ _ _ Hpart) as (taken & -> & Hsub & Hall & Hcount).
        exists (e :: taken). rewrite <- app_assoc. cbn [app length].
        repeat split; [constructor; exact Hsub|constructor; assumption|lia].
      * destruct (IH _ _ _ _ _ _ Hpart) as (taken & -> & Hsub & Hall & Hcount).
        exists taken. cbn [length].
        repeat split; [constructor; exact Hsub|assumption|lia].
    + assert (He : created_at e = "").
      { destruct (String.eqb_spec (created_at e) ""); [assumption|].
        unfold Js.truthy in Ht. apply negb_false_iff in Ht.
        apply String.eqb_eq in Ht. exact Ht. }
      rewrite filter_cons_True by exact He.
      destruct (IH _ _ _ _ _ _ Hpart) as (taken & -> & Hsub & Hall & Hcount).
      exists taken. cbn [length].
      repeat split; [constructor; exact Hsub|assumption|lia].
Qed.

End ServerValidation.

(** X17. A batch of more than 10000 events, or with an event the key-only
    schema refuses, is answered 400 "Validation error" and changes
    nothing. *)
Theorem oversized_or_malformed_batch_is_rejected
  {Row Tracker : Type} (env : Server.Env Row Tracker)
  (req : Http.BatchImportRequest) (st : Server.State Row) :
  10000 < Z.of_nat (length (Http.body_events req))
  \/ (exists raw, raw ∈ Http.body_events req
                  /\ Server.umamiEventKeyOnlySchema env raw = None) ->
  Server.batchImportEvents env req st
  = (st, Server.reply_error 400 "Validation error").
Proof.
  intros Hbad.
  assert (Hparse : Server.safeParse env req = None).
  { destruct (Server.safeParse env req) as [p|] eqn:Hparse; [|reflexivity].
    exfalso.
    destruct (safeParse_Some env req p Hparse) as (_ & _ & _ & HmapM & Hlen).
    apply mapM_Some in HmapM.
    destruct Hbad as [Hbig|(raw & Hraw & Hnone)].
    - apply Forall2_length in HmapM. lia.
    - apply list_elem_of_lookup in Hraw as [i Hi].
      destruct (Forall2_lookup_l _ _ _ _ _ HmapM Hi) as (e & _ & He).
      congruence. }
  unfold Server.batchImportEvents, Server.precheck. rewrite Hparse. reflexivity.
Qed.

(** X18. A request never changes the session of another import id. *)
Theorem other_sessions_are_untouched
  {Row Tracker : Type} (env : Server.Env Row Tracker)
  (req : Http.BatchImportRequest) (st : Server.State Row) (id : string) :
  id <> Http.params_importId req ->
  Server.imports (fst (Server.batchImportEvents env req st)) !! id
  = Server.imports st !! id.
Proof.
  intros Hne.
  destruct (Server.imports st !! Http.params_importId req) as [s|] eqn:Hs.
  - destruct (handler_session env req st s Hs) as (s' & rows & _ & Hother & _).
    apply Hother. exact Hne.
  - rewrite (handler_no_session env req st Hs). reflexivity.
Qed.

(** X19. A 200 reply states as [importedCount] the number of rows the
    request has added to the events table, and the session's event count
    has grown by that number; a request answered 4xx adds no row and leaves
    the count as it was. *)
Theorem imported_count_matches_store
  {Row Tracker : Type} (env : Server.Env Row Tracker)
  (req : Http.BatchImportRequest) (st : Server.State Row)
  (s : Server.ImportSession) :
  Server.imports st !! Http.params_importId req = Some s ->
  let st' := fst (Server.batchImportEvents env req st) in
  let r := snd (Server.batchImportEvents env req st) in
  exists s' rows,
    Server.imports st' !! Http.params_importId req = Some s'
    /\ Server.events_table st' = Server.events_table st ++ rows
    /\ (Http.status r = 200 ->
        Http.importedCount (Http.body r) = Some (Z.of_nat (length rows))
        /\ Server.importedEvents s'
           = Server.importedEvents s + Z.of_nat (length rows))
    /\ (400 <= Http.status r < 500 ->
        rows = [] /\ Server.importedEvents s' = Server.importedEvents s).
Proof.
  intros Hs st' r.
  destruct (handler_session env req st s Hs)
    as (s' & rows & H1 & _ & _ & _ & H5 & H6 & H7 & _ & H9 & _).
  exists s', rows. split; [exact H1|]. split; [exact H5|]. split.
  - intros H200. split; [apply H7; exact H200|exact H6].
  - intros H4xx.
    assert (Hrows : rows = []) by (apply H9; fold r; lia).
    split; [exact Hrows|]. rewrite H6, Hrows. cbn [length]. lia.
Qed.

(** X20. A request keeps the session's site and a platform once set, never
    lowers the event count, and leaves the status or moves it forward: from
    pending to something else, or from processing to completed or failed. *)
Theorem session_lifecycle
  {Row Tracker : Type} (env : Server.Env Row Tracker)
  (req : Http.BatchImportRequest) (st : Server.State Row)
  (s : Server.ImportSession) :
  Server.imports st !! Http.params_importId req = Some s ->
  exists s',
    Server.imports (fst (Server.batchImportEvents env req st))
    !! Http.params_importId req = Some s'
    /\ Server.siteId s' = Server.siteId s
    /\ (Js.truthy (Server.platform s) = true ->
        Server.platform s' = Server.platform s)
    /\ Server.importedEvents s <= Server.importedEvents s'
    /\ (Server.status s' = Server.status s
        \/ (Server.status s = Server.pending
            /\ Server.status s' <> Server.pending)
        \/ (Server.status s = Server.processing
            /\ (Server.status s' = Server.completed
                \/ Server.status s' = Server.failed))).
Proof.
  intros Hs.
  destruct (handler_session env req st s Hs)
    as (s' & rows & H1 & _ & H3 & H4 & _ & H6 & _ & _ & _ & H10).
  exists s'. repeat split; try assumption. lia.
Qed.

(** X21. After a 200 reply the platform is set and the session is completed
    if the request was flagged last, and processing otherwise. *)
Theorem success_reply_settles_status
  {Row Tracker : Type} (env : Server.Env Row Tracker)
  (req : Http.BatchImportRequest) (st : Server.State Row)
  (s : Server.ImportSession) :
  Server.imports st !! Http.params_importId req = Some s ->
  Http.status (snd (Server.batchImportEvents env req st)) = 200 ->
  exists s',
    Server.imports (fst (Server.batchImportEvents env req st))
    !! Http.params_importId req = Some s'
    /\ Js.truthy (Server.platform s') = true
    /\ Server.status s'
       = (if default false (Http.body_isLastBatch req)
          then Server.completed else Server.processing).
Proof.
  intros Hs H200.
  destruct (handler_session env req st s Hs)
    as (s' & rows & H1 & _ & _ & _ & _ & _ & H7 & _).
  destruct (H7 H200) as (_ & Hplat & Hst).
  exists s'. auto.
Qed.

(** X22. When a request has passed the checks and the quota tracker cannot
    be made, it is answered 500 "Failed to insert events" with the error's
    message, the session is marked failed with "Failed to insert events:
    ...", and the store is never called. *)
Theorem tracker_failure_fails_session
  {Row Tracker : Type} (env : Server.Env Row Tracker)
  (req : Http.BatchImportRequest) (st st1 : Server.State Row)
  (p : Server.Parsed) (organizationId : string) (t : Http.Thrown) :
  Server.precheck env req st = inr (p, organizationId, st1) ->
  Server.tracker_create env organizationId = inl t ->
  let st' := fst (Server.batchImportEvents env req st) in
  let r := snd (Server.batchImportEvents env req st) in
  r = Http.mkResponse 500
        (Http.mkBody (Some false) None None (Some (Http.message_of t))
                     (Some "Failed to insert events"))
  /\ Server.insert_calls st' = Server.insert_calls st
  /\ Server.events_table st' = Server.events_table st
  /\ exists s',
       Server.imports st' !! Server.importId p = Some s'
       /\ Server.status s' = Server.failed
       /\ Server.errorMessage s'
          = Some ("Failed to insert events: " +:+ Http.message_of t).
Proof.
  intros Hpre Htr st' r. subst st' r.
  unfold Server.batchImportEvents. rewrite Hpre.
  unfold Server.ingest. rewrite Htr.
  apply precheck_inr in Hpre as (_ & _ & s & Hs & _ & Hc & Hf & _ & _ & ->).
  destruct (checked_state_session p s st Hs Hc Hf)
    as (s1 & Hs1 & _ & _ & _ & Hev & Hcalls).
  unfold Server.catch_insertError, Server.updateImportStatus.
  cbn [fst snd Server.imports Server.events_table Server.insert_calls].
  split; [reflexivity|]. split; [exact Hcalls|]. split; [exact Hev|].
  rewrite lookup_alter_eq, Hs1. eexists. split; [reflexivity|]. split; reflexivity.
Qed.

(** X23. The quota loop accounts for every event: those kept are a
    subsequence of the batch and have a timestamp, and kept, skipped for
    quota and those without timestamp add up to the size of the batch. *)
Theorem partition_accounts_for_every_event
  {Row Tracker : Type} (env : Server.Env Row Tracker)
  (tr tr' : Tracker) (evs within : list UmamiEvent) (skipped : Z) :
  Server.partition_quota env tr evs [] 0 = (within, skipped, tr') ->
  within `sublist_of` evs
  /\ Forall (fun e => created_at e <> "") within
  /\ Z.of_nat (length within) + skipped
     + Z.of_nat (length (filter (fun e => created_at e = "") evs))
     = Z.of_nat (length evs).
Proof.
  intros Hpart.
  destruct (partition_quota_acc env evs _ _ _ _ _ _ Hpart)
    as (taken & -> & Hsub & Hall & Hcount).
  cbn [app]. repeat split; try assumption. lia.
Qed.

(** ** Worker and worker-driven coordinator together *)

Section WorkerNothingKept.

Import Worker.


End WorkerNothingKept.


(** ** The settings page *)

Section SettingsPage.

Import ImportManager.

Lemma string_app_nil_r (s : string) : s +:+ "" = s.
Proof.
  induction s as [|c s IH]; [reflexivity|].
  change (String c (s +:+ "") = String c s). rewrite IH. reflexivity.
Qed.

Lemma string_app_snoc (acc : string) (c : ascii) (s : string) :
  (acc +:+ String c "") +:+ s = acc +:+ String c s.
Proof.
  induction acc as [|a acc IH]; [reflexivity|].
  change (String a ((acc +:+ String c "") +:+ s) = String a (acc +:+ String c s)).
  rewrite IH. reflexivity.
Qed.

Lemma last_segment_no_dot (ext : string) : forall acc : string,
  (forall c, c ∈ list_ascii_of_string ext -> c <> "."%char) ->
  last_segment acc ext = acc +:+ ext.
Proof.
  induction ext as [|c ext IH]; intros acc Hnodot.
  - cbn [last_segment]. rewrite string_app_nil_r. reflexivity.
  - cbn [last_segment].
    assert (Hc : Ascii.eqb c "." = false).
    { apply Ascii.eqb_neq. apply Hnodot. cbn. apply elem_of_cons. auto. }
    rewrite Hc, IH.
    + apply string_app_snoc.
    + intros c' Hc'. apply Hnodot. cbn. apply elem_of_cons. auto.
Qed.

Lemma last_segment_after_dot (base ext : string) : forall acc : string,
  (forall c, c ∈ list_ascii_of_string ext -> c <> "."%char) ->
  last_segment acc (base +:+ "." +:+ ext) = ext.
Proof.
  induction base as [|b base IH]; intros acc Hnodot.
  - change (last_segment acc (String "." ext) = ext).
    cbn [last_segment]. rewrite Ascii.eqb_refl.
    rewrite last_segment_no_dot by exact Hnodot. reflexivity.
  - change (last_segment acc (String b (base +:+ "." +:+ ext)) = ext).
    cbn [last_segment].
    destruct (Ascii.eqb b "."); apply IH; exact Hnodot.
Qed.

End SettingsPage.

Section SilentManager.

Import Manager.

Lemma silent_report (ok : bool) (msg : string) (w : World) :
  silent w -> report ok msg w = w.
Proof. intros [Hcb _]. unfold report. rewrite Hcb. reflexivity. Qed.

Lemma silent_with_mgr (g : t -> t) (w : World) :
  (forall m, onComplete (g m) = onComplete m) ->
  silent w -> silent (with_mgr g w).
Proof. intros Hg [Hcb Hnone]. split; [cbn; rewrite Hg|]; assumption. Qed.

Lemma silent_checkCompletion (w : World) : silent w -> silent (checkCompletion w).
Proof.
  intros H. unfold checkCompletion.
  destruct (_ && _); [rewrite silent_report by exact H|]; exact H.
Qed.

Lemma silent_uploadBatch (evs : list UmamiEvent) (b : bool) (w : World) :
  silent w -> silent (uploadBatch evs b w).
Proof.
  intros H. unfold uploadBatch.
  destruct (quotaExceeded (mgr w)); [exact H|].
  destruct (_ && _); [exact H|].
  destruct H as [Hcb Hnone]. split; assumption.
Qed.

Lemma silent_sendBatch (b : bool) (w : World) : silent w -> silent (sendBatch b w).
Proof.
  intros H. unfold sendBatch.
  destruct (0 <? _).
  - apply silent_uploadBatch. apply silent_with_mgr; [reflexivity|exact H].
  - destruct b; [apply silent_uploadBatch|]; exact H.
Qed.

Lemma silent_catch (t0 : Http.Thrown) (w : World) :
  silent w -> silent (uploadBatch_catch t0 w).
Proof.
  intros H. unfold uploadBatch_catch, terminate.
  rewrite silent_report by exact H.
  apply silent_with_mgr; [reflexivity|].
  apply silent_with_mgr; [reflexivity|exact H].
Qed.

Lemma silent_deliver (w : World) (ev : Event) : silent w -> silent (deliver w ev).
Proof.
  intros H. destruct ev as [row| |msg|i o]; cbn [deliver].
  - destruct (negb (parsing w)); [exact H|].
    destruct (_ || _); [exact H|].
    unfold handleParsedRow.
    destruct (negb (Js.truthy _)); [exact H|].
    destruct (negb (isDateInRange _ _)); [exact H|].
    cbv zeta.
    assert (H' : silent (with_mgr
                   (fun m => set_currentBatch (currentBatch m ++ [toUmamiEvent row]) m) w)).
    { apply silent_with_mgr; [reflexivity|exact H]. }
    destruct (BATCH_SIZE <=? _); [apply silent_sendBatch|]; exact H'.
  - destruct (negb (parsing w)); [exact H|].
    destruct (aborted (mgr w)); [exact H|].
    unfold handleParseComplete. cbv zeta.
    assert (H' : silent (sendBatch true (with_mgr (set_parsingComplete true) w))).
    { apply silent_sendBatch. apply silent_with_mgr; [reflexivity|exact H]. }
    destruct (negb _); [apply silent_checkCompletion|]; exact H'.
  - destruct (negb (parsing w)); [exact H|].
    destruct (aborted (mgr w)); [exact H|].
    unfold handleError. rewrite silent_report by exact H. exact H.
  - destruct (inflight w !! i); [|exact H].
    assert (H0 : silent (mkWorld (mgr w) (delete i (inflight w)) (sent w)
                           (completions w) (parsing w))) by exact H.
    revert H0. generalize (mkWorld (mgr w) (delete i (inflight w)) (sent w)
                             (completions w) (parsing w)).
    intros w0 H0. unfold uploadBatch_resume.
    destruct o as [t0|status [t0|data]]; [apply silent_catch; exact H0| |].
    + destruct (negb (Js.status_ok status)); apply silent_catch; exact H0.
    + destruct (negb (Js.status_ok status)); [apply silent_catch; exact H0|].
      destruct (default false (Http.quotaExceeded data)).
      * assert (H1 : silent (with_mgr (set_aborted true)
                               (with_mgr (set_quotaExceeded true) w0))).
        { apply silent_with_mgr; [reflexivity|].
          apply silent_with_mgr; [reflexivity|exact H0]. }
        cbv zeta. rewrite silent_report by exact H1.
        apply silent_with_mgr; [reflexivity|exact H1].
      * apply silent_checkCompletion.
        apply silent_with_mgr; [reflexivity|exact H0].
Qed.

Lemma silent_run (evs : list Event) : forall w : World,
  silent w -> silent (run w evs).
Proof.
  induction evs as [|ev evs IH]; intros w H; [exact H|].
  cbn [run foldl]. apply IH. apply silent_deliver. exact H.
Qed.

End SilentManager.

(** X24. A file whose name ends in a dot and an extension is taken for CSV
    exactly when the extension is "csv" in any letter case or the type is
    "text/csv". *)
Theorem csv_by_extension (base ext type : string) (size : Z) :
  (forall c, c ∈ list_ascii_of_string ext -> c <> "."%char) ->
  ImportManager.is_csv (ImportManager.mkFile (base +:+ "." +:+ ext) size type)
  = String.eqb (ImportManager.toLowerCase ext) "csv"
    || String.eqb type "text/csv".
Proof.
  intros Hnodot. unfold ImportManager.is_csv, ImportManager.extension.
  cbn [ImportManager.name ImportManager.type].
  rewrite last_segment_after_dot by exact Hnodot.
  unfold ImportManager.includes, ImportManager.ALLOWED_EXTENSIONS,
    ImportManager.ALLOWED_FILE_TYPES.
  cbn [existsb]. rewrite !orb_false_r. reflexivity.
Qed.

(** X25. The settings page makes its coordinator without callback: an
    import started from the page never reports an outcome, whatever
    happens. *)
Theorem page_import_reports_nothing
  (siteId : Z) (importId earliest latest : string) (evs : list Manager.Event) :
  Manager.completions
    (Manager.run
       (ImportManager.executeImport_onSuccess siteId importId earliest latest)
       evs)
  = [].
Proof.
  apply silent_run.
  unfold ImportManager.executeImport_onSuccess, Manager.startImport,
    Manager.handleError, Manager.report.
  cbn. destruct (negb _); [split; reflexivity|].
  destruct (negb _); split; reflexivity.
Qed.

(** X26. A form that passed validation is never dropped by [onSubmit]: it
    holds exactly one file, taken for CSV, not larger than the size limit
    and with a name of at most 255 UTF-16 units, and [onSubmit] asks for
    confirmation when the file is larger than the threshold and starts the
    import otherwise; the threshold lies below the limit, so the
    confirmation is reachable. *)
Theorem validated_form_is_submitted (IS_CLOUD : bool)
  (files : list ImportManager.File) :
  ImportManager.importFormSchema IS_CLOUD files = [] ->
  exists file,
    files = [file]
    /\ ImportManager.size file <= ImportManager.MAX_FILE_SIZE IS_CLOUD
    /\ ImportManager.is_csv file = true
    /\ Z.of_nat (ImportManager.utf16_length (ImportManager.name file)) <= 255
    /\ ImportManager.onSubmit IS_CLOUD files
       = (if ImportManager.CONFIRM_THRESHOLD IS_CLOUD <? ImportManager.size file
          then ImportManager.AskConfirmation
          else ImportManager.ExecuteImport)
    /\ ImportManager.CONFIRM_THRESHOLD IS_CLOUD
       < ImportManager.MAX_FILE_SIZE IS_CLOUD.
Proof.
  unfold ImportManager.importFormSchema. intros H.
  apply app_eq_nil in H as [H1 H]. apply app_eq_nil in H as [H2 H].
  apply app_eq_nil in H as [H3 H4].
  destruct files as [|file [|file2 rest]].
  - discriminate H1.
  - cbn [head] in H2, H3, H4. exists file. split; [reflexivity|].
    destruct (Z.leb_spec (ImportManager.size file)
                (ImportManager.MAX_FILE_SIZE IS_CLOUD)); [|discriminate H2].
    destruct (ImportManager.is_csv file); [|discriminate H3].
    destruct (Z.leb_spec
                (Z.of_nat (ImportManager.utf16_length (ImportManager.name file)))
                255); [|discriminate H4].
    do 3 (split; [first [assumption | reflexivity]|]).
    split; [reflexivity|]. destruct IS_CLOUD; reflexivity.
  - exfalso. cbn [length] in H1.
    destruct (Z.eqb_spec (Z.of_nat (S (S (length rest)))) 1);
      [lia|discriminate H1].
Qed.

(** After 5000 accepted rows, one more and the end of the file, the full
    batch and the last one are both pending. *)
Lemma full_and_last_pending (hasCallback : bool) (site : Z)
  (import earliestStr latestStr : string) (f : DateRange)
  (rows : list Js.RawRecord) (row : Js.RawRecord) :
  createDateRangeFilter earliestStr latestStr = inr f ->
  Z.of_nat (length rows) = 5000 ->
  Forall (fun row => Manager.accepted f row = true) rows ->
  Manager.accepted f row = true ->
  Manager.run
    (Manager.startImport hasCallback site import earliestStr latestStr)
    (map Manager.Step (rows ++ [row]) ++ [Manager.Complete])
  = Manager.mkWorld
      (Manager.mk false hasCallback true true false site import [] f)
      [Http.mkRequest (pretty site) import
         (map to_record (map toUmamiEvent rows)) (Some false);
       Http.mkRequest (pretty site) import
         [to_record (toUmamiEvent row)] (Some true)]
      [Http.mkRequest (pretty site) import
         (map to_record (map toUmamiEvent rows)) (Some false);
       Http.mkRequest (pretty site) import
         [to_record (toUmamiEvent row)] (Some true)]
      [] true.
Proof.
  intros Hf Hlen Hall Hacc.
  rewrite (startImport_valid _ _ _ _ _ f Hf).
  set (w0 := Manager.mkWorld _ _ _ _ _).
  rewrite map_app, <- app_assoc, run_app.
  assert (Hready0 : Manager.ready w0) by (repeat split; reflexivity).
  rewrite (feed_fill rows w0 Hready0).
  - set (w1 := Manager.fetch _ _ _).
    assert (Hready1 : Manager.ready w1) by (repeat split; reflexivity).
    cbn [map app Manager.run foldl].
    rewrite (deliver_step_below w1 row Hready1 Hacc)
      by (subst w1 w0; fields; cbn [length]; unfold Manager.BATCH_SIZE; lia).
    subst w1 w0. fields. cbn [app Manager.deliver negb].
    unfold Manager.handleParseComplete, Manager.sendBatch. fields.
    cbn [length Z.of_nat Pos.of_succ_nat Z.ltb Z.compare].
    unfold Manager.uploadBatch. fields.
    cbn [length Z.of_nat Pos.of_succ_nat Z.eqb andb negb app map]. fields.
    cbn [app negb]. reflexivity.
  - exact Hall.
  - intros E. rewrite E in Hlen. discriminate Hlen.
  - subst w0. fields. cbn [length]. unfold Manager.BATCH_SIZE. lia.
Qed.

Lemma two_pending_shape :
  Fixtures.two_pending
  = Manager.mkWorld
      (Manager.mk false true true true false 1 Sample.importId []
         Fixtures.january)
      [Fixtures.full_request; Fixtures.last_request]
      [Fixtures.full_request; Fixtures.last_request] [] true.
Proof.
  apply (full_and_last_pending true 1 Sample.importId "2024-01-01" "2024-01-31"
           Fixtures.january (replicate (Z.to_nat 5000) Fixtures.inside)
           Fixtures.inside).
  - vm_compute. reflexivity.
  - rewrite length_replicate. lia.
  - apply Forall_replicate. vm_compute. reflexivity.
  - vm_compute. reflexivity.
Qed.

(** ** The properties on sample inputs *)

Lemma requests_are_bounded_witness :
  (Http.body_isLastBatch Fixtures.last_request = Some false
   /\ Z.of_nat (length (Http.body_events Fixtures.last_request)) = 5000)
  \/ (Http.body_isLastBatch Fixtures.last_request = Some true
      /\ Z.of_nat (length (Http.body_events Fixtures.last_request)) < 5000).
Proof.
  apply (requests_are_bounded true 1 Sample.importId "2024-01-01" "2024-01-31"
           Fixtures.january
           [Manager.Step Fixtures.inside; Manager.Complete]
           Fixtures.last_request).
  - vm_compute. reflexivity.
  - vm_compute. constructor.
Defined.

Lemma only_accepted_events_are_sent_witness :
  exists e, to_record (toUmamiEvent Fixtures.inside) = to_record e
            /\ created_at e <> ""
            /\ isDateInRange Fixtures.january (created_at e) = true.
Proof.
  apply (only_accepted_events_are_sent true 1 Sample.importId
           "2024-01-01" "2024-01-31" Fixtures.january
           [Manager.Step Fixtures.inside; Manager.Complete]
           Fixtures.last_request).
  - vm_compute. reflexivity.
  - vm_compute. constructor.
  - unfold Fixtures.last_request. cbn [Http.body_events]. constructor.
Defined.

Lemma sent_events_are_the_accepted_rows_witness :
  concat (map Http.body_events
            (Manager.sent
               (Manager.run
                  (Manager.startImport true 1 Sample.importId "2024-01-01"
                     "2024-01-31")
                  [Manager.Step Fixtures.inside; Manager.Step Fixtures.outside;
                   Manager.Complete])))
  = map (fun row => to_record (toUmamiEvent row))
        (filter (fun row => Manager.accepted Fixtures.january row = true)
                [Fixtures.inside; Fixtures.outside]).
Proof.
  apply (sent_events_are_the_accepted_rows true 1 Sample.importId
           "2024-01-01" "2024-01-31" Fixtures.january
           [Fixtures.inside; Fixtures.outside]
           [Manager.Step Fixtures.inside; Manager.Step Fixtures.outside;
            Manager.Complete]).
  - vm_compute. reflexivity.
  - repeat constructor.
  - vm_compute. reflexivity.
Defined.

Lemma failed_upload_is_final_witness :
  Manager.sent
    (Manager.run
       (Manager.deliver Sample.world
          (Manager.Settle 0 (Http.Rejected (Http.ThrownError "Failed to fetch"))))
       [Manager.Step Fixtures.inside; Manager.Complete])
  = Manager.sent Sample.world.
Proof.
  apply (failed_upload_is_final Sample.world 0%nat Fixtures.last_request
           (Http.Rejected (Http.ThrownError "Failed to fetch"))
           [Manager.Step Fixtures.inside; Manager.Complete]).
  - vm_compute. reflexivity.
  - reflexivity.
Defined.

Lemma completion_reported_while_uploads_pending_witness :
  Manager.completions
    (Manager.deliver Fixtures.two_pending (Manager.Settle 1 Fixtures.ok_reply))
  = Manager.completions Fixtures.two_pending
    ++ [(true, "Import completed successfully")]
  /\ Manager.inflight
       (Manager.deliver Fixtures.two_pending (Manager.Settle 1 Fixtures.ok_reply))
     <> [].
Proof.
  apply (completion_reported_while_uploads_pending Fixtures.two_pending 1%nat
           Fixtures.last_request Fixtures.ok_reply).
  - rewrite two_pending_shape. reflexivity.
  - rewrite two_pending_shape. cbn [Manager.inflight length]. lia.
  - rewrite two_pending_shape. reflexivity.
  - rewrite two_pending_shape. reflexivity.
  - rewrite two_pending_shape. reflexivity.
  - reflexivity.
Defined.

Lemma invalid_bound_never_parses_witness :
  Manager.sent
    (Manager.run
       (Manager.startImport true 1 Sample.importId "2024-13-01" "2024-01-31")
       [Manager.Step Fixtures.inside; Manager.Complete])
  = [].
Proof.
  refine (proj1 (proj2 (invalid_bound_never_parses 1 Sample.importId
                          "2024-13-01" "2024-01-31" _
                          [Manager.Step Fixtures.inside; Manager.Complete] _))).
  vm_compute. reflexivity.
Defined.

Lemma small_file_is_one_request_witness :
  Manager.completions
    (Manager.deliver
       (Manager.run
          (Manager.startImport true 1 Sample.importId "2024-01-01" "2024-01-31")
          (map Manager.Step [Fixtures.inside; Fixtures.outside]
           ++ [Manager.Complete]))
       (Manager.Settle 0 Fixtures.ok_reply))
  = [(true, "Import completed successfully")].
Proof.
  refine (proj2 (proj2 (proj2 (proj2
            (small_file_is_one_request 1 Sample.importId "2024-01-01"
               "2024-01-31" Fixtures.january
               [Fixtures.inside; Fixtures.outside] Fixtures.ok_reply _ _ _))))).
  - vm_compute. reflexivity.
  - vm_compute. reflexivity.
  - reflexivity.
Defined.

Lemma worker_totals_witness :
  last (Worker.posted
          (Worker.run Fixtures.worker0
             (map worker_step Fixtures.steps ++ [Worker.Complete])))
  = Some (Worker.COMPLETE 1 1 1).
Proof.
  refine (proj1 (worker_totals "2024-01-01" "2024-01-31" Fixtures.january
                   Fixtures.worker0 Fixtures.steps _ _)).
  - vm_compute. reflexivity.
  - vm_compute. reflexivity.
Defined.

Lemma worker_chunks_carry_accepted_rows_witness :
  concat (chunk_events
            (Worker.posted
               (Worker.run Fixtures.worker0
                  (map worker_step Fixtures.steps ++ [Worker.Complete]))))
  = [toUmamiEvent Fixtures.inside].
Proof.
  refine (proj1 (worker_chunks_carry_accepted_rows "2024-01-01" "2024-01-31"
                   Fixtures.january Fixtures.worker0 Fixtures.steps _ _)).
  - vm_compute. reflexivity.
  - vm_compute. reflexivity.
Defined.


Lemma oversized_or_malformed_batch_is_rejected_witness :
  Server.batchImportEvents (Sample.env false)
    (Http.mkRequest "1" Sample.importId [∅] (Some false))
    (Sample.store Server.pending)
  = (Sample.store Server.pending, Server.reply_error 400 "Validation error").
Proof.
  apply (oversized_or_malformed_batch_is_rejected (Sample.env false)).
  right. exists ∅. split; [constructor|].
  vm_compute. reflexivity.
Defined.

Lemma other_sessions_are_untouched_witness :
  Server.imports
    (fst (Server.batchImportEvents (Sample.env false)
            (Sample.request [Sample.event "2024-01-05 10:00:00"] true)
            (Sample.store Server.pending)))
  !! "00000000-0000-0000-0000-000000000000"
  = Server.imports (Sample.store Server.pending)
    !! "00000000-0000-0000-0000-000000000000".
Proof.
  apply (other_sessions_are_untouched (Sample.env false)
           (Sample.request [Sample.event "2024-01-05 10:00:00"] true)
           (Sample.store Server.pending)).
  vm_compute. discriminate.
Defined.

Lemma imported_count_matches_store_witness :
  exists s' rows,
    Server.imports
      (fst (Server.batchImportEvents (Sample.env false)
              (Sample.request [Sample.event "2024-01-05 10:00:00"] true)
              (Sample.store Server.pending)))
    !! Sample.importId = Some s'
    /\ Server.events_table
         (fst (Server.batchImportEvents (Sample.env false)
                 (Sample.request [Sample.event "2024-01-05 10:00:00"] true)
                 (Sample.store Server.pending)))
       = Server.events_table (Sample.store Server.pending) ++ rows
    /\ Http.importedCount
         (Http.body
            (snd (Server.batchImportEvents (Sample.env false)
                    (Sample.request [Sample.event "2024-01-05 10:00:00"] true)
                    (Sample.store Server.pending))))
       = Some (Z.of_nat (length rows))
    /\ Server.importedEvents s' = 0 + Z.of_nat (length rows).
Proof.
  destruct (imported_count_matches_store (Sample.env false)
              (Sample.request [Sample.event "2024-01-05 10:00:00"] true)
              (Sample.store Server.pending) (Sample.session Server.pending))
    as (s' & rows & H1 & H2 & H3 & _).
  - vm_compute. reflexivity.
  - destruct H3 as [H3 H4]; [vm_compute; reflexivity|].
    exists s', rows. split; [exact H1|]. split; [exact H2|].
    split; [exact H3|exact H4].
Defined.

Lemma session_lifecycle_witness :
  exists s',
    Server.imports
      (fst (Server.batchImportEvents (Sample.env false)
              (Sample.request [Sample.event "2024-01-05 10:00:00"] true)
              (Sample.store Server.pending)))
    !! Sample.importId = Some s'
    /\ Server.siteId s' = 1.
Proof.
  destruct (session_lifecycle (Sample.env false)
              (Sample.request [Sample.event "2024-01-05 10:00:00"] true)
              (Sample.store Server.pending) (Sample.session Server.pending))
    as (s' & H1 & H2 & _).
  - vm_compute. reflexivity.
  - exists s'. split; [exact H1|exact H2].
Defined.

Lemma success_reply_settles_status_witness :
  exists s',
    Server.imports
      (fst (Server.batchImportEvents (Sample.env false)
              (Sample.request [Sample.event "2024-01-05 10:00:00"] true)
              (Sample.store Server.pending)))
    !! Sample.importId = Some s'
    /\ Js.truthy (Server.platform s') = true
    /\ Server.status s' = Server.completed.
Proof.
  apply (success_reply_settles_status (Sample.env false)
           (Sample.request [Sample.event "2024-01-05 10:00:00"] true)
           (Sample.store Server.pending) (Sample.session Server.pending)).
  - vm_compute. reflexivity.
  - vm_compute. reflexivity.
Defined.

Lemma tracker_failure_fails_session_witness :
  snd (Server.batchImportEvents Fixtures.env_no_tracker
         (Sample.request [Sample.event "2024-01-05 10:00:00"] true)
         (Sample.store Server.pending))
  = Http.mkResponse 500
      (Http.mkBody (Some false) None None (Some "no subscription")
                   (Some "Failed to insert events")).
Proof.
  refine (proj1 (tracker_failure_fails_session Fixtures.env_no_tracker
                   (Sample.request [Sample.event "2024-01-05 10:00:00"] true)
                   (Sample.store Server.pending) _ _ _
                   (Http.ThrownError "no subscription") _ _)).
  - vm_compute. reflexivity.
  - reflexivity.
Defined.

Lemma partition_accounts_for_every_event_witness :
  exists within skipped tr',
    Server.partition_quota (Sample.env false) Sample.window
      [Sample.event "2024-01-05 10:00:00"; Sample.event ""] [] 0
    = (within, skipped, tr')
    /\ Z.of_nat (length within) + skipped
       + Z.of_nat (length (filter (fun e => created_at e = "")
                             [Sample.event "2024-01-05 10:00:00";
                              Sample.event ""]))
       = 2.
Proof.
  eexists _, _, _. split; [vm_compute; reflexivity|].
  refine (proj2 (proj2 (partition_accounts_for_every_event (Sample.env false)
                          Sample.window _
                          [Sample.event "2024-01-05 10:00:00"; Sample.event ""]
                          _ _ _))).
  vm_compute. reflexivity.
Defined.

Lemma csv_by_extension_witness :
  ImportManager.is_csv (ImportManager.mkFile "events.2024.CSV" 1024 "") = true.
Proof.
  refine (csv_by_extension "events.2024" "CSV" "" 1024 _).
  intros c Hc. revert c Hc. apply Forall_forall.
  repeat (constructor; [discriminate|]). constructor.
Defined.

Lemma validated_form_is_submitted_witness :
  exists file,
    [Fixtures.accented_file] = [file]
    /\ ImportManager.size file <= ImportManager.MAX_FILE_SIZE true
    /\ ImportManager.is_csv file = true
    /\ Z.of_nat (ImportManager.utf16_length (ImportManager.name file)) <= 255
    /\ ImportManager.onSubmit true [Fixtures.accented_file]
       = (if ImportManager.CONFIRM_THRESHOLD true <? ImportManager.size file
          then ImportManager.AskConfirmation
          else ImportManager.ExecuteImport)
    /\ ImportManager.CONFIRM_THRESHOLD true < ImportManager.MAX_FILE_SIZE true.
Proof.
  apply (validated_form_is_submitted true [Fixtures.accented_file]).
  vm_compute. reflexivity.
Defined.
